(** * m5_soundfile: frame time codes, time anchors and the streaming objects

    A shallow embedding of the scheduling arithmetic of [m5_timeanchor.c]
    and of the [m5_readsf~] / [m5_writesf~] objects of [m5_soundfile.c]
    (their messages, the block callback of the player, the fifo set-up and
    the seek of its worker), followed by the properties established about
    them.

    C data is modelled as follows.
    - [long], [ssize_t], [off_t]: a [Z] kept in the signed 64-bit range by
      [wrap_long]; [size_t], [unsigned long]: a [Z] reduced by [wrap_ulong];
      [int]: a [Z] reduced by [wrap_int].  Division and remainder are the
      truncating [Z.quot] and [Z.rem] of C.
    - [t_float] (binary32) and [double] (binary64): the [spec_float] of the
      standard library, with its round-to-nearest-even operations.
    - a conversion from floating point to an integer type that C leaves
      undefined (NaN, infinities, values out of range) is [None]. *)

From Stdlib Require Import ZArith Lia Bool List Ascii String.
From Stdlib Require Import SpecFloat.
Import ListNotations.
Local Open Scope Z_scope.

(** ** Machine integers *)

Definition LONG_MIN : Z := - 2 ^ 63.
Definition LONG_MAX : Z := 2 ^ 63 - 1.
Definition ULONG_MAX : Z := 2 ^ 64 - 1.
Definition INT_MIN : Z := - 2 ^ 31.
Definition INT_MAX : Z := 2 ^ 31 - 1.

Definition wrap_long (z : Z) : Z := (z + 2 ^ 63) mod 2 ^ 64 - 2 ^ 63.
Definition wrap_ulong (z : Z) : Z := z mod 2 ^ 64.
Definition wrap_int (z : Z) : Z := (z + 2 ^ 31) mod 2 ^ 32 - 2 ^ 31.

Definition in_long (z : Z) : bool := (LONG_MIN <=? z) && (z <=? LONG_MAX).
Definition in_ulong (z : Z) : bool := (0 <=? z) && (z <=? ULONG_MAX).
Definition in_int (z : Z) : bool := (INT_MIN <=? z) && (z <=? INT_MAX).

(** [labs] of the C library; [labs(LONG_MIN)] wraps back to [LONG_MIN]. *)
Definition labs (z : Z) : Z := wrap_long (Z.abs z).

(** ** Floating point *)

(** Modelled from the spec: [t_float] is declared in the host header
    [m_pd.h], which is not part of the repository; the spec describes a
    time code as "three single-precision floats" and the source takes
    16777216 as the "max sequential integer representable in float". *)
Definition t_float := spec_float.
Definition float_prec : Z := 24.
Definition float_emax : Z := 128.

Definition double := spec_float.
Definition double_prec : Z := 53.
Definition double_emax : Z := 1024.

(** Integer part of a finite datum, rounded toward zero, toward minus
    infinity and toward plus infinity. *)
Definition SFtrunc (x : spec_float) : option Z :=
  match x with
  | S754_zero _ => Some 0
  | S754_finite s m e => Some (cond_Zopp s (Z.shiftl (Zpos m) e))
  | _ => None
  end.

Definition SFfloor (x : spec_float) : option Z :=
  match x with
  | S754_zero _ => Some 0
  | S754_finite s m e => Some (Z.shiftl (cond_Zopp s (Zpos m)) e)
  | _ => None
  end.

Definition SFceil (x : spec_float) : option Z :=
  match x with
  | S754_zero _ => Some 0
  | S754_finite s m e => Some (- Z.shiftl (cond_Zopp (negb s) (Zpos m)) e)
  | _ => None
  end.

(** The casts [(long)x], [(unsigned long)x] and [(int)x]. *)
Definition long_of_float (x : spec_float) : option Z :=
  match SFtrunc x with
  | Some z => if in_long z then Some z else None
  | None => None
  end.

Definition ulong_of_float (x : spec_float) : option Z :=
  match SFtrunc x with
  | Some z => if in_ulong z then Some z else None
  | None => None
  end.

Definition int_of_float (x : spec_float) : option Z :=
  match SFtrunc x with
  | Some z => if in_int z then Some z else None
  | None => None
  end.

(** The casts [(t_float)n] and [(double)n] of an integer. *)
Definition float_of_long (n : Z) : t_float :=
  binary_normalize float_prec float_emax n 0 false.

Definition double_of_long (n : Z) : double :=
  binary_normalize double_prec double_emax n 0 false.

(** The cast [(double)f] of a [t_float]: the same number, in the
    canonical form of the wider format. *)
Definition double_of_float (f : t_float) : double :=
  match f with
  | S754_finite s m e => binary_round double_prec double_emax s m e
  | _ => f
  end.

(** [floor] and [ceil] of the C library, from double to double. *)
Definition integral_double (s : bool) (z : Z) : double :=
  match z with
  | Z0 => S754_zero s
  | _ => binary_normalize double_prec double_emax z 0 s
  end.

Definition floor (x : double) : double :=
  match x with
  | S754_finite s m e =>
      if 0 <=? e then x
      else integral_double s (Z.shiftl (cond_Zopp s (Zpos m)) e)
  | _ => x
  end.

Definition ceil (x : double) : double :=
  match x with
  | S754_finite s m e =>
      if 0 <=? e then x
      else integral_double s (- Z.shiftl (cond_Zopp (negb s) (Zpos m)) e)
  | _ => x
  end.

(** The canonical datum of precision [prec] for the number
    [(-1)^s * P * 2^e], when [P] has at most [prec] binary digits:
    the mantissa is shifted left until it has exactly [prec] digits. *)
Definition pshl (p : positive) (k : Z) : positive :=
  match k with
  | Zpos n => Pos.iter xO p n
  | _ => p
  end.

Definition SFcanon (prec : Z) (s : bool) (P : positive) (e : Z) : spec_float :=
  S754_finite s (pshl P (prec - Zpos (digits2_pos P)))
    (e + Zpos (digits2_pos P) - prec).

(** Exponents of the normal range of a format. *)
Definition normal_exp (prec emax e : Z) : Prop :=
  3 - emax - prec <= e <= emax - prec.

(** The double constants of the sources. *)
Definition double_one : double := double_of_long 1.
Definition double_minus_one : double := double_of_long (-1).
Definition float_one : t_float := float_of_long 1.
Definition float_minus_one : t_float := float_of_long (-1).

(** Sequencing of computations that may be undefined. *)
Definition bind {A B : Type} (o : option A) (f : A -> option B) : option B :=
  match o with
  | Some a => f a
  | None => None
  end.

Notation "x <- c ;; k" := (bind c (fun x => k))
  (at level 61, c at next level, right associativity).

(** ** m5_timeanchor.c: frame time codes *)

(* max sequential integer representable in float *)
Definition FRAME_FLOAT_EPOCH : Z := 16777216.

Record t_m5FrameTimeCode : Type := mkFTC {
  sign : t_float;
  epoch : t_float;
  frames : t_float
}.

Definition m5_frame_time_code_from_frames (n : Z) : t_m5FrameTimeCode :=
  let aframes := labs n in
  {| sign := if n <? 0 then float_minus_one else float_one;
     epoch := float_of_long (Z.quot aframes FRAME_FLOAT_EPOCH);
     frames := float_of_long (Z.rem aframes FRAME_FLOAT_EPOCH) |}.

Definition m5_frames_from_time_code (c : t_m5FrameTimeCode) : option Z :=
  s <- long_of_float (sign c) ;;
  e <- long_of_float (epoch c) ;;
  f <- long_of_float (frames c) ;;
  Some (wrap_long (s * wrap_long (wrap_long (e * FRAME_FLOAT_EPOCH) + f))).

Definition m5_frame_time_code_add (in1 in2 : t_m5FrameTimeCode)
  : option t_m5FrameTimeCode :=
  in1Frames <- m5_frames_from_time_code in1 ;;
  in2Frames <- m5_frames_from_time_code in2 ;;
  let sum := wrap_long (in1Frames + in2Frames) in
  Some (m5_frame_time_code_from_frames sum).

Definition m5_frame_time_code_multiply_scalar (in1 : t_m5FrameTimeCode) (s : t_float)
  : option t_m5FrameTimeCode :=
  in1Frames <- m5_frames_from_time_code in1 ;;
  product <- long_of_float
               (floor (SFmul double_prec double_emax
                         (double_of_long in1Frames) (double_of_float s))) ;;
  Some (m5_frame_time_code_from_frames product).

Definition m5_frame_time_code_compare (left right : t_m5FrameTimeCode) : option Z :=
  leftFrames <- m5_frames_from_time_code left ;;
  rightFrames <- m5_frames_from_time_code right ;;
  if leftFrames >? rightFrames then Some 1
  else if leftFrames =? rightFrames then Some 0
  else Some (-1).

(** The functions below return a [char] status and write their result
    through [out]; the model pairs the status with the value written,
    [None] when [out] is left untouched. *)
Definition m5_loop_position_from_clock_time (clock : double)
    (loop_length : t_m5FrameTimeCode) : option (Z * option t_m5FrameTimeCode) :=
  loop_frames <- m5_frames_from_time_code loop_length ;;
  if loop_frames <=? 0 then Some (1, None)
  else
    c <- long_of_float clock ;;
    let now_frame := Z.rem c loop_frames in
    Some (0, Some (m5_frame_time_code_from_frames now_frame)).

(* 'safety' allows for a constant offset for every calculation in case
   some extra time is needed *)
Definition m5_loop_start_from_clock_time (clock : double)
    (offset loop_length : t_m5FrameTimeCode) (offset_loops safety : Z)
  : option (Z * option t_m5FrameTimeCode) :=
  offset_frames <- m5_frames_from_time_code offset ;;
  loop_frames <- m5_frames_from_time_code loop_length ;;
  c <- long_of_float clock ;;
  let lclock := wrap_long (c - offset_frames) in
  if loop_frames <? 0 then Some (1, None)
  else if loop_frames =? 0 then
    Some (0, Some (m5_frame_time_code_from_frames (wrap_long (lclock + safety))))
  else
    let now_frame := Z.rem lclock loop_frames in
    if now_frame =? 0 then
      Some (0, Some (m5_frame_time_code_from_frames
                       (wrap_long (wrap_long (lclock + wrap_long (offset_loops * loop_frames))
                                   + safety))))
    else
      let next_start_frame :=
        wrap_long (wrap_long (wrap_long (wrap_long (wrap_long (lclock + loop_frames)
                                                    + offset_frames)
                                         - now_frame)
                              + wrap_long (offset_loops * loop_frames))
                   + safety) in
      Some (0, Some (m5_frame_time_code_from_frames next_start_frame)).

Definition m5_loops_containing_duration (inDuration loop_length : t_m5FrameTimeCode)
  : option (Z * option double) :=
  duration_frames <- m5_frames_from_time_code inDuration ;;
  if duration_frames <? 0 then Some (1, None)
  else
    loop_frames <- m5_frames_from_time_code loop_length ;;
    if loop_frames <=? 0 then Some (1, None)
    else
      Some (0, Some (SFdiv double_prec double_emax
                       (double_of_long duration_frames) (double_of_long loop_frames))).

(** Atoms of a host message. *)
Inductive t_atom : Type :=
| A_FLOAT (f : t_float)
| A_SYMBOL (s : string).

Definition atom_getfloat (a : t_atom) : t_float :=
  match a with
  | A_FLOAT f => f
  | A_SYMBOL _ => S754_zero false
  end.

(** [m5_frame_time_code_from_atoms argc a out]: the argument vector is a
    list, [argc] its length; [None] is the status 1. *)
Definition m5_frame_time_code_from_atoms (a : list t_atom) : option t_m5FrameTimeCode :=
  match a with
  | [A_FLOAT s; A_FLOAT e; A_FLOAT f] => Some (mkFTC s e f)
  | _ => None
  end.

Definition m5_frame_time_code_init : t_m5FrameTimeCode :=
  mkFTC float_one (S754_zero false) (S754_zero false).

(** *** Time codes in messages *)

(** [m5_frame_time_code_out ftc outlet]: the list of three floats sent to
    the outlet. *)
Definition m5_frame_time_code_out (ftc : t_m5FrameTimeCode) : list t_atom :=
  [A_FLOAT (sign ftc); A_FLOAT (epoch ftc); A_FLOAT (frames ftc)].


(** The loop-boundary calculator as the specification words it: the
    remainder is the Euclidean one, over unbounded integers; [None] is
    "invalid". *)
Definition spec_loop_start (clock o l k s : Z) : option Z :=
  let clk := clock - o in
  if l <? 0 then None
  else if l =? 0 then Some (clk + s)
  else
    let r := clk mod l in
    if r =? 0 then Some (clk + k * l + s)
    else Some (clk + l + o - r + k * l + s).


(** The scalar product as the specification words it: the floor of the
    exact product of the frame count by the scalar, saturated at
    [+-(2^63 - 1)]. *)
Definition spec_floor_product (n : Z) (s : t_float) : option Z :=
  match s with
  | S754_zero _ => Some 0
  | S754_finite sg m e => Some (Z.shiftl (n * cond_Zopp sg (Zpos m)) e)
  | _ => None
  end.

Definition spec_multiply_scalar (a : t_m5FrameTimeCode) (s : t_float)
  : option t_m5FrameTimeCode :=
  n <- m5_frames_from_time_code a ;;
  p <- spec_floor_product n s ;;
  Some (m5_frame_time_code_from_frames (Z.max (- LONG_MAX) (Z.min LONG_MAX p))).


(** ** m5_timeanchor.c: the time anchor *)

(** The host's logical clock, of which the sources use two entry points. *)
Record t_clock_host : Type := mkHost {
  clock_getlogicaltime : double;
  (* [clock_gettimesincewithunits prevsystime units sampflag] *)
  clock_gettimesincewithunits : double -> double -> Z -> double
}.

(* indicates that TIME ANCHOR hasn't been read yet.
   T=0 will be defined on first request for time. *)
Definition MARK_TIME_ANCHOR : double := double_minus_one.

Record t_m5TimeAnchor : Type := mkAnchor {
  x_sym : string;
  x_usedindsp : Z;
  x_starttime : double
}.

Definition m5_time_anchor_new (s : string) : t_m5TimeAnchor :=
  {| x_sym := s; x_usedindsp := 0; x_starttime := MARK_TIME_ANCHOR |}.

Definition m5_time_anchor_mark (h : t_clock_host) (x : t_m5TimeAnchor) : t_m5TimeAnchor :=
  {| x_sym := x_sym x; x_usedindsp := x_usedindsp x;
     x_starttime := clock_getlogicaltime h |}.

Definition m5_time_anchor_get_starttime (h : t_clock_host) (x : t_m5TimeAnchor)
  : t_m5TimeAnchor * double :=
  if SFeqb (x_starttime x) MARK_TIME_ANCHOR then
    (* get current time on first access *)
    let x' := {| x_sym := x_sym x; x_usedindsp := x_usedindsp x;
                 x_starttime := clock_getlogicaltime h |} in
    (x', x_starttime x')
  else (x, x_starttime x).

Definition m5_time_anchor_get_time_since_start (h : t_clock_host) (x : t_m5TimeAnchor)
  : t_m5TimeAnchor * option Z :=
  let '(x', start) := m5_time_anchor_get_starttime h x in
  let r := ceil (clock_gettimesincewithunits h start double_one 1) in
  (x', ulong_of_float r).

Definition m5_time_anchor_usedindsp (x : t_m5TimeAnchor) : t_m5TimeAnchor :=
  {| x_sym := x_sym x; x_usedindsp := 1; x_starttime := x_starttime x |}.



(** ** m5_soundfile.c: the streaming objects *)

(** Modelled from the spec: the soundfile descriptor is declared in
    [m5_soundfile.h], which is not part of the repository; its fields are
    those the sources use (descriptor, codec type, sample rate, channel
    count, bytes per sample, header size, endianness, bytes per frame,
    usable byte limit); the codec type is represented by its name. *)
Record t_soundfile : Type := mkSoundfile {
  sf_fd : Z;
  sf_type : option string;
  sf_samplerate : Z;
  sf_nchannels : Z;
  sf_bytespersample : Z;
  sf_headersize : Z;
  sf_bigendian : Z;
  sf_bytesperframe : Z;
  sf_bytelimit : Z
}.

Definition set_sf_fd (v : Z) (sf : t_soundfile) : t_soundfile :=
  mkSoundfile v (sf_type sf) (sf_samplerate sf) (sf_nchannels sf) (sf_bytespersample sf) (sf_headersize sf) (sf_bigendian sf) (sf_bytesperframe sf) (sf_bytelimit sf).
Definition set_sf_type (v : option string) (sf : t_soundfile) : t_soundfile :=
  mkSoundfile (sf_fd sf) v (sf_samplerate sf) (sf_nchannels sf) (sf_bytespersample sf) (sf_headersize sf) (sf_bigendian sf) (sf_bytesperframe sf) (sf_bytelimit sf).
Definition set_sf_samplerate (v : Z) (sf : t_soundfile) : t_soundfile :=
  mkSoundfile (sf_fd sf) (sf_type sf) v (sf_nchannels sf) (sf_bytespersample sf) (sf_headersize sf) (sf_bigendian sf) (sf_bytesperframe sf) (sf_bytelimit sf).
Definition set_sf_nchannels (v : Z) (sf : t_soundfile) : t_soundfile :=
  mkSoundfile (sf_fd sf) (sf_type sf) (sf_samplerate sf) v (sf_bytespersample sf) (sf_headersize sf) (sf_bigendian sf) (sf_bytesperframe sf) (sf_bytelimit sf).
Definition set_sf_bytespersample (v : Z) (sf : t_soundfile) : t_soundfile :=
  mkSoundfile (sf_fd sf) (sf_type sf) (sf_samplerate sf) (sf_nchannels sf) v (sf_headersize sf) (sf_bigendian sf) (sf_bytesperframe sf) (sf_bytelimit sf).
Definition set_sf_headersize (v : Z) (sf : t_soundfile) : t_soundfile :=
  mkSoundfile (sf_fd sf) (sf_type sf) (sf_samplerate sf) (sf_nchannels sf) (sf_bytespersample sf) v (sf_bigendian sf) (sf_bytesperframe sf) (sf_bytelimit sf).
Definition set_sf_bigendian (v : Z) (sf : t_soundfile) : t_soundfile :=
  mkSoundfile (sf_fd sf) (sf_type sf) (sf_samplerate sf) (sf_nchannels sf) (sf_bytespersample sf) (sf_headersize sf) v (sf_bytesperframe sf) (sf_bytelimit sf).
Definition set_sf_bytesperframe (v : Z) (sf : t_soundfile) : t_soundfile :=
  mkSoundfile (sf_fd sf) (sf_type sf) (sf_samplerate sf) (sf_nchannels sf) (sf_bytespersample sf) (sf_headersize sf) (sf_bigendian sf) v (sf_bytelimit sf).
Definition set_sf_bytelimit (v : Z) (sf : t_soundfile) : t_soundfile :=
  mkSoundfile (sf_fd sf) (sf_type sf) (sf_samplerate sf) (sf_nchannels sf) (sf_bytespersample sf) (sf_headersize sf) (sf_bigendian sf) (sf_bytesperframe sf) v.

Definition SFMAXBYTES : Z := LONG_MAX.
Definition SFMAXFRAMES : Z := ULONG_MAX.

Definition m5_soundfile_clear : t_soundfile :=
  {| sf_fd := -1; sf_type := None; sf_samplerate := 0; sf_nchannels := 0;
     sf_bytespersample := 0; sf_headersize := 0; sf_bigendian := 0;
     sf_bytesperframe := 0; sf_bytelimit := SFMAXBYTES |}.

Definition MAXVECSIZE : Z := 128.
Definition READSIZE : Z := 65536.
Definition WRITESIZE : Z := 65536.
Definition DEFBUFPERCHAN : Z := 262144.
Definition MINBUFSIZE : Z := 4 * READSIZE.
Definition MAXBUFSIZE : Z := 16777216.
Definition MAXSFCHANS : Z := 64.
Definition NOT_FOUND : Z := -1.

(* read/write thread request type *)
Inductive t_soundfile_request : Type :=
| REQUEST_NOTHING
| REQUEST_OPEN
| REQUEST_CLOSE
| REQUEST_QUIT
| REQUEST_BUSY.

(* read/write thread state *)
Inductive t_soundfile_state : Type :=
| STATE_IDLE
| STATE_STARTUP
| STATE_STREAM
| STATE_STARTUP_2          (* readsf: frames available was reported *)
| STATE_IDLE_2             (* writesf: waiting for written file to close *)
| STATE_STREAM_JUST_STARTING. (* writesf: waiting to start *)

Definition request_eqb (a b : t_soundfile_request) : bool :=
  match a, b with
  | REQUEST_NOTHING, REQUEST_NOTHING | REQUEST_OPEN, REQUEST_OPEN
  | REQUEST_CLOSE, REQUEST_CLOSE | REQUEST_QUIT, REQUEST_QUIT
  | REQUEST_BUSY, REQUEST_BUSY => true
  | _, _ => false
  end.

Definition state_eqb (a b : t_soundfile_state) : bool :=
  match a, b with
  | STATE_IDLE, STATE_IDLE | STATE_STARTUP, STATE_STARTUP
  | STATE_STREAM, STATE_STREAM | STATE_STARTUP_2, STATE_STARTUP_2
  | STATE_IDLE_2, STATE_IDLE_2
  | STATE_STREAM_JUST_STARTING, STATE_STREAM_JUST_STARTING => true
  | _, _ => false
  end.

Definition LOOP_SELF : Z := 0.
(* (2^53 - 1) * 2^971 *)
Definition DBL_MAX : double := S754_finite false 9007199254740991 971.
Definition START_NOW : double := double_minus_one.
Definition START_AT_THRESHOLD : double := DBL_MAX.
Definition END_AT_LOOP : double := double_minus_one.
Definition END_NEVER : double := DBL_MAX.
Definition END_NOW : double := S754_zero false.
Definition FRAMES_NOT_UPDATED : Z := ULONG_MAX.

(** The object structure shared by [m5_readsf~] and [m5_writesf~]
    ([typedef t_readsf t_writesf]).  The sample buffer, the audio vectors,
    the outlets, the clocks and the thread primitives are left out; what
    the code does to them is recorded as a [t_effect]. *)
Record t_readsf : Type := mkReadsf {
  x_bufsize : Z;
  x_noutlets : Z;
  x_vecsize : Z;
  x_state : t_soundfile_state;
  x_insamplerate : t_float;
  x_requestcode : t_soundfile_request;
  x_filename : string;
  x_fileerror : Z;
  x_sf : t_soundfile;
  x_onsetframes : Z;
  x_fifosize : Z;
  x_fifohead : Z;
  x_fifotail : Z;
  x_eof : Z;
  x_sigcountdown : Z;
  x_sigperiod : Z;
  x_frameswritten : Z;
  x_namelist : list string;
  x_m5SoundFileFramesAvailableFromOnset : Z;
  x_m5FramesWrittenReport : Z;
  x_m5WriteStartTimeReport : double;
  x_m5HeadTimeRequest : double;
  x_m5TailTime : double;
  x_m5TimeAnchorName : option string;
  x_m5TimeAnchor : option string;
  x_m5LocalTimeAnchor : double;
  x_m5LoopLength : Z;
  x_m5LoopLengthRequest : Z;
  x_m5LoopStart : Z;
  x_m5PlayStartTime : double;
  x_m5PlayEndTime : double;
  x_m5PerformedFifoSize : Z;
  x_m5PlayStartThreshold : t_float
}.

Definition t_writesf := t_readsf.

Definition set_x_bufsize (v : Z) (x : t_readsf) : t_readsf :=
  mkReadsf v (x_noutlets x) (x_vecsize x) (x_state x) (x_insamplerate x)
    (x_requestcode x) (x_filename x) (x_fileerror x) (x_sf x) (x_onsetframes
    x) (x_fifosize x) (x_fifohead x) (x_fifotail x) (x_eof x)
    (x_sigcountdown x) (x_sigperiod x) (x_frameswritten x) (x_namelist x)
    (x_m5SoundFileFramesAvailableFromOnset x) (x_m5FramesWrittenReport x)
    (x_m5WriteStartTimeReport x) (x_m5HeadTimeRequest x) (x_m5TailTime x)
    (x_m5TimeAnchorName x) (x_m5TimeAnchor x) (x_m5LocalTimeAnchor x)
    (x_m5LoopLength x) (x_m5LoopLengthRequest x) (x_m5LoopStart x)
    (x_m5PlayStartTime x) (x_m5PlayEndTime x) (x_m5PerformedFifoSize x)
    (x_m5PlayStartThreshold x).
Definition set_x_noutlets (v : Z) (x : t_readsf) : t_readsf :=
  mkReadsf (x_bufsize x) v (x_vecsize x) (x_state x) (x_insamplerate x)
    (x_requestcode x) (x_filename x) (x_fileerror x) (x_sf x) (x_onsetframes
    x) (x_fifosize x) (x_fifohead x) (x_fifotail x) (x_eof x)
    (x_sigcountdown x) (x_sigperiod x) (x_frameswritten x) (x_namelist x)
    (x_m5SoundFileFramesAvailableFromOnset x) (x_m5FramesWrittenReport x)
    (x_m5WriteStartTimeReport x) (x_m5HeadTimeRequest x) (x_m5TailTime x)
    (x_m5TimeAnchorName x) (x_m5TimeAnchor x) (x_m5LocalTimeAnchor x)
    (x_m5LoopLength x) (x_m5LoopLengthRequest x) (x_m5LoopStart x)
    (x_m5PlayStartTime x) (x_m5PlayEndTime x) (x_m5PerformedFifoSize x)
    (x_m5PlayStartThreshold x).
Definition set_x_vecsize (v : Z) (x : t_readsf) : t_readsf :=
  mkReadsf (x_bufsize x) (x_noutlets x) v (x_state x) (x_insamplerate x)
    (x_requestcode x) (x_filename x) (x_fileerror x) (x_sf x) (x_onsetframes
    x) (x_fifosize x) (x_fifohead x) (x_fifotail x) (x_eof x)
    (x_sigcountdown x) (x_sigperiod x) (x_frameswritten x) (x_namelist x)
    (x_m5SoundFileFramesAvailableFromOnset x) (x_m5FramesWrittenReport x)
    (x_m5WriteStartTimeReport x) (x_m5HeadTimeRequest x) (x_m5TailTime x)
    (x_m5TimeAnchorName x) (x_m5TimeAnchor x) (x_m5LocalTimeAnchor x)
    (x_m5LoopLength x) (x_m5LoopLengthRequest x) (x_m5LoopStart x)
    (x_m5PlayStartTime x) (x_m5PlayEndTime x) (x_m5PerformedFifoSize x)
    (x_m5PlayStartThreshold x).
Definition set_x_state (v : t_soundfile_state) (x : t_readsf) : t_readsf :=
  mkReadsf (x_bufsize x) (x_noutlets x) (x_vecsize x) v (x_insamplerate x)
    (x_requestcode x) (x_filename x) (x_fileerror x) (x_sf x) (x_onsetframes
    x) (x_fifosize x) (x_fifohead x) (x_fifotail x) (x_eof x)
    (x_sigcountdown x) (x_sigperiod x) (x_frameswritten x) (x_namelist x)
    (x_m5SoundFileFramesAvailableFromOnset x) (x_m5FramesWrittenReport x)
    (x_m5WriteStartTimeReport x) (x_m5HeadTimeRequest x) (x_m5TailTime x)
    (x_m5TimeAnchorName x) (x_m5TimeAnchor x) (x_m5LocalTimeAnchor x)
    (x_m5LoopLength x) (x_m5LoopLengthRequest x) (x_m5LoopStart x)
    (x_m5PlayStartTime x) (x_m5PlayEndTime x) (x_m5PerformedFifoSize x)
    (x_m5PlayStartThreshold x).
Definition set_x_insamplerate (v : t_float) (x : t_readsf) : t_readsf :=
  mkReadsf (x_bufsize x) (x_noutlets x) (x_vecsize x) (x_state x) v
    (x_requestcode x) (x_filename x) (x_fileerror x) (x_sf x) (x_onsetframes
    x) (x_fifosize x) (x_fifohead x) (x_fifotail x) (x_eof x)
    (x_sigcountdown x) (x_sigperiod x) (x_frameswritten x) (x_namelist x)
    (x_m5SoundFileFramesAvailableFromOnset x) (x_m5FramesWrittenReport x)
    (x_m5WriteStartTimeReport x) (x_m5HeadTimeRequest x) (x_m5TailTime x)
    (x_m5TimeAnchorName x) (x_m5TimeAnchor x) (x_m5LocalTimeAnchor x)
    (x_m5LoopLength x) (x_m5LoopLengthRequest x) (x_m5LoopStart x)
    (x_m5PlayStartTime x) (x_m5PlayEndTime x) (x_m5PerformedFifoSize x)
    (x_m5PlayStartThreshold x).
Definition set_x_requestcode (v : t_soundfile_request) (x : t_readsf) : t_readsf :=
  mkReadsf (x_bufsize x) (x_noutlets x) (x_vecsize x) (x_state x)
    (x_insamplerate x) v (x_filename x) (x_fileerror x) (x_sf x)
    (x_onsetframes x) (x_fifosize x) (x_fifohead x) (x_fifotail x) (x_eof x)
    (x_sigcountdown x) (x_sigperiod x) (x_frameswritten x) (x_namelist x)
    (x_m5SoundFileFramesAvailableFromOnset x) (x_m5FramesWrittenReport x)
    (x_m5WriteStartTimeReport x) (x_m5HeadTimeRequest x) (x_m5TailTime x)
    (x_m5TimeAnchorName x) (x_m5TimeAnchor x) (x_m5LocalTimeAnchor x)
    (x_m5LoopLength x) (x_m5LoopLengthRequest x) (x_m5LoopStart x)
    (x_m5PlayStartTime x) (x_m5PlayEndTime x) (x_m5PerformedFifoSize x)
    (x_m5PlayStartThreshold x).
Definition set_x_filename (v : string) (x : t_readsf) : t_readsf :=
  mkReadsf (x_bufsize x) (x_noutlets x) (x_vecsize x) (x_state x)
    (x_insamplerate x) (x_requestcode x) v (x_fileerror x) (x_sf x)
    (x_onsetframes x) (x_fifosize x) (x_fifohead x) (x_fifotail x) (x_eof x)
    (x_sigcountdown x) (x_sigperiod x) (x_frameswritten x) (x_namelist x)
    (x_m5SoundFileFramesAvailableFromOnset x) (x_m5FramesWrittenReport x)
    (x_m5WriteStartTimeReport x) (x_m5HeadTimeRequest x) (x_m5TailTime x)
    (x_m5TimeAnchorName x) (x_m5TimeAnchor x) (x_m5LocalTimeAnchor x)
    (x_m5LoopLength x) (x_m5LoopLengthRequest x) (x_m5LoopStart x)
    (x_m5PlayStartTime x) (x_m5PlayEndTime x) (x_m5PerformedFifoSize x)
    (x_m5PlayStartThreshold x).
Definition set_x_fileerror (v : Z) (x : t_readsf) : t_readsf :=
  mkReadsf (x_bufsize x) (x_noutlets x) (x_vecsize x) (x_state x)
    (x_insamplerate x) (x_requestcode x) (x_filename x) v (x_sf x)
    (x_onsetframes x) (x_fifosize x) (x_fifohead x) (x_fifotail x) (x_eof x)
    (x_sigcountdown x) (x_sigperiod x) (x_frameswritten x) (x_namelist x)
    (x_m5SoundFileFramesAvailableFromOnset x) (x_m5FramesWrittenReport x)
    (x_m5WriteStartTimeReport x) (x_m5HeadTimeRequest x) (x_m5TailTime x)
    (x_m5TimeAnchorName x) (x_m5TimeAnchor x) (x_m5LocalTimeAnchor x)
    (x_m5LoopLength x) (x_m5LoopLengthRequest x) (x_m5LoopStart x)
    (x_m5PlayStartTime x) (x_m5PlayEndTime x) (x_m5PerformedFifoSize x)
    (x_m5PlayStartThreshold x).
Definition set_x_sf (v : t_soundfile) (x : t_readsf) : t_readsf :=
  mkReadsf (x_bufsize x) (x_noutlets x) (x_vecsize x) (x_state x)
    (x_insamplerate x) (x_requestcode x) (x_filename x) (x_fileerror x) v
    (x_onsetframes x) (x_fifosize x) (x_fifohead x) (x_fifotail x) (x_eof x)
    (x_sigcountdown x) (x_sigperiod x) (x_frameswritten x) (x_namelist x)
    (x_m5SoundFileFramesAvailableFromOnset x) (x_m5FramesWrittenReport x)
    (x_m5WriteStartTimeReport x) (x_m5HeadTimeRequest x) (x_m5TailTime x)
    (x_m5TimeAnchorName x) (x_m5TimeAnchor x) (x_m5LocalTimeAnchor x)
    (x_m5LoopLength x) (x_m5LoopLengthRequest x) (x_m5LoopStart x)
    (x_m5PlayStartTime x) (x_m5PlayEndTime x) (x_m5PerformedFifoSize x)
    (x_m5PlayStartThreshold x).
Definition set_x_onsetframes (v : Z) (x : t_readsf) : t_readsf :=
  mkReadsf (x_bufsize x) (x_noutlets x) (x_vecsize x) (x_state x)
    (x_insamplerate x) (x_requestcode x) (x_filename x) (x_fileerror x)
    (x_sf x) v (x_fifosize x) (x_fifohead x) (x_fifotail x) (x_eof x)
    (x_sigcountdown x) (x_sigperiod x) (x_frameswritten x) (x_namelist x)
    (x_m5SoundFileFramesAvailableFromOnset x) (x_m5FramesWrittenReport x)
    (x_m5WriteStartTimeReport x) (x_m5HeadTimeRequest x) (x_m5TailTime x)
    (x_m5TimeAnchorName x) (x_m5TimeAnchor x) (x_m5LocalTimeAnchor x)
    (x_m5LoopLength x) (x_m5LoopLengthRequest x) (x_m5LoopStart x)
    (x_m5PlayStartTime x) (x_m5PlayEndTime x) (x_m5PerformedFifoSize x)
    (x_m5PlayStartThreshold x).
Definition set_x_fifosize (v : Z) (x : t_readsf) : t_readsf :=
  mkReadsf (x_bufsize x) (x_noutlets x) (x_vecsize x) (x_state x)
    (x_insamplerate x) (x_requestcode x) (x_filename x) (x_fileerror x)
    (x_sf x) (x_onsetframes x) v (x_fifohead x) (x_fifotail x) (x_eof x)
    (x_sigcountdown x) (x_sigperiod x) (x_frameswritten x) (x_namelist x)
    (x_m5SoundFileFramesAvailableFromOnset x) (x_m5FramesWrittenReport x)
    (x_m5WriteStartTimeReport x) (x_m5HeadTimeRequest x) (x_m5TailTime x)
    (x_m5TimeAnchorName x) (x_m5TimeAnchor x) (x_m5LocalTimeAnchor x)
    (x_m5LoopLength x) (x_m5LoopLengthRequest x) (x_m5LoopStart x)
    (x_m5PlayStartTime x) (x_m5PlayEndTime x) (x_m5PerformedFifoSize x)
    (x_m5PlayStartThreshold x).
Definition set_x_fifohead (v : Z) (x : t_readsf) : t_readsf :=
  mkReadsf (x_bufsize x) (x_noutlets x) (x_vecsize x) (x_state x)
    (x_insamplerate x) (x_requestcode x) (x_filename x) (x_fileerror x)
    (x_sf x) (x_onsetframes x) (x_fifosize x) v (x_fifotail x) (x_eof x)
    (x_sigcountdown x) (x_sigperiod x) (x_frameswritten x) (x_namelist x)
    (x_m5SoundFileFramesAvailableFromOnset x) (x_m5FramesWrittenReport x)
    (x_m5WriteStartTimeReport x) (x_m5HeadTimeRequest x) (x_m5TailTime x)
    (x_m5TimeAnchorName x) (x_m5TimeAnchor x) (x_m5LocalTimeAnchor x)
    (x_m5LoopLength x) (x_m5LoopLengthRequest x) (x_m5LoopStart x)
    (x_m5PlayStartTime x) (x_m5PlayEndTime x) (x_m5PerformedFifoSize x)
    (x_m5PlayStartThreshold x).
Definition set_x_fifotail (v : Z) (x : t_readsf) : t_readsf :=
  mkReadsf (x_bufsize x) (x_noutlets x) (x_vecsize x) (x_state x)
    (x_insamplerate x) (x_requestcode x) (x_filename x) (x_fileerror x)
    (x_sf x) (x_onsetframes x) (x_fifosize x) (x_fifohead x) v (x_eof x)
    (x_sigcountdown x) (x_sigperiod x) (x_frameswritten x) (x_namelist x)
    (x_m5SoundFileFramesAvailableFromOnset x) (x_m5FramesWrittenReport x)
    (x_m5WriteStartTimeReport x) (x_m5HeadTimeRequest x) (x_m5TailTime x)
    (x_m5TimeAnchorName x) (x_m5TimeAnchor x) (x_m5LocalTimeAnchor x)
    (x_m5LoopLength x) (x_m5LoopLengthRequest x) (x_m5LoopStart x)
    (x_m5PlayStartTime x) (x_m5PlayEndTime x) (x_m5PerformedFifoSize x)
    (x_m5PlayStartThreshold x).
Definition set_x_eof (v : Z) (x : t_readsf) : t_readsf :=
  mkReadsf (x_bufsize x) (x_noutlets x) (x_vecsize x) (x_state x)
    (x_insamplerate x) (x_requestcode x) (x_filename x) (x_fileerror x)
    (x_sf x) (x_onsetframes x) (x_fifosize x) (x_fifohead x) (x_fifotail x)
    v (x_sigcountdown x) (x_sigperiod x) (x_frameswritten x) (x_namelist x)
    (x_m5SoundFileFramesAvailableFromOnset x) (x_m5FramesWrittenReport x)
    (x_m5WriteStartTimeReport x) (x_m5HeadTimeRequest x) (x_m5TailTime x)
    (x_m5TimeAnchorName x) (x_m5TimeAnchor x) (x_m5LocalTimeAnchor x)
    (x_m5LoopLength x) (x_m5LoopLengthRequest x) (x_m5LoopStart x)
    (x_m5PlayStartTime x) (x_m5PlayEndTime x) (x_m5PerformedFifoSize x)
    (x_m5PlayStartThreshold x).
Definition set_x_sigcountdown (v : Z) (x : t_readsf) : t_readsf :=
  mkReadsf (x_bufsize x) (x_noutlets x) (x_vecsize x) (x_state x)
    (x_insamplerate x) (x_requestcode x) (x_filename x) (x_fileerror x)
    (x_sf x) (x_onsetframes x) (x_fifosize x) (x_fifohead x) (x_fifotail x)
    (x_eof x) v (x_sigperiod x) (x_frameswritten x) (x_namelist x)
    (x_m5SoundFileFramesAvailableFromOnset x) (x_m5FramesWrittenReport x)
    (x_m5WriteStartTimeReport x) (x_m5HeadTimeRequest x) (x_m5TailTime x)
    (x_m5TimeAnchorName x) (x_m5TimeAnchor x) (x_m5LocalTimeAnchor x)
    (x_m5LoopLength x) (x_m5LoopLengthRequest x) (x_m5LoopStart x)
    (x_m5PlayStartTime x) (x_m5PlayEndTime x) (x_m5PerformedFifoSize x)
    (x_m5PlayStartThreshold x).
Definition set_x_sigperiod (v : Z) (x : t_readsf) : t_readsf :=
  mkReadsf (x_bufsize x) (x_noutlets x) (x_vecsize x) (x_state x)
    (x_insamplerate x) (x_requestcode x) (x_filename x) (x_fileerror x)
    (x_sf x) (x_onsetframes x) (x_fifosize x) (x_fifohead x) (x_fifotail x)
    (x_eof x) (x_sigcountdown x) v (x_frameswritten x) (x_namelist x)
    (x_m5SoundFileFramesAvailableFromOnset x) (x_m5FramesWrittenReport x)
    (x_m5WriteStartTimeReport x) (x_m5HeadTimeRequest x) (x_m5TailTime x)
    (x_m5TimeAnchorName x) (x_m5TimeAnchor x) (x_m5LocalTimeAnchor x)
    (x_m5LoopLength x) (x_m5LoopLengthRequest x) (x_m5LoopStart x)
    (x_m5PlayStartTime x) (x_m5PlayEndTime x) (x_m5PerformedFifoSize x)
    (x_m5PlayStartThreshold x).
Definition set_x_frameswritten (v : Z) (x : t_readsf) : t_readsf :=
  mkReadsf (x_bufsize x) (x_noutlets x) (x_vecsize x) (x_state x)
    (x_insamplerate x) (x_requestcode x) (x_filename x) (x_fileerror x)
    (x_sf x) (x_onsetframes x) (x_fifosize x) (x_fifohead x) (x_fifotail x)
    (x_eof x) (x_sigcountdown x) (x_sigperiod x) v (x_namelist x)
    (x_m5SoundFileFramesAvailableFromOnset x) (x_m5FramesWrittenReport x)
    (x_m5WriteStartTimeReport x) (x_m5HeadTimeRequest x) (x_m5TailTime x)
    (x_m5TimeAnchorName x) (x_m5TimeAnchor x) (x_m5LocalTimeAnchor x)
    (x_m5LoopLength x) (x_m5LoopLengthRequest x) (x_m5LoopStart x)
    (x_m5PlayStartTime x) (x_m5PlayEndTime x) (x_m5PerformedFifoSize x)
    (x_m5PlayStartThreshold x).
Definition set_x_namelist (v : list string) (x : t_readsf) : t_readsf :=
  mkReadsf (x_bufsize x) (x_noutlets x) (x_vecsize x) (x_state x)
    (x_insamplerate x) (x_requestcode x) (x_filename x) (x_fileerror x)
    (x_sf x) (x_onsetframes x) (x_fifosize x) (x_fifohead x) (x_fifotail x)
    (x_eof x) (x_sigcountdown x) (x_sigperiod x) (x_frameswritten x) v
    (x_m5SoundFileFramesAvailableFromOnset x) (x_m5FramesWrittenReport x)
    (x_m5WriteStartTimeReport x) (x_m5HeadTimeRequest x) (x_m5TailTime x)
    (x_m5TimeAnchorName x) (x_m5TimeAnchor x) (x_m5LocalTimeAnchor x)
    (x_m5LoopLength x) (x_m5LoopLengthRequest x) (x_m5LoopStart x)
    (x_m5PlayStartTime x) (x_m5PlayEndTime x) (x_m5PerformedFifoSize x)
    (x_m5PlayStartThreshold x).
Definition set_x_m5SoundFileFramesAvailableFromOnset (v : Z) (x : t_readsf) : t_readsf :=
  mkReadsf (x_bufsize x) (x_noutlets x) (x_vecsize x) (x_state x)
    (x_insamplerate x) (x_requestcode x) (x_filename x) (x_fileerror x)
    (x_sf x) (x_onsetframes x) (x_fifosize x) (x_fifohead x) (x_fifotail x)
    (x_eof x) (x_sigcountdown x) (x_sigperiod x) (x_frameswritten x)
    (x_namelist x) v (x_m5FramesWrittenReport x) (x_m5WriteStartTimeReport
    x) (x_m5HeadTimeRequest x) (x_m5TailTime x) (x_m5TimeAnchorName x)
    (x_m5TimeAnchor x) (x_m5LocalTimeAnchor x) (x_m5LoopLength x)
    (x_m5LoopLengthRequest x) (x_m5LoopStart x) (x_m5PlayStartTime x)
    (x_m5PlayEndTime x) (x_m5PerformedFifoSize x) (x_m5PlayStartThreshold x).
Definition set_x_m5FramesWrittenReport (v : Z) (x : t_readsf) : t_readsf :=
  mkReadsf (x_bufsize x) (x_noutlets x) (x_vecsize x) (x_state x)
    (x_insamplerate x) (x_requestcode x) (x_filename x) (x_fileerror x)
    (x_sf x) (x_onsetframes x) (x_fifosize x) (x_fifohead x) (x_fifotail x)
    (x_eof x) (x_sigcountdown x) (x_sigperiod x) (x_frameswritten x)
    (x_namelist x) (x_m5SoundFileFramesAvailableFromOnset x) v
    (x_m5WriteStartTimeReport x) (x_m5HeadTimeRequest x) (x_m5TailTime x)
    (x_m5TimeAnchorName x) (x_m5TimeAnchor x) (x_m5LocalTimeAnchor x)
    (x_m5LoopLength x) (x_m5LoopLengthRequest x) (x_m5LoopStart x)
    (x_m5PlayStartTime x) (x_m5PlayEndTime x) (x_m5PerformedFifoSize x)
    (x_m5PlayStartThreshold x).
Definition set_x_m5WriteStartTimeReport (v : double) (x : t_readsf) : t_readsf :=
  mkReadsf (x_bufsize x) (x_noutlets x) (x_vecsize x) (x_state x)
    (x_insamplerate x) (x_requestcode x) (x_filename x) (x_fileerror x)
    (x_sf x) (x_onsetframes x) (x_fifosize x) (x_fifohead x) (x_fifotail x)
    (x_eof x) (x_sigcountdown x) (x_sigperiod x) (x_frameswritten x)
    (x_namelist x) (x_m5SoundFileFramesAvailableFromOnset x)
    (x_m5FramesWrittenReport x) v (x_m5HeadTimeRequest x) (x_m5TailTime x)
    (x_m5TimeAnchorName x) (x_m5TimeAnchor x) (x_m5LocalTimeAnchor x)
    (x_m5LoopLength x) (x_m5LoopLengthRequest x) (x_m5LoopStart x)
    (x_m5PlayStartTime x) (x_m5PlayEndTime x) (x_m5PerformedFifoSize x)
    (x_m5PlayStartThreshold x).
Definition set_x_m5HeadTimeRequest (v : double) (x : t_readsf) : t_readsf :=
  mkReadsf (x_bufsize x) (x_noutlets x) (x_vecsize x) (x_state x)
    (x_insamplerate x) (x_requestcode x) (x_filename x) (x_fileerror x)
    (x_sf x) (x_onsetframes x) (x_fifosize x) (x_fifohead x) (x_fifotail x)
    (x_eof x) (x_sigcountdown x) (x_sigperiod x) (x_frameswritten x)
    (x_namelist x) (x_m5SoundFileFramesAvailableFromOnset x)
    (x_m5FramesWrittenReport x) (x_m5WriteStartTimeReport x) v (x_m5TailTime
    x) (x_m5TimeAnchorName x) (x_m5TimeAnchor x) (x_m5LocalTimeAnchor x)
    (x_m5LoopLength x) (x_m5LoopLengthRequest x) (x_m5LoopStart x)
    (x_m5PlayStartTime x) (x_m5PlayEndTime x) (x_m5PerformedFifoSize x)
    (x_m5PlayStartThreshold x).
Definition set_x_m5TailTime (v : double) (x : t_readsf) : t_readsf :=
  mkReadsf (x_bufsize x) (x_noutlets x) (x_vecsize x) (x_state x)
    (x_insamplerate x) (x_requestcode x) (x_filename x) (x_fileerror x)
    (x_sf x) (x_onsetframes x) (x_fifosize x) (x_fifohead x) (x_fifotail x)
    (x_eof x) (x_sigcountdown x) (x_sigperiod x) (x_frameswritten x)
    (x_namelist x) (x_m5SoundFileFramesAvailableFromOnset x)
    (x_m5FramesWrittenReport x) (x_m5WriteStartTimeReport x)
    (x_m5HeadTimeRequest x) v (x_m5TimeAnchorName x) (x_m5TimeAnchor x)
    (x_m5LocalTimeAnchor x) (x_m5LoopLength x) (x_m5LoopLengthRequest x)
    (x_m5LoopStart x) (x_m5PlayStartTime x) (x_m5PlayEndTime x)
    (x_m5PerformedFifoSize x) (x_m5PlayStartThreshold x).
Definition set_x_m5TimeAnchorName (v : option string) (x : t_readsf) : t_readsf :=
  mkReadsf (x_bufsize x) (x_noutlets x) (x_vecsize x) (x_state x)
    (x_insamplerate x) (x_requestcode x) (x_filename x) (x_fileerror x)
    (x_sf x) (x_onsetframes x) (x_fifosize x) (x_fifohead x) (x_fifotail x)
    (x_eof x) (x_sigcountdown x) (x_sigperiod x) (x_frameswritten x)
    (x_namelist x) (x_m5SoundFileFramesAvailableFromOnset x)
    (x_m5FramesWrittenReport x) (x_m5WriteStartTimeReport x)
    (x_m5HeadTimeRequest x) (x_m5TailTime x) v (x_m5TimeAnchor x)
    (x_m5LocalTimeAnchor x) (x_m5LoopLength x) (x_m5LoopLengthRequest x)
    (x_m5LoopStart x) (x_m5PlayStartTime x) (x_m5PlayEndTime x)
    (x_m5PerformedFifoSize x) (x_m5PlayStartThreshold x).
Definition set_x_m5TimeAnchor (v : option string) (x : t_readsf) : t_readsf :=
  mkReadsf (x_bufsize x) (x_noutlets x) (x_vecsize x) (x_state x)
    (x_insamplerate x) (x_requestcode x) (x_filename x) (x_fileerror x)
    (x_sf x) (x_onsetframes x) (x_fifosize x) (x_fifohead x) (x_fifotail x)
    (x_eof x) (x_sigcountdown x) (x_sigperiod x) (x_frameswritten x)
    (x_namelist x) (x_m5SoundFileFramesAvailableFromOnset x)
    (x_m5FramesWrittenReport x) (x_m5WriteStartTimeReport x)
    (x_m5HeadTimeRequest x) (x_m5TailTime x) (x_m5TimeAnchorName x) v
    (x_m5LocalTimeAnchor x) (x_m5LoopLength x) (x_m5LoopLengthRequest x)
    (x_m5LoopStart x) (x_m5PlayStartTime x) (x_m5PlayEndTime x)
    (x_m5PerformedFifoSize x) (x_m5PlayStartThreshold x).
Definition set_x_m5LocalTimeAnchor (v : double) (x : t_readsf) : t_readsf :=
  mkReadsf (x_bufsize x) (x_noutlets x) (x_vecsize x) (x_state x)
    (x_insamplerate x) (x_requestcode x) (x_filename x) (x_fileerror x)
    (x_sf x) (x_onsetframes x) (x_fifosize x) (x_fifohead x) (x_fifotail x)
    (x_eof x) (x_sigcountdown x) (x_sigperiod x) (x_frameswritten x)
    (x_namelist x) (x_m5SoundFileFramesAvailableFromOnset x)
    (x_m5FramesWrittenReport x) (x_m5WriteStartTimeReport x)
    (x_m5HeadTimeRequest x) (x_m5TailTime x) (x_m5TimeAnchorName x)
    (x_m5TimeAnchor x) v (x_m5LoopLength x) (x_m5LoopLengthRequest x)
    (x_m5LoopStart x) (x_m5PlayStartTime x) (x_m5PlayEndTime x)
    (x_m5PerformedFifoSize x) (x_m5PlayStartThreshold x).
Definition set_x_m5LoopLength (v : Z) (x : t_readsf) : t_readsf :=
  mkReadsf (x_bufsize x) (x_noutlets x) (x_vecsize x) (x_state x)
    (x_insamplerate x) (x_requestcode x) (x_filename x) (x_fileerror x)
    (x_sf x) (x_onsetframes x) (x_fifosize x) (x_fifohead x) (x_fifotail x)
    (x_eof x) (x_sigcountdown x) (x_sigperiod x) (x_frameswritten x)
    (x_namelist x) (x_m5SoundFileFramesAvailableFromOnset x)
    (x_m5FramesWrittenReport x) (x_m5WriteStartTimeReport x)
    (x_m5HeadTimeRequest x) (x_m5TailTime x) (x_m5TimeAnchorName x)
    (x_m5TimeAnchor x) (x_m5LocalTimeAnchor x) v (x_m5LoopLengthRequest x)
    (x_m5LoopStart x) (x_m5PlayStartTime x) (x_m5PlayEndTime x)
    (x_m5PerformedFifoSize x) (x_m5PlayStartThreshold x).
Definition set_x_m5LoopLengthRequest (v : Z) (x : t_readsf) : t_readsf :=
  mkReadsf (x_bufsize x) (x_noutlets x) (x_vecsize x) (x_state x)
    (x_insamplerate x) (x_requestcode x) (x_filename x) (x_fileerror x)
    (x_sf x) (x_onsetframes x) (x_fifosize x) (x_fifohead x) (x_fifotail x)
    (x_eof x) (x_sigcountdown x) (x_sigperiod x) (x_frameswritten x)
    (x_namelist x) (x_m5SoundFileFramesAvailableFromOnset x)
    (x_m5FramesWrittenReport x) (x_m5WriteStartTimeReport x)
    (x_m5HeadTimeRequest x) (x_m5TailTime x) (x_m5TimeAnchorName x)
    (x_m5TimeAnchor x) (x_m5LocalTimeAnchor x) (x_m5LoopLength x) v
    (x_m5LoopStart x) (x_m5PlayStartTime x) (x_m5PlayEndTime x)
    (x_m5PerformedFifoSize x) (x_m5PlayStartThreshold x).
Definition set_x_m5LoopStart (v : Z) (x : t_readsf) : t_readsf :=
  mkReadsf (x_bufsize x) (x_noutlets x) (x_vecsize x) (x_state x)
    (x_insamplerate x) (x_requestcode x) (x_filename x) (x_fileerror x)
    (x_sf x) (x_onsetframes x) (x_fifosize x) (x_fifohead x) (x_fifotail x)
    (x_eof x) (x_sigcountdown x) (x_sigperiod x) (x_frameswritten x)
    (x_namelist x) (x_m5SoundFileFramesAvailableFromOnset x)
    (x_m5FramesWrittenReport x) (x_m5WriteStartTimeReport x)
    (x_m5HeadTimeRequest x) (x_m5TailTime x) (x_m5TimeAnchorName x)
    (x_m5TimeAnchor x) (x_m5LocalTimeAnchor x) (x_m5LoopLength x)
    (x_m5LoopLengthRequest x) v (x_m5PlayStartTime x) (x_m5PlayEndTime x)
    (x_m5PerformedFifoSize x) (x_m5PlayStartThreshold x).
Definition set_x_m5PlayStartTime (v : double) (x : t_readsf) : t_readsf :=
  mkReadsf (x_bufsize x) (x_noutlets x) (x_vecsize x) (x_state x)
    (x_insamplerate x) (x_requestcode x) (x_filename x) (x_fileerror x)
    (x_sf x) (x_onsetframes x) (x_fifosize x) (x_fifohead x) (x_fifotail x)
    (x_eof x) (x_sigcountdown x) (x_sigperiod x) (x_frameswritten x)
    (x_namelist x) (x_m5SoundFileFramesAvailableFromOnset x)
    (x_m5FramesWrittenReport x) (x_m5WriteStartTimeReport x)
    (x_m5HeadTimeRequest x) (x_m5TailTime x) (x_m5TimeAnchorName x)
    (x_m5TimeAnchor x) (x_m5LocalTimeAnchor x) (x_m5LoopLength x)
    (x_m5LoopLengthRequest x) (x_m5LoopStart x) v (x_m5PlayEndTime x)
    (x_m5PerformedFifoSize x) (x_m5PlayStartThreshold x).
Definition set_x_m5PlayEndTime (v : double) (x : t_readsf) : t_readsf :=
  mkReadsf (x_bufsize x) (x_noutlets x) (x_vecsize x) (x_state x)
    (x_insamplerate x) (x_requestcode x) (x_filename x) (x_fileerror x)
    (x_sf x) (x_onsetframes x) (x_fifosize x) (x_fifohead x) (x_fifotail x)
    (x_eof x) (x_sigcountdown x) (x_sigperiod x) (x_frameswritten x)
    (x_namelist x) (x_m5SoundFileFramesAvailableFromOnset x)
    (x_m5FramesWrittenReport x) (x_m5WriteStartTimeReport x)
    (x_m5HeadTimeRequest x) (x_m5TailTime x) (x_m5TimeAnchorName x)
    (x_m5TimeAnchor x) (x_m5LocalTimeAnchor x) (x_m5LoopLength x)
    (x_m5LoopLengthRequest x) (x_m5LoopStart x) (x_m5PlayStartTime x) v
    (x_m5PerformedFifoSize x) (x_m5PlayStartThreshold x).
Definition set_x_m5PerformedFifoSize (v : Z) (x : t_readsf) : t_readsf :=
  mkReadsf (x_bufsize x) (x_noutlets x) (x_vecsize x) (x_state x)
    (x_insamplerate x) (x_requestcode x) (x_filename x) (x_fileerror x)
    (x_sf x) (x_onsetframes x) (x_fifosize x) (x_fifohead x) (x_fifotail x)
    (x_eof x) (x_sigcountdown x) (x_sigperiod x) (x_frameswritten x)
    (x_namelist x) (x_m5SoundFileFramesAvailableFromOnset x)
    (x_m5FramesWrittenReport x) (x_m5WriteStartTimeReport x)
    (x_m5HeadTimeRequest x) (x_m5TailTime x) (x_m5TimeAnchorName x)
    (x_m5TimeAnchor x) (x_m5LocalTimeAnchor x) (x_m5LoopLength x)
    (x_m5LoopLengthRequest x) (x_m5LoopStart x) (x_m5PlayStartTime x)
    (x_m5PlayEndTime x) v (x_m5PlayStartThreshold x).
Definition set_x_m5PlayStartThreshold (v : t_float) (x : t_readsf) : t_readsf :=
  mkReadsf (x_bufsize x) (x_noutlets x) (x_vecsize x) (x_state x)
    (x_insamplerate x) (x_requestcode x) (x_filename x) (x_fileerror x)
    (x_sf x) (x_onsetframes x) (x_fifosize x) (x_fifohead x) (x_fifotail x)
    (x_eof x) (x_sigcountdown x) (x_sigperiod x) (x_frameswritten x)
    (x_namelist x) (x_m5SoundFileFramesAvailableFromOnset x)
    (x_m5FramesWrittenReport x) (x_m5WriteStartTimeReport x)
    (x_m5HeadTimeRequest x) (x_m5TailTime x) (x_m5TimeAnchorName x)
    (x_m5TimeAnchor x) (x_m5LocalTimeAnchor x) (x_m5LoopLength x)
    (x_m5LoopLengthRequest x) (x_m5LoopStart x) (x_m5PlayStartTime x)
    (x_m5PlayEndTime x) (x_m5PerformedFifoSize x) v.


(** What a method does besides updating the object. *)
Inductive t_clock_id : Type :=
| clock_bang            (* x_clock: bang on done *)
| clock_frames_out      (* x_m5FramesOutClock *)
| clock_start_time_out. (* x_m5StartTimeOutClock *)

Inductive t_effect : Type :=
| E_pd_error (msg : string)
| E_post (msg : string)
| E_signal_request                  (* sfread_cond_signal(&x->x_requestcondition) *)
| E_signal_answer                   (* sfread_cond_signal(&x->x_answercondition) *)
| E_clock_delay (c : t_clock_id)    (* clock_delay(c, 0) *)
| E_xferin (onset nframes : Z)      (* decode nframes frames from the fifo tail *)
| E_xferout (nframes : Z)           (* encode nframes frames at the fifo head *)
| E_zero (onset nframes : Z)        (* zero nframes frames of every outlet *)
| E_dsp_add.

(** The services of the host that the methods call. *)
Record t_pd : Type := mkPd {
  pd_clock : t_clock_host;
  sys_getsr : t_float;
  canvas_paths : list string;
  sys_isabsolutepath : string -> bool;
  m5_sys_isbigendian : Z;
  (* names of the registered soundfile types, in registration order *)
  m5_sf_types : list string;
  (* [t_hasextensionfn] and [t_endiannessfn] of the type of that name *)
  type_hasextension : string -> string -> bool;
  type_endianness : string -> Z -> Z -> Z
}.

(** The time anchors bound to their symbols; an object refers to its
    anchor by the symbol it was found under. *)
Definition t_anchors : Type := string -> option t_m5TimeAnchor.

Definition m5_time_anchor_find (anchors : t_anchors) (s : string)
  : option t_m5TimeAnchor := anchors s.

Definition anchors_store (anchors : t_anchors) (s : string) (a : t_m5TimeAnchor)
  : t_anchors :=
  fun s' => if String.eqb s' s then Some a else anchors s'.

Definition atom_getsymbolarg (which : nat) (argv : list t_atom) : string :=
  match nth_error argv which with
  | Some (A_SYMBOL s) => s
  | _ => EmptyString
  end.

Definition atom_getfloatarg (which : nat) (argv : list t_atom) : t_float :=
  match nth_error argv which with
  | Some (A_FLOAT f) => f
  | _ => S754_zero false
  end.

Definition float_zero : t_float := S754_zero false.

(** find type by name, returns NULL if not found *)
Definition m5_soundfile_findtype (types : list string) (name : string)
  : option string :=
  find (String.eqb name) types.

(** *** m5_readsf~ methods *)

(* play from beginning immediately *)
Definition m5_readsf_start (pd : t_pd) (x : t_readsf) (argv : list t_atom)
  : option (t_readsf * list t_effect) :=
  if negb (state_eqb (x_state x) STATE_STARTUP)
     && negb (state_eqb (x_state x) STATE_STARTUP_2)
  then Some (x, [E_pd_error "[readsf~]: start requested with no prior 'open'"])
  else
    match argv with
    | [] =>
        (* no args - start now or as soon as file opened *)
        let x := set_x_m5LoopLengthRequest 1 x in
        let x := set_x_state STATE_STREAM x in
        let x := set_x_m5PlayStartTime START_NOW x in
        let x := set_x_m5LocalTimeAnchor (clock_getlogicaltime (pd_clock pd)) x in
        Some (x, [E_signal_request])
    | _ =>
        (* read FTC from parameters and make that the start time *)
        match m5_frame_time_code_from_atoms argv with
        | None =>
            Some (x, [E_pd_error
              "m5_readsf~: A frame time code must be three floats... 1|-1, epoch, frames."])
        | Some ftc =>
            ll <- m5_frames_from_time_code ftc ;;
            if ll <? 0 then
              Some (x, [E_pd_error "m5_readsf~: start time must be >= 0 frames."])
            else
              let x := set_x_m5LoopLengthRequest 1 x in
              let x := set_x_state STATE_STREAM x in
              let x := set_x_m5PlayStartTime (double_of_long ll) x in
              let x := set_x_m5LocalTimeAnchor (clock_getlogicaltime (pd_clock pd)) x in
              Some (x, [E_signal_request])
        end
    end.

Definition m5_readsf_stop (x : t_readsf) (argv : list t_atom)
  : option (t_readsf * list t_effect) :=
  if negb (state_eqb (x_state x) STATE_STREAM)
     && negb (state_eqb (x_state x) STATE_STARTUP)
     && negb (state_eqb (x_state x) STATE_STARTUP_2)
  then Some (x, [E_pd_error "[readsf~]: stop requested with no prior 'open'"])
  else
    match argv with
    | [] =>
        (* stop on next block, as usual for readsf *)
        let x := set_x_state STATE_IDLE x in
        let x := set_x_requestcode REQUEST_CLOSE x in
        Some (x, [E_signal_request])
    | _ =>
        if String.eqb (atom_getsymbolarg 0 argv) "now" then
          Some (set_x_m5PlayEndTime END_NOW x, [E_signal_request])
        else if String.eqb (atom_getsymbolarg 0 argv) "end" then
          Some (set_x_m5PlayEndTime END_AT_LOOP x, [E_signal_request])
        else if String.eqb (atom_getsymbolarg 0 argv) "never" then
          Some (set_x_m5PlayEndTime END_NEVER x, [E_signal_request])
        else
          match m5_frame_time_code_from_atoms argv with
          | None =>
              Some (x, [E_pd_error
                "m5_readsf~: A frame time code must be three floats... 1|-1, epoch, frames."])
          | Some ftc =>
              ll <- m5_frames_from_time_code ftc ;;
              if ll <? 0 then
                Some (x, [E_pd_error "m5_readsf~: end time must be >= 0 frames."])
              else
                Some (set_x_m5PlayEndTime (double_of_long ll) x, [E_signal_request])
          end
    end.

(* set loop start file offset (FTC) *)
Definition m5_readsf_loop_start (x : t_readsf) (argv : list t_atom)
  : option (t_readsf * list t_effect) :=
  match m5_frame_time_code_from_atoms argv with
  | None =>
      Some (x, [E_pd_error
                  "m5_readsf~: A frame time code must be three floats... 1|-1, epoch, frames.";
                E_pd_error "m5_readsf~: Use loopstart 1 0 0 to start at 0 frames."])
  | Some ftc =>
      ll <- m5_frames_from_time_code ftc ;;
      if ll <? 0 then
        Some (x, [E_pd_error "m5_readsf~: Loop start must be >= 0 frames."])
      else
        let x := set_x_m5LoopLengthRequest 1 x in
        let x := set_x_m5LoopStart ll x in
        Some (x, [E_signal_request])
  end.

(* set loop length (FTC) *)
Definition m5_readsf_loop_length (x : t_readsf) (argv : list t_atom)
  : option (t_readsf * list t_effect) :=
  if String.eqb (atom_getsymbolarg 0 argv) "self" then
    let x := set_x_m5LoopLengthRequest 1 x in
    let x := set_x_m5LoopLength LOOP_SELF x in
    Some (x, [E_signal_request])
  else
    match m5_frame_time_code_from_atoms argv with
    | None =>
        Some (x, [E_pd_error
          "m5_readsf~: A frame time code must be three floats... 1|-1, epoch, frames."])
    | Some ftc =>
        ll <- m5_frames_from_time_code ftc ;;
        if ll <=? 0 then
          Some (x, [E_pd_error "m5_readsf~: Loop length must be > 0 frames."])
        else
          let x := set_x_m5LoopLengthRequest 1 x in
          let x := set_x_m5LoopLength ll x in
          Some (x, [E_signal_request])
    end.

(* set ID for FTC anchor (shared time reference for t=0) *)
Definition m5_readsf_time_set (anchors : t_anchors) (x : t_readsf) (s : option string)
  : t_readsf * t_anchors * list t_effect :=
  let x := set_x_m5TimeAnchorName s x in
  match s with
  | None => (set_x_m5TimeAnchor None x, anchors, [])
  | Some name =>
      if String.eqb name "self" then (set_x_m5TimeAnchor None x, anchors, [])
      else
        match m5_time_anchor_find anchors name with
        | None =>
            (set_x_m5TimeAnchor None x, anchors,
             if String.eqb name EmptyString then []
             else [E_pd_error "m5_readsf~: no such time anchor"])
        | Some a =>
            (set_x_m5TimeAnchor (Some name) x,
             anchors_store anchors name (m5_time_anchor_usedindsp a), [])
        end
  end.

Definition m5_readsf_time (anchors : t_anchors) (x : t_readsf) (name : string)
  : t_readsf * t_anchors * list t_effect :=
  let '(x, anchors, effs) := m5_readsf_time_set anchors x (Some name) in
  (set_x_m5LoopLengthRequest 1 x, anchors, effs).

(* legacy - 1 = start, 0 = stop *)
Definition m5_readsf_float (pd : t_pd) (x : t_readsf) (f : t_float)
  : option (t_readsf * list t_effect) :=
  match SFcompare f float_zero with
  | Some Eq => m5_readsf_stop x []
  | _ => m5_readsf_start pd x []
  end.


(** The leading [-<typename>] flags of [open]: the type named by the last
    flag and the remaining arguments, or [None] for an unknown flag
    ([goto usage]). *)
Fixpoint m5_readsf_open_flags (types : list string) (type : option string)
    (argv : list t_atom) : option (option string * list t_atom) :=
  match argv with
  | A_SYMBOL (String "-"%char flag) :: argv' =>
      (* check for type by name *)
      match m5_soundfile_findtype types flag with
      | None => None
      | Some t => m5_readsf_open_flags types (Some t) argv'
      end
  | _ => Some (type, argv)
  end.

Definition first_char_is (c : Ascii.ascii) (s : string) : bool :=
  match s with
  | String c' _ => Ascii.eqb c' c
  | EmptyString => false
  end.

(** open method.  Called as:
    open [flags] filename [onsetframes headersize channels bytes endianness] *)
Definition m5_readsf_open (pd : t_pd) (x : t_readsf) (argv : list t_atom)
  : option (t_readsf * list t_effect) :=
  match m5_readsf_open_flags (m5_sf_types pd) None argv with
  | None =>
      Some (x, [E_pd_error "[readsf~]: usage; open [flags] filename [onset] [headersize]...";
                E_pd_error "[nchannels] [bytespersample] [endian (b or l)]";
                E_post "flags:"])
  | Some (type, argv) =>
      let filesym := atom_getsymbolarg 0 argv in
      let onsetframes := atom_getfloatarg 1 argv in
      let headersize := atom_getfloatarg 2 argv in
      let nchannels := atom_getfloatarg 3 argv in
      let bytespersample := atom_getfloatarg 4 argv in
      let endian := atom_getsymbolarg 5 argv in
      if String.eqb filesym EmptyString then Some (x, []) (* no filename *)
      else
        let x := set_x_namelist [] x in
        (* see open_soundfile_via_namelist() *)
        let x := if sys_isabsolutepath pd filesym then x
                 else set_x_namelist (x_namelist x ++ canvas_paths pd) x in
        let sf := m5_soundfile_clear in
        let x := set_x_requestcode REQUEST_OPEN x in
        let x := set_x_filename filesym x in
        let x := set_x_fifotail 0 x in
        let x := set_x_fifohead 0 x in
        let '(sf, effs1) :=
          if first_char_is "b"%char endian then (set_sf_bigendian 1 sf, [])
          else if first_char_is "l"%char endian then (set_sf_bigendian 0 sf, [])
          else if negb (String.eqb endian EmptyString) then
            (sf, [E_pd_error "[readsf~] open: endianness neither 'b' nor 'l'"])
          else (set_sf_bigendian (m5_sys_isbigendian pd) sf, []) in
        onset <- ulong_of_float (if SFltb float_zero onsetframes
                                 then onsetframes else float_zero) ;;
        let x := set_x_onsetframes onset x in
        hs <- long_of_float (if SFltb float_zero headersize then headersize
                             else if SFeqb headersize float_zero
                                  then float_minus_one else float_zero) ;;
        let sf := set_sf_headersize hs sf in
        nch <- int_of_float (if SFleb float_one nchannels then nchannels
                             else float_one) ;;
        let sf := set_sf_nchannels nch sf in
        bps <- int_of_float (if SFltb (float_of_long 2) bytespersample
                             then bytespersample else float_of_long 2) ;;
        let sf := set_sf_bytespersample bps sf in
        let sf := set_sf_bytesperframe (wrap_int (nch * bps)) sf in
        let sf := set_sf_bytelimit 0 sf in
        let '(sf, effs2) :=
          match type with
          | Some t =>
              if 0 <=? sf_headersize sf
              then (set_sf_type None sf, [E_post "type overridden by headersize"])
              else (set_sf_type type sf, [])
          | None => (set_sf_type type sf, [])
          end in
        let x := set_x_sf sf x in
        let x := set_x_eof 0 x in
        let x := set_x_m5SoundFileFramesAvailableFromOnset 0 x in
        let x := set_x_fileerror 0 x in
        let x := set_x_m5HeadTimeRequest (S754_zero false) x in
        let x := set_x_m5TailTime (S754_zero false) x in
        let x := set_x_m5PlayStartTime START_NOW x in
        let x := set_x_m5PlayEndTime END_AT_LOOP x in
        let x := set_x_state STATE_STARTUP x in
        Some (x, effs1 ++ effs2 ++ [E_signal_request])
  end.

(** Division and remainder of two [int]s; by zero they are undefined. *)
Definition int_div (a b : Z) : option Z :=
  if b =? 0 then None else Some (wrap_int (Z.quot a b)).

Definition int_rem (a b : Z) : option Z :=
  if b =? 0 then None else Some (wrap_int (Z.rem a b)).

(** [s_n] is the block size [sp[0]->s_n] the host passes. *)
Definition m5_readsf_dsp (anchors : t_anchors) (x : t_readsf) (s_n : Z)
  : option (t_readsf * t_anchors * list t_effect) :=
  let '(x, anchors, effs) := m5_readsf_time_set anchors x (x_m5TimeAnchorName x) in
  let x := set_x_vecsize s_n x in
  p <- int_div (x_fifosize x)
               (wrap_int (sf_bytesperframe (x_sf x) * x_vecsize x)) ;;
  let x := set_x_sigperiod p x in
  Some (x, anchors, effs ++ [E_dsp_add]).


(** *** The playback worker: fifo set-up on OPEN *)

(** [m5_readsf_child_main], once the file is open and its format [sf] has
    been copied back into the object: the fifo is emptied and sized, and
    the refill countdown armed. *)
Definition m5_readsf_child_open_fifo (x : t_readsf) (sf : t_soundfile)
  : option t_readsf :=
  let x := set_x_sf sf x in
  let x := set_x_fifohead 0 x in
  (* set fifosize from bufsize.  fifosize must be a multiple of the number
     of bytes eaten for each DSP tick. *)
  r <- int_rem (x_bufsize x) (wrap_int (sf_bytesperframe sf * MAXVECSIZE)) ;;
  let x := set_x_fifosize (wrap_int (x_bufsize x - r)) x in
  (* arrange for the "request" condition to be signaled 16 times per buffer *)
  p <- int_div (x_fifosize x)
               (wrap_int (wrap_int (16 * sf_bytesperframe sf) * x_vecsize x)) ;;
  let x := set_x_sigperiod p x in
  let x := set_x_sigcountdown p x in
  Some x.

(** *** m5_writesf~ methods *)

(** Sample vectors of a block: channel index, then frame index. *)
Definition t_vecs : Type := Z -> Z -> t_float.

(* fabs( *fp) >= threshold *)
Definition reaches_threshold (threshold s : t_float) : bool :=
  SFleb (double_of_float threshold) (SFabs (double_of_float s)).

Fixpoint m5_find_threshold_frames (fp : Z -> t_float) (threshold : t_float)
    (n : nat) (j : Z) : option Z :=
  match n with
  | O => None
  | S n' =>
      if reaches_threshold threshold (fp j)
      then Some j
      else m5_find_threshold_frames fp threshold n' (j + 1)
  end.

Fixpoint m5_find_threshold_channels (nframes : Z) (vecs : t_vecs)
    (threshold : t_float) (n : nat) (i : Z) : Z :=
  match n with
  | O => NOT_FOUND
  | S n' =>
      match m5_find_threshold_frames (vecs i) threshold (Z.to_nat nframes) 0 with
      | Some j => j
      | None => m5_find_threshold_channels nframes vecs threshold n' (i + 1)
      end
  end.

(* MWS: very simple threshold test *)
Definition m5_find_threshold (nchannels nframes : Z) (vecs : t_vecs)
    (threshold : t_float) : Z :=
  m5_find_threshold_channels nframes vecs threshold (Z.to_nat nchannels) 0.

(** The frame count since the time anchor at the start of a block, as both
    block callbacks compute it: from the shared anchor if there is one,
    else from the local clock of the object. *)
Definition m5_block_start_time (pd : t_pd) (anchors : t_anchors) (x : t_readsf)
  : option (Z * t_anchors) :=
  match x_m5TimeAnchor x with
  | Some name =>
      (* shared time anchor *)
      a <- anchors name ;;
      let '(a', t) := m5_time_anchor_get_time_since_start (pd_clock pd) a in
      t <- t ;;
      Some (t, anchors_store anchors name a')
  | None =>
      (* local clock for this object *)
      let d := ceil (clock_gettimesincewithunits (pd_clock pd)
                       (x_m5LocalTimeAnchor x) double_one 1) in
      let d := if SFltb d (S754_zero false) then S754_zero false else d in
      t <- ulong_of_float d ;;
      Some (t, anchors)
  end.

(** The head of [m5_writesf_perform] in the streaming states: the start
    time is latched when it is START_NOW, and detected from the input
    when it is START_AT_THRESHOLD.  Nothing after this point of the block
    callback assigns the start time. *)
Definition m5_writesf_perform_start_time (x : t_writesf) (blockStartTime : Z)
    (vecs : t_vecs) : t_writesf :=
  let vecsize := x_vecsize x in
  let sf := x_sf x in
  let x :=
    if SFeqb (x_m5PlayStartTime x) START_NOW then
      let x := set_x_m5PlayStartTime (double_of_long blockStartTime) x in
      set_x_m5WriteStartTimeReport (double_of_long blockStartTime) x
    else x in
  if SFeqb (x_m5PlayStartTime x) START_AT_THRESHOLD then
    (* do threshold detect if necessary *)
    let the_threshold := x_m5PlayStartThreshold x in
    let started := m5_find_threshold (sf_nchannels sf) vecsize vecs the_threshold in
    if negb (started =? NOT_FOUND) then
      (* get the start time *)
      set_x_m5PlayStartTime
        (double_of_long (wrap_ulong (wrap_ulong (blockStartTime + started) - 0))) x
    else x
  else x.

Definition m5_writesf_start (pd : t_pd) (x : t_writesf) (argv : list t_atom)
  : option (t_writesf * list t_effect) :=
  if negb (state_eqb (x_state x) STATE_STARTUP) then
    Some (x, [E_pd_error "[writesf~]: start requested with no prior 'open'"])
  else
    match argv with
    | [] =>
        let x := set_x_state STATE_STREAM_JUST_STARTING x in
        let x := set_x_m5PlayStartTime START_NOW x in
        let x := set_x_m5LocalTimeAnchor (clock_getlogicaltime (pd_clock pd)) x in
        Some (x, [E_signal_request])
    | [_] =>
        let x := set_x_m5PlayStartThreshold (atom_getfloatarg 0 argv) x in
        let x := set_x_state STATE_STREAM_JUST_STARTING x in
        let x := set_x_m5PlayStartTime START_AT_THRESHOLD x in
        let x := set_x_m5LocalTimeAnchor (clock_getlogicaltime (pd_clock pd)) x in
        Some (x, [E_signal_request])
    | _ =>
        match m5_frame_time_code_from_atoms argv with
        | None =>
            Some (x, [E_pd_error
              "m5_writesf~: A frame time code must be three floats... 1|-1, epoch, frames."])
        | Some ftc =>
            ll <- m5_frames_from_time_code ftc ;;
            if ll <? 0 then
              Some (x, [E_pd_error "m5_writesf~: start time must be >= 0 frames."])
            else
              let x := set_x_state STATE_STREAM_JUST_STARTING x in
              let x := set_x_m5PlayStartTime (double_of_long ll) x in
              let x := set_x_m5LocalTimeAnchor (clock_getlogicaltime (pd_clock pd)) x in
              Some (x, [E_signal_request])
        end
    end.

Definition m5_writesf_stop (x : t_writesf) (argv : list t_atom)
  : option (t_writesf * list t_effect) :=
  if negb (state_eqb (x_state x) STATE_STREAM)
     && negb (state_eqb (x_state x) STATE_STREAM_JUST_STARTING)
     && negb (state_eqb (x_state x) STATE_STARTUP)
  then Some (x, [E_pd_error "[m5_writesf~]: stop requested with no prior 'open'"])
  else
    match argv with
    | [] =>
        let x := set_x_state STATE_IDLE_2 x in
        let x := set_x_requestcode REQUEST_CLOSE x in
        Some (x, [E_signal_request])
    | _ =>
        match m5_frame_time_code_from_atoms argv with
        | None =>
            Some (x, [E_pd_error
              "m5_writesf~: A frame time code must be three floats... 1|-1, epoch, frames."])
        | Some ftc =>
            ll <- m5_frames_from_time_code ftc ;;
            if ll <? 0 then
              Some (x, [E_pd_error "m5_writesf~: end time must be >= 0 frames."])
            else
              Some (set_x_m5PlayEndTime (double_of_long ll) x, [E_signal_request])
        end
    end.

Definition m5_writesf_time_set (anchors : t_anchors) (x : t_writesf) (s : option string)
  : t_writesf * t_anchors * list t_effect :=
  let x := set_x_m5TimeAnchorName s x in
  match s with
  | None => (set_x_m5TimeAnchor None x, anchors, [])
  | Some name =>
      if String.eqb name "self" then (set_x_m5TimeAnchor None x, anchors, [])
      else
        match m5_time_anchor_find anchors name with
        | None =>
            (set_x_m5TimeAnchor None x, anchors,
             if String.eqb name EmptyString then []
             else [E_pd_error "m5_writesf~: no such time anchor"])
        | Some a =>
            (set_x_m5TimeAnchor (Some name) x,
             anchors_store anchors name (m5_time_anchor_usedindsp a), [])
        end
  end.

Definition m5_writesf_time (anchors : t_anchors) (x : t_writesf) (name : string)
  : t_writesf * t_anchors * list t_effect :=
  m5_readsf_time_set anchors x (Some name).

(** [s_n] and [s_sr] are the block size and the sample rate of the first
    signal the host passes. *)
Definition m5_writesf_dsp (anchors : t_anchors) (x : t_writesf) (s_n : Z) (s_sr : t_float)
  : option (t_writesf * t_anchors * list t_effect) :=
  let '(x, anchors, effs) := m5_writesf_time_set anchors x (x_m5TimeAnchorName x) in
  let x := set_x_vecsize s_n x in
  p <- int_div (x_fifosize x)
               (wrap_int (wrap_int (16 * sf_bytesperframe (x_sf x)) * x_vecsize x)) ;;
  let x := set_x_sigperiod p x in
  let x := set_x_insamplerate s_sr x in
  Some (x, anchors, effs ++ [E_dsp_add]).


(** parsed write arguments *)
Record t_soundfiler_writeargs : Type := mkWriteargs {
  wa_filesym : string;
  wa_type : option string;
  wa_samplerate : Z;
  wa_bytespersample : Z;
  wa_bigendian : Z;
  wa_nframes : Z;
  wa_onsetframes : Z;
  wa_normalize : Z;
  wa_ascii : Z
}.

Definition VALID_BYTESPERSAMPLE (b : Z) : bool :=
  (b =? 2) || (b =? 3) || (b =? 4) || (b =? 8).

Definition m5_ascii_hasextension (filename : string) : Z :=
  let len := Z.of_nat (String.length filename) in
  if (5 <=? len) && String.eqb (substring (String.length filename - 4) 4 filename) ".txt"
  then 1 else 0.

(** The flags of [m5_soundfiler_parsewriteargs], folded into the
    arguments parsed so far.  The outer [None] is an undefined conversion,
    the inner one the status -1. *)
Fixpoint m5_soundfiler_parsewriteflags (types : list string)
    (wa : t_soundfiler_writeargs) (endianness : Z) (argv : list t_atom)
  : option (option (t_soundfiler_writeargs * Z * list t_atom)) :=
  match argv with
  | A_SYMBOL (String "-"%char flag) :: rest =>
      if String.eqb flag "skip" then
        match rest with
        | A_FLOAT f :: rest' =>
            if SFltb f float_zero then Some None
            else
              v <- ulong_of_float f ;;
              m5_soundfiler_parsewriteflags types
                (mkWriteargs (wa_filesym wa) (wa_type wa) (wa_samplerate wa)
                   (wa_bytespersample wa) (wa_bigendian wa) (wa_nframes wa) v
                   (wa_normalize wa) (wa_ascii wa)) endianness rest'
        | _ => Some None
        end
      else if String.eqb flag "nframes" then
        match rest with
        | A_FLOAT f :: rest' =>
            if SFltb f float_zero then Some None
            else
              v <- ulong_of_float f ;;
              m5_soundfiler_parsewriteflags types
                (mkWriteargs (wa_filesym wa) (wa_type wa) (wa_samplerate wa)
                   (wa_bytespersample wa) (wa_bigendian wa) v (wa_onsetframes wa)
                   (wa_normalize wa) (wa_ascii wa)) endianness rest'
        | _ => Some None
        end
      else if String.eqb flag "bytes" then
        match rest with
        | A_FLOAT f :: rest' =>
            v <- int_of_float f ;;
            if (v <? 2) || negb (VALID_BYTESPERSAMPLE v) then Some None
            else
              m5_soundfiler_parsewriteflags types
                (mkWriteargs (wa_filesym wa) (wa_type wa) (wa_samplerate wa)
                   v (wa_bigendian wa) (wa_nframes wa) (wa_onsetframes wa)
                   (wa_normalize wa) (wa_ascii wa)) endianness rest'
        | _ => Some None
        end
      else if String.eqb flag "normalize" then
        m5_soundfiler_parsewriteflags types
          (mkWriteargs (wa_filesym wa) (wa_type wa) (wa_samplerate wa)
             (wa_bytespersample wa) (wa_bigendian wa) (wa_nframes wa)
             (wa_onsetframes wa) 1 (wa_ascii wa)) endianness rest
      else if String.eqb flag "big" then
        m5_soundfiler_parsewriteflags types wa 1 rest
      else if String.eqb flag "little" then
        m5_soundfiler_parsewriteflags types wa 0 rest
      else if String.eqb flag "rate" || String.eqb flag "r" then
        match rest with
        | A_FLOAT f :: rest' =>
            v <- int_of_float f ;;
            if v <=? 0 then Some None
            else
              m5_soundfiler_parsewriteflags types
                (mkWriteargs (wa_filesym wa) (wa_type wa) v
                   (wa_bytespersample wa) (wa_bigendian wa) (wa_nframes wa)
                   (wa_onsetframes wa) (wa_normalize wa) (wa_ascii wa)) endianness rest'
        | _ => Some None
        end
      else if String.eqb flag "ascii" then
        m5_soundfiler_parsewriteflags types
          (mkWriteargs (wa_filesym wa) (wa_type wa) (wa_samplerate wa)
             (wa_bytespersample wa) (wa_bigendian wa) (wa_nframes wa)
             (wa_onsetframes wa) (wa_normalize wa) 1) endianness rest
      else if String.eqb flag "nextstep" then
        (* handle old "-nextstep" alias *)
        m5_soundfiler_parsewriteflags types
          (mkWriteargs (wa_filesym wa) (m5_soundfile_findtype types "next")
             (wa_samplerate wa) (wa_bytespersample wa) (wa_bigendian wa)
             (wa_nframes wa) (wa_onsetframes wa) (wa_normalize wa) (wa_ascii wa))
          endianness rest
      else
        (* check for type by name *)
        match m5_soundfile_findtype types flag with
        | None => Some None (* unknown flag *)
        | Some t =>
            m5_soundfiler_parsewriteflags types
              (mkWriteargs (wa_filesym wa) (Some t) (wa_samplerate wa)
                 (wa_bytespersample wa) (wa_bigendian wa) (wa_nframes wa)
                 (wa_onsetframes wa) (wa_normalize wa) 0) endianness rest
        end
  | _ => Some (Some (wa, endianness, argv))
  end.

(** Parse arguments for writing: the parsed arguments, the arguments left
    over and what was posted. *)
Definition m5_soundfiler_parsewriteargs (pd : t_pd) (argv : list t_atom)
  : option (option (t_soundfiler_writeargs * list t_atom * list t_effect)) :=
  r <- m5_soundfiler_parsewriteflags (m5_sf_types pd)
         (mkWriteargs EmptyString None (-1) 2 0 SFMAXFRAMES 0 0 0) (-1) argv ;;
  match r with
  | None => Some None
  | Some (wa, endianness, argv) =>
      match argv with
      | A_SYMBOL filesym :: argv' =>
          (* deduce from filename extension? *)
          let '(type, ascii) :=
            match wa_type wa with
            | Some t => (Some t, wa_ascii wa)
            | None =>
                match find (fun t => type_hasextension pd t filesym) (m5_sf_types pd) with
                | Some t => (Some t, wa_ascii wa)
                | None =>
                    (hd_error (m5_sf_types pd), (* default if unknown *)
                     if wa_ascii wa =? 0 then m5_ascii_hasextension filesym
                     else wa_ascii wa)
                end
            end in
          t <- type ;;
          (* check requested endianness *)
          let bigendian := type_endianness pd t endianness (wa_bytespersample wa) in
          let effs :=
            if negb (endianness =? -1) && negb (endianness =? bigendian)
            then [E_post "forced endianness"] else [] in
          Some (Some (mkWriteargs filesym (Some t) (wa_samplerate wa)
                        (wa_bytespersample wa) bigendian (wa_nframes wa)
                        (wa_onsetframes wa) (wa_normalize wa) ascii,
                      argv', effs))
      | _ => Some None
      end
  end.

(** open method.  Called as: open [flags] filename with args as in
    soundfiler_parsewriteargs().  While the worker still has a request
    pending the method waits for it; [worker] is the object as the worker
    leaves it when the wait ends.  [None] also stands for a wait that
    does not end. *)
Definition m5_writesf_open (pd : t_pd) (worker : t_writesf -> t_writesf)
    (x : t_writesf) (argv : list t_atom) : option (t_writesf * list t_effect) :=
  r0 <- (if negb (state_eqb (x_state x) STATE_IDLE)
         then m5_writesf_stop x [] else Some (x, [])) ;;
  let '(x, effs0) := r0 in
  r <- m5_soundfiler_parsewriteargs pd argv ;;
  match r with
  | None =>
      Some (x, effs0 ++ [E_pd_error "[writesf~]: usage; open [flags] filename...";
                         E_post "flags: -bytes <n> -big -little -rate <n>"])
  | Some (wa, argv, effs1) =>
      if negb (wa_ascii wa =? 0) then
        Some (x, effs0 ++ effs1
                 ++ [E_pd_error "[writesf~]: usage; open [flags] filename...";
                     E_post "flags: -bytes <n> -big -little -rate <n>"])
      else
        let effs2 :=
          if negb (wa_normalize wa =? 0) || negb (wa_onsetframes wa =? 0)
             || negb (wa_nframes wa =? SFMAXFRAMES)
          then [E_pd_error "[writesf~] open: normalize/onset/nframes argument ignored"]
          else [] in
        let effs3 :=
          match argv with
          | [] => []
          | _ => [E_pd_error "[writesf~] open: extra argument(s) ignored"]
          end in
        (* make sure that the child thread has finished writing *)
        let x := if request_eqb (x_requestcode x) REQUEST_NOTHING then x
                 else worker x in
        if negb (request_eqb (x_requestcode x) REQUEST_NOTHING) then None
        else
          let x := set_x_filename (wa_filesym wa) x in
          let sf := set_sf_type (wa_type wa) (x_sf x) in
          sr <- (if 0 <? wa_samplerate wa then Some (wa_samplerate wa)
                 else if SFltb float_zero (x_insamplerate x)
                      then int_of_float (x_insamplerate x)
                      else int_of_float (sys_getsr pd)) ;;
          let sf := set_sf_samplerate sr sf in
          let sf := set_sf_bytespersample
                      (if 2 <? wa_bytespersample wa then wa_bytespersample wa else 2) sf in
          let sf := set_sf_bigendian (wa_bigendian wa) sf in
          let sf := set_sf_bytesperframe
                      (wrap_int (sf_nchannels sf * sf_bytespersample sf)) sf in
          let x := set_x_sf sf x in
          let x := set_x_frameswritten 0 x in
          let x := set_x_requestcode REQUEST_OPEN x in
          let x := set_x_fifotail 0 x in
          let x := set_x_fifohead 0 x in
          let x := set_x_eof 0 x in
          let x := set_x_fileerror 0 x in
          let x := set_x_state STATE_STARTUP x in
          let x := set_x_m5FramesWrittenReport FRAMES_NOT_UPDATED x in
          let x := set_x_m5PlayStartTime START_NOW x in
          let x := set_x_m5PlayEndTime END_NEVER x in
          let x := set_x_m5PerformedFifoSize 0 x in
          (* set fifosize from bufsize.  fifosize must be a multiple of the
             number of bytes eaten for each DSP tick. *)
          r <- int_rem (x_bufsize x) (wrap_int (sf_bytesperframe sf * MAXVECSIZE)) ;;
          let x := set_x_fifosize (wrap_int (x_bufsize x - r)) x in
          (* arrange for the "request" condition to be signaled 16 times
             per buffer *)
          p <- int_div (x_fifosize x)
                 (wrap_int (16 * wrap_int (sf_bytesperframe sf * x_vecsize x))) ;;
          let x := set_x_sigperiod p x in
          let x := set_x_sigcountdown p x in
          Some (x, effs0 ++ effs1 ++ effs2 ++ effs3 ++ [E_signal_request])
  end.


(** *** Construction *)

(** [pd_new] hands out zeroed storage; the fields that the constructors
    do not assign are 0. *)
Definition readsf_zeroed : t_readsf :=
  {| x_bufsize := 0; x_noutlets := 0; x_vecsize := 0; x_state := STATE_IDLE;
     x_insamplerate := S754_zero false; x_requestcode := REQUEST_NOTHING;
     x_filename := EmptyString; x_fileerror := 0; x_sf := m5_soundfile_clear;
     x_onsetframes := 0; x_fifosize := 0; x_fifohead := 0; x_fifotail := 0;
     x_eof := 0; x_sigcountdown := 0; x_sigperiod := 0; x_frameswritten := 0;
     x_namelist := []; x_m5SoundFileFramesAvailableFromOnset := 0;
     x_m5FramesWrittenReport := 0; x_m5WriteStartTimeReport := S754_zero false;
     x_m5HeadTimeRequest := S754_zero false; x_m5TailTime := S754_zero false;
     x_m5TimeAnchorName := None; x_m5TimeAnchor := None;
     x_m5LocalTimeAnchor := S754_zero false; x_m5LoopLength := 0;
     x_m5LoopLengthRequest := 0; x_m5LoopStart := 0;
     x_m5PlayStartTime := S754_zero false; x_m5PlayEndTime := S754_zero false;
     x_m5PerformedFifoSize := 0; x_m5PlayStartThreshold := S754_zero false |}.

Definition sf_buffer_size (nchannels bufsize : Z) : Z :=
  if bufsize <=? 0 then wrap_int (DEFBUFPERCHAN * nchannels)
  else if bufsize <? MINBUFSIZE then MINBUFSIZE
  else if MAXBUFSIZE <? bufsize then MAXBUFSIZE
  else bufsize.

Definition sf_channel_count (nchannels : Z) : Z :=
  if nchannels <? 1 then 1
  else if MAXSFCHANS <? nchannels then MAXSFCHANS
  else nchannels.

Definition m5_readsf_new (fnchannels fbufsize : t_float) : option t_readsf :=
  nchannels <- int_of_float fnchannels ;;
  bufsize <- int_of_float fbufsize ;;
  let nchannels := sf_channel_count nchannels in
  let bufsize := sf_buffer_size nchannels bufsize in
  let x := readsf_zeroed in
  let x := set_x_noutlets nchannels x in
  let x := set_x_vecsize MAXVECSIZE x in
  let x := set_x_state STATE_IDLE x in
  let sf := m5_soundfile_clear in
  let sf := set_sf_bytespersample 2 sf in
  let sf := set_sf_nchannels 1 sf in
  let sf := set_sf_bytesperframe 2 sf in
  let x := set_x_sf sf x in
  let x := set_x_bufsize bufsize x in
  let x := set_x_fifosize 0 (set_x_fifohead 0 (set_x_fifotail 0 x)) in
  let x := set_x_requestcode REQUEST_NOTHING x in
  let x := set_x_m5SoundFileFramesAvailableFromOnset 0 x in
  let x := set_x_m5LoopLength LOOP_SELF x in
  let x := set_x_m5LoopLengthRequest 0 x in
  let x := set_x_m5LoopStart 0 x in
  let x := set_x_namelist [] x in
  let x := set_x_m5HeadTimeRequest (S754_zero false) x in
  let x := set_x_m5TailTime (S754_zero false) x in
  let x := set_x_m5TimeAnchorName None x in
  let x := set_x_m5TimeAnchor None x in
  let x := set_x_m5LocalTimeAnchor (S754_zero false) x in
  let x := set_x_m5PlayStartTime (S754_zero false) x in
  let x := set_x_m5PlayEndTime END_AT_LOOP x in
  let x := set_x_m5PlayStartThreshold (S754_zero false) x in
  Some x.

Definition m5_writesf_new (fnchannels fbufsize : t_float) : option t_writesf :=
  nchannels <- int_of_float fnchannels ;;
  bufsize <- int_of_float fbufsize ;;
  let nchannels := sf_channel_count nchannels in
  let bufsize := sf_buffer_size nchannels bufsize in
  let x := readsf_zeroed in
  let x := set_x_vecsize MAXVECSIZE x in
  let x := set_x_insamplerate (S754_zero false) x in
  let x := set_x_state STATE_IDLE x in
  let sf := m5_soundfile_clear in
  let sf := set_sf_nchannels nchannels sf in
  let sf := set_sf_bytespersample 2 sf in
  let sf := set_sf_bytesperframe (wrap_int (nchannels * 2)) sf in
  let x := set_x_sf sf x in
  let x := set_x_bufsize bufsize x in
  let x := set_x_fifosize 0 (set_x_fifohead 0 (set_x_fifotail 0 x)) in
  let x := set_x_requestcode REQUEST_NOTHING x in
  let x := set_x_m5SoundFileFramesAvailableFromOnset 0 x in
  let x := set_x_m5FramesWrittenReport FRAMES_NOT_UPDATED x in
  let x := set_x_m5LoopLength 0 x in
  let x := set_x_m5LoopLengthRequest 0 x in
  let x := set_x_m5HeadTimeRequest (S754_zero false) x in
  let x := set_x_m5TailTime (S754_zero false) x in
  let x := set_x_m5TimeAnchorName None x in
  let x := set_x_m5TimeAnchor None x in
  let x := set_x_m5LocalTimeAnchor (S754_zero false) x in
  let x := set_x_m5PlayStartTime START_NOW x in
  let x := set_x_m5PlayEndTime END_NEVER x in
  let x := set_x_m5PlayStartThreshold (S754_finite false 8388608 (-24)) x in
  Some x.

(** What the scan of [m5_find_threshold] answers, read off its two loops,
    the outer one over the channels and the inner one over the frames:
    sample [t] of channel [i] reaches the threshold, no earlier sample of
    channel [i] does, and no sample at all of a channel before [i]
    does. *)
Definition first_in_scan_order (nch n : Z) (threshold : t_float) (vecs : t_vecs)
    (i t : Z) : Prop :=
  0 <= i < nch /\ 0 <= t < n /\
  reaches_threshold threshold (vecs i t) = true /\
  (forall j, 0 <= j < t -> reaches_threshold threshold (vecs i j) = false) /\
  (forall i' j, 0 <= i' < i -> 0 <= j < n ->
     reaches_threshold threshold (vecs i' j) = false).

(** The threshold start as the specification words it: the input
    channels are scanned for the first sample with [|x| >= threshold],
    found at offset [t] within the block, that is, [t] is the earliest
    frame of the block at which some channel reaches the threshold; the
    start time becomes [blockStart + t], and is left alone when no sample
    reaches the threshold. *)
Fixpoint spec_frame_reaches (vecs : t_vecs) (threshold : t_float) (t : Z)
    (nch : nat) (i : Z) : bool :=
  match nch with
  | O => false
  | S nch' =>
      reaches_threshold threshold (vecs i t)
      || spec_frame_reaches vecs threshold t nch' (i + 1)
  end.

Fixpoint spec_first_frame (nchannels : Z) (vecs : t_vecs) (threshold : t_float)
    (n : nat) (t : Z) : option Z :=
  match n with
  | O => None
  | S n' =>
      if spec_frame_reaches vecs threshold t (Z.to_nat nchannels) 0 then Some t
      else spec_first_frame nchannels vecs threshold n' (t + 1)
  end.

Definition spec_threshold_start (x : t_writesf) (blockStartTime : Z) (vecs : t_vecs)
  : t_writesf :=
  match spec_first_frame (sf_nchannels (x_sf x)) vecs (x_m5PlayStartThreshold x)
          (Z.to_nat (x_vecsize x)) 0 with
  | Some t => set_x_m5PlayStartTime (double_of_long (blockStartTime + t)) x
  | None => x
  end.

(** The refill period as the specification words it. *)
Definition spec_sigperiod (x : t_readsf) : Z :=
  Z.quot (x_fifosize x) (16 * sf_bytesperframe (x_sf x) * x_vecsize x).


(** *** A host and objects to run the methods on *)

(** A host whose logical clock reads [now] ticks, with 320 ticks per
    sample frame (the host's 14112000 ticks per second at 44100 Hz), one
    registered soundfile type and no search path. *)
Definition host_at (now : Z) : t_clock_host :=
  mkHost (double_of_long now)
    (fun prev units _ =>
       SFdiv double_prec double_emax
         (SFsub double_prec double_emax (double_of_long now) prev)
         (SFmul double_prec double_emax (double_of_long 320) units)).

Definition pd_at (now : Z) : t_pd :=
  {| pd_clock := host_at now;
     sys_getsr := float_of_long 44100;
     canvas_paths := [];
     sys_isabsolutepath := first_char_is "/"%char;
     m5_sys_isbigendian := 0;
     m5_sf_types := ["wave"%string];
     type_hasextension := fun _ name =>
       String.eqb (substring (String.length name - 4) 4 name) ".wav";
     type_endianness := fun _ _ _ => 0 |}.

Definition run_or {A : Type} (d : A) (o : option A) : A :=
  match o with
  | Some a => a
  | None => d
  end.

(** A one-channel player as constructed, then after [open loop.wav], then
    with the 16-bit mono file opened by the worker. *)
Definition readsf_fresh : t_readsf :=
  run_or readsf_zeroed (m5_readsf_new float_one float_zero).

Definition readsf_armed : t_readsf :=
  fst (run_or (readsf_zeroed, [])
         (m5_readsf_open (pd_at 0) readsf_fresh [A_SYMBOL "loop.wav"])).

Definition readsf_opened : t_readsf :=
  run_or readsf_zeroed
    (m5_readsf_child_open_fifo readsf_armed
       (set_sf_bytelimit 4000 (set_sf_headersize 44 (set_sf_fd 3 (x_sf readsf_armed))))).

Definition no_anchors : t_anchors := fun _ => None.

(** A two-channel recorder armed with [start 0.5], and a block that is
    silent but for one impulse [amp] at frame [at_frame] of channel
    [channel]. *)
Definition writesf_armed : t_writesf :=
  let x := run_or readsf_zeroed (m5_writesf_new (float_of_long 2) float_zero) in
  let x := set_x_state STATE_STARTUP x in
  fst (run_or (x, []) (m5_writesf_start (pd_at 0) x [A_FLOAT (S754_finite false 8388608 (-24))])).

Definition impulse (channel at_frame : Z) (amp : t_float) : t_vecs :=
  fun i j => if (i =? channel) && (j =? at_frame) then amp else S754_zero false.

(** A block in which both channels reach the threshold: channel 0 at
    frame 5 and channel 1 already at frame 2. *)
Definition two_onsets : t_vecs :=
  fun i j =>
    if ((i =? 0) && (j =? 5)) || ((i =? 1) && (j =? 2)) then float_one
    else S754_zero false.


(** *** The playback worker: where to read next *)

(** The locals of [m5_readsf_child_main] that outlive an iteration of its
    refill loop: the cached descriptor, the byte limit and lowest offset of
    the file after the onset, and the next place to read. *)
Record t_readsf_child : Type := mkChild {
  child_sf : t_soundfile;
  m5_original_bytelimit : Z;
  m5_seek_max : Z;
  m5_initial_offset : Z;
  nextSeek : Z
}.

(* actual loop length, always +ve: either use available loop length in
   file, or pre-defined *)
Definition m5_readsf_child_loop_length_bytes (x : t_readsf) (c : t_readsf_child) : Z :=
  if x_m5LoopLength x =? LOOP_SELF then wrap_ulong (m5_original_bytelimit c)
  else wrap_ulong (wrap_ulong (sf_bytesperframe (child_sf c)) * x_m5LoopLength x).

(* user-defined start time for loop file, in bytes added to 'onset' *)
Definition m5_readsf_child_loop_start_bytes (x : t_readsf) (c : t_readsf_child) : Z :=
  wrap_ulong (wrap_ulong (sf_bytesperframe (child_sf c)) * x_m5LoopStart x).

(** When head and tail are equal (at 0), there is a request for a fresh
    buffer, so [nextSeek] is synchronized with the newly requested
    time. *)
Definition m5_readsf_child_fresh_seek (x : t_readsf) (c : t_readsf_child) : option Z :=
  let loop_length_bytes := m5_readsf_child_loop_length_bytes x c in
  let loop_start_bytes := m5_readsf_child_loop_start_bytes x c in
  (* get the time requested to start playing the loop *)
  let pst := x_m5PlayStartTime x in
  let pst := if SFltb pst (S754_zero false) then S754_zero false else pst in
  (* current frame time at 'head', in bytes, relative to time anchor *)
  h <- long_of_float (x_m5HeadTimeRequest x) ;;
  p <- long_of_float pst ;;
  let byte_time := wrap_long (wrap_long (h - p) * sf_bytesperframe (child_sf c)) in
  if 0 <=? byte_time then
    (* calculate time within current audio loop *)
    Some (wrap_long
            (wrap_ulong
               (wrap_ulong (Z.rem (wrap_ulong byte_time) loop_length_bytes
                            + wrap_ulong (m5_initial_offset c))
                + loop_start_bytes)))
  else
    (* the current time is 'before' play start time: work backward to
       find time within current audio loop *)
    Some (wrap_long
            (wrap_ulong
               (wrap_ulong
                  (wrap_ulong
                     (loop_length_bytes
                      - Z.rem (wrap_ulong (wrap_long (-1 * byte_time))) loop_length_bytes)
                   + wrap_ulong (m5_initial_offset c))
                + loop_start_bytes))).

(* nudge it around if on exactly the end of the loop *)
Definition m5_readsf_child_nudge (x : t_readsf) (c : t_readsf_child) (next : Z) : Z :=
  let loop_length_bytes := m5_readsf_child_loop_length_bytes x c in
  let loop_start_bytes := m5_readsf_child_loop_start_bytes x c in
  if wrap_ulong next
     =? wrap_ulong (wrap_ulong (loop_length_bytes + wrap_ulong (m5_initial_offset c))
                    + loop_start_bytes)
  then wrap_long (wrap_ulong (wrap_ulong (m5_initial_offset c) + loop_start_bytes))
  else next.

(** The head of an iteration of the refill loop.  The result is the
    object with the error EMPTY recorded ([goto lost]), or the worker with
    its next place to read, together with the number of bytes left before
    the end of the loop.

    Modelled from the spec: the error code EMPTY ("after applying onset
    and loop parameters, no data can be streamed") is the constant
    [SOUNDFILE_M5_ERREMPTY] of [m5_soundfile.h], which is not part of the
    repository; it is the first argument. *)
Definition m5_readsf_child_seek (SOUNDFILE_M5_ERREMPTY : Z)
    (x : t_readsf) (c : t_readsf_child)
  : option (t_readsf + t_readsf_child * Z) :=
  let loop_length_bytes := m5_readsf_child_loop_length_bytes x c in
  (* cannot have 0 loop length! *)
  if loop_length_bytes =? 0 then
    Some (inl (set_x_fileerror SOUNDFILE_M5_ERREMPTY (set_x_eof 1 x)))
  else
    let loop_start_bytes := m5_readsf_child_loop_start_bytes x c in
    next <- (if (x_fifohead x =? 0) && (x_fifotail x =? 0)
             then m5_readsf_child_fresh_seek x c
             else Some (nextSeek c)) ;;
    let next := m5_readsf_child_nudge x c next in
    (* max number of bytes that can be copied into FIFO before end of
       current audio loop *)
    let loop_byte_limit :=
      wrap_ulong (wrap_ulong (wrap_ulong (loop_length_bytes
                                          + wrap_ulong (m5_initial_offset c))
                              + loop_start_bytes)
                  - wrap_ulong next) in
    Some (inr (mkChild (child_sf c) (m5_original_bytelimit c) (m5_seek_max c)
                 (m5_initial_offset c) next,
               loop_byte_limit)).

(** The worker's locals once the OPEN of [m5_readsf_child_main] has
    opened the file: [sf] is the descriptor as the open filled it. *)
Definition m5_readsf_child_opened (x : t_readsf) (sf : t_soundfile) : t_readsf_child :=
  let onsetframes := x_onsetframes x in
  (* lowest offset in file, after 'onset' frames *)
  let initial_offset :=
    wrap_long (wrap_ulong (wrap_ulong (sf_headersize sf)
                           + wrap_ulong (onsetframes * wrap_ulong (sf_bytesperframe sf)))) in
  {| child_sf := sf;
     m5_original_bytelimit := sf_bytelimit sf;
     (* highest offset in file *)
     m5_seek_max := wrap_ulong (sf_bytelimit sf + initial_offset);
     m5_initial_offset := initial_offset;
     nextSeek := 0 |}.


(** The player of [readsf_opened], asked at anchor time 10000 to have
    started at frame 5000, and the worker's locals for its file: 2000
    frames of 2 bytes behind a header of 44 bytes. *)
Definition readsf_late : t_readsf :=
  set_x_m5HeadTimeRequest (double_of_long 10000)
    (set_x_m5TailTime (double_of_long 10000)
       (set_x_m5PlayStartTime (double_of_long 5000)
          (set_x_state STATE_STREAM readsf_opened))).

Definition child_opened : t_readsf_child :=
  m5_readsf_child_opened readsf_late (x_sf readsf_opened).


(** *** The playback block callback: the end of the loop *)

(** In [m5_readsf_perform], streaming, past the checks of the fifo and of
    the file error: there was a request to set the end time to the end of
    the current loop; it is calculated here in case the loop length
    depends on the number of frames in the opened soundfile. *)
Definition m5_readsf_perform_end_time (x : t_readsf) (blockStartTime : Z)
  : option t_readsf :=
  if SFeqb (x_m5PlayEndTime x) END_AT_LOOP then
    let loop_length :=
      if x_m5LoopLength x =? LOOP_SELF
      then double_of_long (x_m5SoundFileFramesAvailableFromOnset x)
      else double_of_long (x_m5LoopLength x) in
    if SFleb loop_length (S754_zero false) then
      (* end time cannot be before start time *)
      Some (set_x_m5PlayEndTime (x_m5PlayStartTime x) x)
    else
      (* some loops have already played, so find start time of current one *)
      loop_count <-
        (if SFleb (x_m5PlayStartTime x) (double_of_long blockStartTime) then
           int_of_float
             (SFadd double_prec double_emax
                (floor (SFdiv double_prec double_emax
                          (SFsub double_prec double_emax
                             (double_of_long blockStartTime) (x_m5PlayStartTime x))
                          loop_length))
                (double_of_long 1))
         else Some 1) ;;
      Some (set_x_m5PlayEndTime
              (SFadd double_prec double_emax (x_m5PlayStartTime x)
                 (SFmul double_prec double_emax loop_length (double_of_long loop_count)))
              x)
  else Some x.


(** *** The playback block callback *)


(* x->x_fifohead = x->x_fifotail = x->x_eof = 0 *)
Definition m5_readsf_fifo_reset (x : t_readsf) : t_readsf :=
  set_x_fifohead 0 (set_x_fifotail 0 (set_x_eof 0 x)).


(** [m5_readsf_perform], streaming, once the block start time is known:
    the start time is latched, and the fifo lined up with the clock. *)
Definition m5_readsf_perform_sync (x : t_readsf) (blockStartTime : Z)
  : option t_readsf :=
  (* request to start relative to next immediate block *)
  let x := if SFeqb (x_m5PlayStartTime x) START_NOW
           then set_x_m5PlayStartTime (double_of_long blockStartTime) x
           else x in
  (* reset the fifo so that it starts filling from the current block time;
     do this if parameters (start/length) for audio loop changed *)
  let x := if negb (x_m5LoopLengthRequest x =? 0)
           then m5_readsf_fifo_reset (set_x_m5LoopLengthRequest 0 x)
           else x in
  (* if the tail somehow is not lined up with the current needed frame
     clock, check to see if we can fast-forward; otherwise reset the fifo *)
  tail_time <- ulong_of_float (x_m5TailTime x) ;;
  x <- (if negb (tail_time =? blockStartTime) then
          tail_frames <- long_of_float (x_m5TailTime x) ;;
          let time_out := wrap_long (wrap_long blockStartTime - tail_frames) in
          let x := if time_out <? 0 then m5_readsf_fifo_reset x else x in
          let forward_limit :=
            if x_fifohead x <? x_fifotail x then wrap_ulong (x_fifosize x)
            else wrap_ulong (x_fifohead x) in
          if wrap_ulong (wrap_long (time_out + x_fifotail x)) <? forward_limit then
            let x := set_x_fifotail (wrap_int (wrap_long (x_fifotail x + time_out))) x in
            Some (set_x_m5TailTime (double_of_long blockStartTime) x)
          else Some (m5_readsf_fifo_reset x)
        else Some x) ;;
  (* tail and head wound up in the same place, so update start time *)
  if x_fifohead x =? x_fifotail x then
    (* tell the child where we need to start reading based on frame clock *)
    Some (set_x_m5TailTime (double_of_long blockStartTime)
            (set_x_m5HeadTimeRequest (double_of_long blockStartTime) x))
  else Some x.

(** The end of a block that was streamed: the tail wraps at the end of
    the fifo and the worker is signalled once per period. *)
Definition m5_readsf_perform_advance (x : t_readsf) (effs : list t_effect)
  : t_readsf * list t_effect :=
  let x := if x_fifosize x <=? x_fifotail x then set_x_fifotail 0 x else x in
  let x := set_x_sigcountdown (wrap_int (x_sigcountdown x - 1)) x in
  if x_sigcountdown x <=? 0
  then (set_x_sigcountdown (x_sigperiod x) x, effs ++ [E_signal_request])
  else (x, effs).

(** [m5_readsf_perform], streaming, past the resolution of the end time:
    what is played of the block, and what is silence. *)
Definition m5_readsf_perform_transfer (x : t_readsf) (blockStartTime : Z)
  : option (t_readsf * list t_effect) :=
  let vecsize := x_vecsize x in
  let sf := x_sf x in
  let x := set_x_state STATE_STREAM x in
  end_time <- ulong_of_float (x_m5PlayEndTime x) ;;
  if end_time <? wrap_ulong (blockStartTime + wrap_ulong vecsize) then
    (* the current block passes by the requested end time: finish the
       partial buffer and set the rest to silence *)
    let xfersize :=
      if end_time <=? blockStartTime then 0
      else
        let n := wrap_ulong (end_time - blockStartTime) in
        if wrap_ulong vecsize <? n then wrap_ulong vecsize else n in
    let vecsize' := if negb (xfersize =? 0)
                    then wrap_int (wrap_ulong (wrap_ulong vecsize - xfersize))
                    else vecsize in
    let x := set_x_state STATE_IDLE x in
    let x := set_x_requestcode REQUEST_CLOSE x in
    (* send bang and zero out the (rest of the) output *)
    Some (x, (if negb (xfersize =? 0) then [E_xferin 0 xfersize] else [])
             ++ [E_clock_delay clock_bang; E_zero xfersize (wrap_ulong vecsize')])
  else
    start_time <- ulong_of_float (x_m5PlayStartTime x) ;;
    if blockStartTime <? start_time then
      (* start time may occur within this block (or later): fill with
         partial silence in the meantime before the start time; the tail
         keeps being updated to keep things in sync *)
      let zerosize :=
        let n := wrap_ulong (start_time - blockStartTime) in
        if wrap_ulong vecsize <? n then wrap_ulong vecsize else n in
      let xfersize := wrap_int (wrap_ulong (wrap_ulong vecsize - zerosize)) in
      let effs := E_zero 0 zerosize
                  :: (if negb (xfersize =? 0)
                      then [E_xferin zerosize (wrap_ulong xfersize)] else []) in
      let x := set_x_fifotail
                 (wrap_int (x_fifotail x + wrap_int (vecsize * sf_bytesperframe sf))) x in
      let x := set_x_m5TailTime
                 (SFadd double_prec double_emax (x_m5TailTime x) (double_of_long vecsize)) x in
      Some (m5_readsf_perform_advance x effs)
    else
      (* regular playback, stream entire buffer *)
      let effs := [E_xferin 0 (wrap_ulong vecsize)] in
      let x := set_x_fifotail
                 (wrap_int (x_fifotail x + wrap_int (vecsize * sf_bytesperframe sf))) x in
      let x := set_x_m5TailTime
                 (SFadd double_prec double_emax (x_m5TailTime x) (double_of_long vecsize)) x in
      Some (m5_readsf_perform_advance x effs).




(** The player of [readsf_late] while it streams blocks of 64 frames of
    a loop of 100000 frames, with 4096 bytes ready in the fifo; its local
    anchor was taken 10000 frames before the clock of [pd_at 0]. *)
Definition readsf_streaming : t_readsf :=
  set_x_m5LocalTimeAnchor (double_of_long (-3200000))
    (set_x_fifohead 4096
       (set_x_m5LoopLength 100000
          (set_x_m5SoundFileFramesAvailableFromOnset 2000
             (set_x_vecsize 64 readsf_late)))).




(** The recorder as [m5_writesf_open] finds it once its wait for the
    worker is over: stopped first if it was not idle, then left to the
    worker if a request was still pending. *)
Definition m5_writesf_open_waited (worker : t_writesf -> t_writesf) (x : t_writesf)
  : t_writesf :=
  let x := if negb (state_eqb (x_state x) STATE_IDLE)
           then fst (run_or (x, []) (m5_writesf_stop x []))
           else x in
  if request_eqb (x_requestcode x) REQUEST_NOTHING then x else worker x.

(* ================================================================== *)
(** * Properties *)

Ltac gen_pow :=
  repeat match goal with
  | H : context [Z.pow ?a ?b] |- _ =>
      let x := fresh "pw" in set (x := Z.pow a b) in *; clearbody x
  | |- context [Z.pow ?a ?b] =>
      let x := fresh "pw" in set (x := Z.pow a b) in *; clearbody x
  end.

(** ** Exact rounding *)

Lemma digits2_pos_bounds (p : positive) :
  2 ^ (Zpos (digits2_pos p) - 1) <= Zpos p < 2 ^ Zpos (digits2_pos p).
Proof.
  induction p as [p IH|p IH|]; cbn [digits2_pos].
  - rewrite Pos2Z.inj_succ.
    replace (Z.succ (Zpos (digits2_pos p)) - 1) with (Z.succ (Zpos (digits2_pos p) - 1)) by lia.
    rewrite !Z.pow_succ_r by lia. gen_pow. lia.
  - rewrite Pos2Z.inj_succ.
    replace (Z.succ (Zpos (digits2_pos p)) - 1) with (Z.succ (Zpos (digits2_pos p) - 1)) by lia.
    rewrite !Z.pow_succ_r by lia. gen_pow. lia.
  - cbn. lia.
Qed.

Lemma digits2_pos_unique (p : positive) (d : Z) :
  2 ^ (d - 1) <= Zpos p < 2 ^ d -> Zpos (digits2_pos p) = d.
Proof.
  intros [Hlo Hhi]. pose proof (digits2_pos_bounds p) as [Blo Bhi].
  set (k := Zpos (digits2_pos p)) in *.
  assert (0 < d).
  { destruct (Z.ltb_spec 0 d); auto.
    destruct (Z.eq_dec d 0) as [->|]; [simpl in Hhi; lia|].
    rewrite Z.pow_neg_r in Hhi by lia. lia. }
  destruct (Z.lt_trichotomy k d) as [Hlt|[Heq|Hgt]]; auto; exfalso.
  - assert (2 ^ k <= 2 ^ (d - 1)) by (apply Z.pow_le_mono_r; lia). gen_pow. lia.
  - assert (2 ^ d <= 2 ^ (k - 1)) by (apply Z.pow_le_mono_r; lia). gen_pow. lia.
Qed.

Lemma iter_xO_mul (p k : positive) : Zpos (Pos.iter xO p k) = Zpos p * 2 ^ Zpos k.
Proof.
  induction k using Pos.peano_ind.
  - cbn. lia.
  - rewrite Pos.iter_succ, (Pos2Z.inj_xO (Pos.iter xO p k)), IHk.
    rewrite Pos2Z.inj_succ, Z.pow_succ_r by lia. lia.
Qed.

Lemma pshl_mul (p : positive) (k : Z) : 0 <= k -> Zpos (pshl p k) = Zpos p * 2 ^ k.
Proof.
  destruct k as [|k|k]; intros Hk; cbn [pshl].
  - cbn. lia.
  - apply iter_xO_mul.
  - lia.
Qed.

Lemma pshl_eq (p q : positive) : Zpos p = Zpos q -> p = q.
Proof. congruence. Qed.

Lemma pshl_pshl (p : positive) (j k : Z) :
  0 <= j -> 0 <= k -> pshl (pshl p j) k = pshl p (j + k).
Proof.
  intros Hj Hk. apply pshl_eq. rewrite !pshl_mul by lia.
  rewrite Z.pow_add_r by lia. lia.
Qed.

Lemma digits2_pos_pshl (p : positive) (k : Z) :
  0 <= k -> Zpos (digits2_pos (pshl p k)) = Zpos (digits2_pos p) + k.
Proof.
  intros Hk. apply digits2_pos_unique. rewrite pshl_mul by lia.
  pose proof (digits2_pos_bounds p) as [Blo Bhi].
  replace (Zpos (digits2_pos p) + k - 1) with ((Zpos (digits2_pos p) - 1) + k) by lia.
  rewrite !Z.pow_add_r by lia.
  assert (0 < 2 ^ k) by (apply Z.pow_pos_nonneg; lia).
  gen_pow. nia.
Qed.

Lemma iter_pos_iter {A} (f : A -> A) (n : positive) (x : A) :
  iter_pos f n x = Pos.iter f x n.
Proof.
  revert x. induction n as [n IH|n IH|]; intros x; simpl.
  - rewrite !IH. rewrite <- !Pos.iter_swap. reflexivity.
  - rewrite !IH. reflexivity.
  - reflexivity.
Qed.

Lemma iter_shr_1_exact (k q : positive) :
  iter_pos shr_1 k (Build_shr_record (Zpos (Pos.iter xO q k)) false false)
  = Build_shr_record (Zpos q) false false.
Proof.
  rewrite iter_pos_iter. revert q. induction k using Pos.peano_ind; intros q.
  - reflexivity.
  - rewrite Pos.iter_succ_r. rewrite Pos.iter_succ. cbn [shr_1 orb]. apply IHk.
Qed.

Section Rounding.
Variables prec emax : Z.
Hypothesis Hprec : 0 < prec.
Hypothesis Hemax : prec < emax.

Lemma fexp_normal (d : Z) : 3 - emax - prec <= d - prec -> fexp prec emax d = d - prec.
Proof. unfold fexp, emin. lia. Qed.

(** No digit is dropped when the mantissa has no more digits than the format allows. *)
Lemma binary_round_aux_keep (s : bool) (m : positive) (e : Z) :
  fexp prec emax (Zpos (digits2_pos m) + e) <= e ->
  e <= emax - prec ->
  binary_round_aux prec emax s (Zpos m) e loc_Exact = S754_finite s m e.
Proof.
  intros Hf He. unfold binary_round_aux, shr_fexp. cbn [Zdigits2 shr_record_of_loc].
  assert (Hsh : forall mrs, shr mrs e (fexp prec emax (Zpos (digits2_pos m) + e) - e) = (mrs, e)).
  { intros mrs. unfold shr.
    destruct (fexp prec emax (Zpos (digits2_pos m) + e) - e) eqn:E; auto. lia. }
  rewrite Hsh. cbn [shr_m loc_of_shr_record round_nearest_even Zdigits2 shr_record_of_loc].
  rewrite Hsh. cbn [shr_m].
  destruct (Z.leb_spec e (emax - prec)); [reflexivity|lia].
Qed.

(** Dropping [k] zero digits is exact. *)
Lemma binary_round_aux_shift (s : bool) (q k : positive) (e : Z) :
  fexp prec emax (Zpos (digits2_pos q) + Zpos k + e) = e + Zpos k ->
  e + Zpos k <= emax - prec ->
  binary_round_aux prec emax s (Zpos (Pos.iter xO q k)) e loc_Exact
  = S754_finite s q (e + Zpos k).
Proof.
  intros Hf He. unfold binary_round_aux, shr_fexp. cbn [Zdigits2 shr_record_of_loc].
  change (Pos.iter xO q k) with (pshl q (Zpos k)).
  rewrite digits2_pos_pshl by lia. rewrite Hf.
  replace (e + Zpos k - e) with (Zpos k) by lia.
  unfold shr at 1. cbn [pshl]. rewrite iter_shr_1_exact.
  cbn [shr_m loc_of_shr_record round_nearest_even Zdigits2 shr_record_of_loc].
  replace (Zpos (digits2_pos q) + (e + Zpos k)) with (Zpos (digits2_pos q) + Zpos k + e) by lia.
  rewrite Hf, Z.sub_diag. cbn [shr shr_m].
  destruct (Z.leb_spec (e + Zpos k) (emax - prec)); [reflexivity|lia].
Qed.

(** Rounding a mantissa [P * 2^j] that already has [prec] digits or more,
    when [P] itself fits the format. *)
Lemma binary_round_aux_canon (s : bool) (P : positive) (j e : Z) :
  0 <= j ->
  Zpos (digits2_pos P) <= prec <= Zpos (digits2_pos P) + j ->
  normal_exp prec emax (e + j + Zpos (digits2_pos P) - prec) ->
  binary_round_aux prec emax s (Zpos (pshl P j)) e loc_Exact = SFcanon prec s P (e + j).
Proof.
  intros Hj Hd [Hlo Hhi]. unfold SFcanon.
  set (d := Zpos (digits2_pos P)) in *.
  set (q := pshl P (prec - d)).
  assert (Hq : pshl P j = pshl q (j - (prec - d))).
  { unfold q. rewrite pshl_pshl by lia. f_equal. lia. }
  assert (Hdq : Zpos (digits2_pos q) = prec).
  { unfold q. rewrite digits2_pos_pshl by lia. fold d. lia. }
  rewrite Hq.
  destruct (j - (prec - d)) as [|k|k] eqn:Ek; try lia; cbn [pshl].
  - rewrite binary_round_aux_keep.
    + f_equal. lia.
    + rewrite Hdq, fexp_normal by lia. lia.
    + lia.
  - rewrite binary_round_aux_shift.
    + f_equal. lia.
    + rewrite Hdq, fexp_normal by lia. lia.
    + lia.
Qed.

(** Rounding an arbitrary exact mantissa [P * 2^j]. *)
Lemma binary_round_canon (s : bool) (P : positive) (j e : Z) :
  0 <= j ->
  Zpos (digits2_pos P) <= prec ->
  normal_exp prec emax (e + j + Zpos (digits2_pos P) - prec) ->
  binary_round prec emax s (pshl P j) e = SFcanon prec s P (e + j).
Proof.
  intros Hj Hd Hn. pose proof Hn as [Hlo Hhi]. unfold binary_round, shl_align.
  rewrite digits2_pos_pshl by lia.
  set (d := Zpos (digits2_pos P)) in *.
  rewrite fexp_normal by lia.
  destruct (d + j + e - prec - e) as [|k|k] eqn:Ek.
  - apply binary_round_aux_canon; fold d; auto; lia.
  - apply binary_round_aux_canon; fold d; auto; lia.
  - change (Pos.iter xO (pshl P j) k) with (pshl (pshl P j) (Zpos k)).
    rewrite pshl_pshl by lia.
    replace (d + j + e - prec) with ((d + j + e - prec) + ((j + Zpos k)) - (j + Zpos k)) by lia.
    rewrite binary_round_aux_canon; fold d; try lia.
    + f_equal. lia.
    + unfold normal_exp. lia.
Qed.

End Rounding.

(** ** Values of canonical data and integer conversions *)

Lemma shiftl_mul_pow2_sub (z k e : Z) :
  0 <= k -> Z.shiftl (z * 2 ^ k) (e - k) = Z.shiftl z e.
Proof.
  intros Hk. rewrite <- Z.shiftl_mul_pow2 by lia.
  rewrite Z.shiftl_shiftl by lia. f_equal. lia.
Qed.

Lemma cond_Zopp_mul (s : bool) (a b : Z) : cond_Zopp s (a * b) = cond_Zopp s a * b.
Proof. destruct s; cbn; lia. Qed.

Lemma cond_Zopp_abs (z : Z) : cond_Zopp (z <? 0) (Z.abs z) = z.
Proof. destruct (Z.ltb_spec z 0); cbn; lia. Qed.

Section CanonValue.
Variables prec : Z.
Variables (s : bool) (P : positive) (e : Z).
Hypothesis HP : Zpos (digits2_pos P) <= prec.

Lemma SFtrunc_canon : SFtrunc (SFcanon prec s P e) = Some (cond_Zopp s (Z.shiftl (Zpos P) e)).
Proof.
  unfold SFcanon, SFtrunc. rewrite pshl_mul by lia.
  replace (e + Zpos (digits2_pos P) - prec) with (e - (prec - Zpos (digits2_pos P))) by lia.
  rewrite shiftl_mul_pow2_sub by lia. reflexivity.
Qed.

Lemma SFfloor_canon : SFfloor (SFcanon prec s P e) = Some (Z.shiftl (cond_Zopp s (Zpos P)) e).
Proof.
  unfold SFcanon, SFfloor. rewrite pshl_mul, cond_Zopp_mul by lia.
  replace (e + Zpos (digits2_pos P) - prec) with (e - (prec - Zpos (digits2_pos P))) by lia.
  rewrite shiftl_mul_pow2_sub by lia. reflexivity.
Qed.

Lemma SFceil_canon :
  SFceil (SFcanon prec s P e) = Some (- Z.shiftl (cond_Zopp (negb s) (Zpos P)) e).
Proof.
  unfold SFcanon, SFceil. rewrite pshl_mul, cond_Zopp_mul by lia.
  replace (e + Zpos (digits2_pos P) - prec) with (e - (prec - Zpos (digits2_pos P))) by lia.
  rewrite shiftl_mul_pow2_sub by lia. reflexivity.
Qed.
End CanonValue.

Lemma digits2_pos_le (p : positive) (d : Z) : Zpos p < 2 ^ d -> Zpos (digits2_pos p) <= d.
Proof.
  intros Hp. pose proof (digits2_pos_bounds p) as [Blo _].
  destruct (Z.le_gt_cases (Zpos (digits2_pos p)) d) as [|Hgt]; auto. exfalso.
  assert (2 ^ d <= 2 ^ (Zpos (digits2_pos p) - 1)).
  { destruct (Z.le_gt_cases 0 d).
    - apply Z.pow_le_mono_r; lia.
    - rewrite (Z.pow_neg_r 2 d) by lia. apply Z.pow_nonneg. lia. }
  lia.
Qed.

Section IntegerConversion.
Variables prec emax : Z.
Hypothesis Hprec : 0 < prec.
Hypothesis Hemax : prec < emax.

(** Converting an integer of fewer than [prec] binary digits is exact. *)
Lemma binary_normalize_int (z : Z) (s0 : bool) :
  z <> 0 -> Z.abs z < 2 ^ prec ->
  binary_normalize prec emax z 0 s0 = SFcanon prec (z <? 0) (Z.to_pos (Z.abs z)) 0.
Proof.
  intros Hz Hlt. unfold binary_normalize.
  destruct z as [|p|p]; [congruence| |]; cbn [Z.abs Z.to_pos Z.ltb Z.compare].
  - change p with (pshl p 0) at 1. rewrite binary_round_canon; auto; try lia.
    + apply digits2_pos_le. exact Hlt.
    + pose proof (digits2_pos_le p prec Hlt). unfold normal_exp. lia.
  - change p with (pshl p 0) at 1. rewrite binary_round_canon; auto; try lia.
    + apply digits2_pos_le. exact Hlt.
    + pose proof (digits2_pos_le p prec Hlt). unfold normal_exp. lia.
Qed.

Lemma SFtrunc_binary_normalize (z : Z) (s0 : bool) :
  Z.abs z <= 2 ^ prec -> SFtrunc (binary_normalize prec emax z 0 s0) = Some z.
Proof.
  intros Hle. destruct (Z.eq_dec z 0) as [->|Hz]; [reflexivity|].
  destruct (Z.eq_dec (Z.abs z) (2 ^ prec)) as [Heq|Hne].
  - (* the power of two just above the exact range *)
    assert (Hp : Zpos (pshl 1 prec) = Z.abs z) by (rewrite pshl_mul by lia; lia).
    unfold binary_normalize.
    destruct z as [|p|p]; [congruence| |]; cbn [Z.abs] in Hp.
    + injection Hp as <-. rewrite binary_round_canon; cbn [digits2_pos]; try lia.
      * rewrite SFtrunc_canon by (cbn; lia). cbn [cond_Zopp].
        rewrite (pshl_mul 1 prec) by lia. rewrite Z.shiftl_mul_pow2 by lia.
        do 2 f_equal.
      * unfold normal_exp. lia.
    + injection Hp as <-. rewrite binary_round_canon; cbn [digits2_pos]; try lia.
      * rewrite SFtrunc_canon by (cbn; lia). cbn [cond_Zopp].
        rewrite Z.shiftl_mul_pow2 by lia.
        change (Z.neg (pshl 1 prec)) with (- Z.pos (pshl 1 prec)).
        rewrite (pshl_mul 1 prec) by lia. do 3 f_equal.
      * unfold normal_exp. lia.
  - rewrite binary_normalize_int by lia.
    rewrite SFtrunc_canon.
    + rewrite Z.shiftl_0_r, Z2Pos.id by lia. f_equal. apply cond_Zopp_abs.
    + apply digits2_pos_le. rewrite Z2Pos.id by lia. lia.
Qed.
End IntegerConversion.

(** ** Frame time codes: splitting and recombining *)

Lemma wrap_long_id (z : Z) : LONG_MIN <= z <= LONG_MAX -> wrap_long z = z.
Proof.
  unfold LONG_MIN, LONG_MAX, wrap_long. intros H.
  rewrite Z.mod_small; lia.
Qed.

Lemma in_long_true (z : Z) : LONG_MIN <= z <= LONG_MAX -> in_long z = true.
Proof.
  unfold in_long. intros [H1 H2].
  apply andb_true_intro; split; apply Z.leb_le; assumption.
Qed.

Lemma long_of_float_of_long (z : Z) :
  Z.abs z <= 2 ^ 24 -> long_of_float (float_of_long z) = Some z.
Proof.
  intros Hz. unfold long_of_float, float_of_long.
  rewrite SFtrunc_binary_normalize by (unfold float_prec, float_emax; lia).
  rewrite in_long_true; [reflexivity|]. unfold LONG_MIN, LONG_MAX. lia.
Qed.

(** C1 (as amended).  Splitting a frame count into a time code and
    recombining it returns the frame count whenever its epoch
    [|n| / 2^24] is at most [2^24], that is for [|n| < 2^48 + 2^24]. *)
Theorem m5_frame_time_code_roundtrip (n : Z) :
  Z.abs n < 2 ^ 48 + 2 ^ 24 ->
  m5_frames_from_time_code (m5_frame_time_code_from_frames n) = Some n.
Proof.
  intros Hn. unfold m5_frames_from_time_code, m5_frame_time_code_from_frames.
  cbn [sign epoch frames]. unfold labs, FRAME_FLOAT_EPOCH.
  rewrite (wrap_long_id (Z.abs n)) by (unfold LONG_MIN, LONG_MAX; lia).
  assert (Ha : 0 <= Z.abs n) by lia.
  rewrite Z.quot_div_nonneg, Z.rem_mod_nonneg by lia.
  pose proof (Z.div_mod (Z.abs n) 16777216 ltac:(lia)) as Hdm.
  pose proof (Z.mod_pos_bound (Z.abs n) 16777216 ltac:(lia)) as Hr.
  assert (Hq : 0 <= Z.abs n / 16777216 <= 2 ^ 24).
  { split; [apply Z.div_pos; lia|]. 
    apply Z.lt_succ_r. apply Z.div_lt_upper_bound; lia. }
  set (q := Z.abs n / 16777216) in *. set (r := Z.abs n mod 16777216) in *.
  destruct (Z.ltb_spec n 0) as [Hneg|Hpos].
  - change (long_of_float float_minus_one) with (Some (-1)). cbn [bind].
    rewrite (long_of_float_of_long q) by lia. cbn [bind].
    rewrite (long_of_float_of_long r) by lia. cbn [bind]. f_equal.
    rewrite (wrap_long_id (q * 16777216)) by (unfold LONG_MIN, LONG_MAX; lia).
    rewrite (wrap_long_id (q * 16777216 + r)) by (unfold LONG_MIN, LONG_MAX; lia).
    rewrite wrap_long_id; unfold LONG_MIN, LONG_MAX; lia.
  - change (long_of_float float_one) with (Some 1). cbn [bind].
    rewrite (long_of_float_of_long q) by lia. cbn [bind].
    rewrite (long_of_float_of_long r) by lia. cbn [bind]. f_equal.
    rewrite (wrap_long_id (q * 16777216)) by (unfold LONG_MIN, LONG_MAX; lia).
    rewrite (wrap_long_id (q * 16777216 + r)) by (unfold LONG_MIN, LONG_MAX; lia).
    rewrite wrap_long_id; unfold LONG_MIN, LONG_MAX; lia.
Qed.

Lemma m5_frame_time_code_roundtrip_witness :
  Z.abs (-90000) < 2 ^ 48 + 2 ^ 24 /\
  m5_frames_from_time_code (m5_frame_time_code_from_frames (-90000)) = Some (-90000).
Proof.
  split; [reflexivity|]. apply (m5_frame_time_code_roundtrip (-90000)). reflexivity.
Defined.

(** The claim as stated fails: the epoch [2^24 + 1] of the frame count
    [2^48 + 2^24] is not a binary32 number and is rounded to [2^24]. *)
Lemma m5_frame_time_code_roundtrip_full_range_fails :
  ~ (forall n : Z, LONG_MIN <= n <= LONG_MAX ->
       m5_frames_from_time_code (m5_frame_time_code_from_frames n) = Some n).
Proof.
  intros H. specialize (H (2 ^ 48 + 2 ^ 24)).
  assert (Hr : LONG_MIN <= 2 ^ 48 + 2 ^ 24 <= LONG_MAX) by (unfold LONG_MIN, LONG_MAX; lia).
  specialize (H Hr). vm_compute in H. discriminate H.
Qed.

Lemma m5_frame_time_code_roundtrip_long_min :
  m5_frames_from_time_code (m5_frame_time_code_from_frames LONG_MIN) = Some LONG_MIN.
Proof. vm_compute. reflexivity. Qed.

(** ** The loop-boundary calculator *)


Lemma wrap_long_add_l (a b : Z) : wrap_long (wrap_long a + b) = wrap_long (a + b).
Proof.
  unfold wrap_long. f_equal.
  replace ((a + 2 ^ 63) mod 2 ^ 64 - 2 ^ 63 + b + 2 ^ 63)
    with ((a + 2 ^ 63) mod 2 ^ 64 + b) by lia.
  rewrite Zplus_mod_idemp_l. f_equal. lia.
Qed.

Lemma wrap_long_add_r (a b : Z) : wrap_long (a + wrap_long b) = wrap_long (a + b).
Proof. rewrite Z.add_comm, wrap_long_add_l. f_equal. lia. Qed.

Lemma wrap_long_sub_l (a b : Z) : wrap_long (wrap_long a - b) = wrap_long (a - b).
Proof. unfold Z.sub. apply wrap_long_add_l. Qed.

Lemma wrap_long_sum3 (a b s : Z) :
  wrap_long (wrap_long (a + wrap_long b) + s) = wrap_long (a + b + s).
Proof.
  rewrite wrap_long_add_l.
  replace (a + wrap_long b + s) with (wrap_long b + (a + s)) by lia.
  rewrite wrap_long_add_l. apply (f_equal wrap_long). lia.
Qed.

Lemma wrap_long_sum5 (a l o r b s : Z) :
  wrap_long (wrap_long (wrap_long (wrap_long (wrap_long (a + l) + o) - r) + wrap_long b) + s)
  = wrap_long (a + l + o - r + b + s).
Proof.
  rewrite wrap_long_sum3.
  set (B := wrap_long (wrap_long (a + l) + o)).
  replace (wrap_long (B - r) + b + s) with (wrap_long (B - r) + (b + s)) by lia.
  rewrite wrap_long_add_l. unfold B.
  replace (wrap_long (wrap_long (a + l) + o) - r + (b + s))
    with (wrap_long (wrap_long (a + l) + o) + (- r + b + s)) by lia.
  rewrite wrap_long_add_l.
  replace (wrap_long (a + l) + o + (- r + b + s))
    with (wrap_long (a + l) + (o - r + b + s)) by lia.
  rewrite wrap_long_add_l. apply (f_equal wrap_long). lia.
Qed.

Lemma Some_long_of_float (x : spec_float) (z : Z) :
  long_of_float x = Some z -> LONG_MIN <= z <= LONG_MAX.
Proof.
  unfold long_of_float. destruct (SFtrunc x) as [t|]; [|discriminate].
  destruct (in_long t) eqn:E; [|discriminate]. intros [= <-].
  unfold in_long in E. apply andb_prop in E as [E1 E2].
  apply Z.leb_le in E1, E2. lia.
Qed.

(** What the calculator computes.  With [clk = clock - toFrames(O)] and
    [r] the C remainder of [clk] by [l = toFrames(L)] (truncated, of the
    sign of [clk]), the calculator is invalid exactly when [l < 0], and
    otherwise writes the time code of [clk + s] when [l = 0], of
    [clk + k*l + s] when [r = 0] and of [clk + l + toFrames(O) - r + k*l + s]
    when [r <> 0], all sums in 64-bit arithmetic; [r] is the Euclidean
    remainder whenever [clk >= 0]. *)
Lemma m5_loop_start_from_clock_time_spec
    (clock : double) (O L : t_m5FrameTimeCode) (k s o l c : Z) :
  m5_frames_from_time_code O = Some o ->
  m5_frames_from_time_code L = Some l ->
  long_of_float clock = Some c ->
  let clk := wrap_long (c - o) in
  let r := Z.rem clk l in
  m5_loop_start_from_clock_time clock O L k s =
    Some (if l <? 0 then (1, None)
          else (0, Some (m5_frame_time_code_from_frames
                           (wrap_long
                              (if l =? 0 then clk + s
                               else if r =? 0 then clk + k * l + s
                               else clk + l + o - r + k * l + s)))))
  /\ (0 <= clk -> 0 < l -> r = clk mod l).
Proof.
  intros HO HL Hc clk r. split.
  - unfold m5_loop_start_from_clock_time. rewrite HO, HL, Hc. cbn [bind].
    fold clk. fold r.
    destruct (l <? 0); [reflexivity|].
    destruct (l =? 0); [reflexivity|].
    destruct (r =? 0).
    + rewrite wrap_long_sum3. reflexivity.
    + rewrite wrap_long_sum5. reflexivity.
  - intros Hclk Hl. unfold r. apply Z.rem_mod_nonneg; lia.
Qed.

Lemma m5_loop_start_from_clock_time_spec_witness :
  m5_loop_start_from_clock_time (double_of_long 23000)
    (m5_frame_time_code_from_frames 0) (m5_frame_time_code_from_frames 12000) 0 0
  = Some (0, Some (m5_frame_time_code_from_frames 24000)).
Proof.
  exact (proj1 (m5_loop_start_from_clock_time_spec (double_of_long 23000)
           (m5_frame_time_code_from_frames 0) (m5_frame_time_code_from_frames 12000)
           0 0 0 12000 23000 eq_refl eq_refl eq_refl)).
Defined.

(** Before the first boundary the truncated remainder is negative, and
    the calculator lands one whole loop after the boundary that the
    Euclidean remainder gives. *)
Lemma m5_loop_start_negative_clock_late (clk l o k s : Z) :
  clk < 0 -> 0 < l -> Z.rem clk l <> 0 ->
  clk + l + o - Z.rem clk l + k * l + s
  = (clk + l + o - clk mod l + k * l + s) + l.
Proof.
  intros Hc Hl Hr.
  pose proof (Z.rem_bound_pos_neg clk l Hl ltac:(lia)) as Hb.
  pose proof (Z.quot_rem' clk l) as Hq.
  assert (E : Z.rem clk l + l = clk mod l)
    by (apply (Z.mod_unique clk l (Z.quot clk l - 1)); lia).
  lia.
Qed.

(** C2 fails where the clock has not reached the offset.  At clock 0,
    with an offset of 5 frames and loops of 3 frames, the boundaries are
    the frames [5 + 3 m]; the next one is frame 2, which the Euclidean
    remainder of the claim gives, but the C remainder of [-5] by 3 is
    [-2] and the calculator writes the time code of frame 5, one loop
    late. *)
Theorem m5_loop_start_from_clock_time_skips_boundary :
  let O := m5_frame_time_code_from_frames 5 in
  let L := m5_frame_time_code_from_frames 3 in
  m5_frames_from_time_code O = Some 5 /\
  m5_frames_from_time_code L = Some 3 /\
  long_of_float (double_of_long 0) = Some 0 /\
  spec_loop_start 0 5 3 0 0 = Some 2 /\
  (2 = 5 + (-1) * 3) /\
  m5_loop_start_from_clock_time (double_of_long 0) O L 0 0
    = Some (0, Some (m5_frame_time_code_from_frames 5)) /\
  m5_frames_from_time_code (m5_frame_time_code_from_frames 5) = Some (2 + 3) /\
  m5_frame_time_code_from_frames 5 <> m5_frame_time_code_from_frames 2.
Proof.
  cbv zeta. repeat split; try (vm_compute; reflexivity).
  vm_compute. discriminate.
Qed.

(** ** Multiplying a time code by a scalar *)

Lemma digits2_pos_mul_lower (p q : positive) :
  Zpos (digits2_pos p) + Zpos (digits2_pos q) - 1 <= Zpos (digits2_pos (p * q)).
Proof.
  pose proof (digits2_pos_bounds p) as [Hp _].
  pose proof (digits2_pos_bounds q) as [Hq _].
  pose proof (digits2_pos_bounds (p * q)) as [_ Hpq].
  set (dp := Zpos (digits2_pos p)) in *. set (dq := Zpos (digits2_pos q)) in *.
  set (d := Zpos (digits2_pos (p * q))) in *.
  destruct (Z.le_gt_cases (dp + dq - 1) d) as [|Hgt]; auto. exfalso.
  assert (H1 : 2 ^ d <= 2 ^ (dp - 1 + (dq - 1))) by (apply Z.pow_le_mono_r; lia).
  rewrite Z.pow_add_r in H1 by lia.
  rewrite Pos2Z.inj_mul in Hpq.
  assert (0 < 2 ^ (dp - 1)) by (apply Z.pow_pos_nonneg; lia).
  assert (0 < 2 ^ (dq - 1)) by (apply Z.pow_pos_nonneg; lia).
  gen_pow. nia.
Qed.

Lemma pshl_mul_pshl (p q : positive) (j k : Z) :
  0 <= j -> 0 <= k -> (pshl p j * pshl q k)%positive = pshl (p * q) (j + k).
Proof.
  intros Hj Hk. apply pshl_eq. rewrite Pos2Z.inj_mul, !pshl_mul by lia.
  rewrite Pos2Z.inj_mul, Z.pow_add_r by lia. ring.
Qed.

Section Product.
Variables prec emax : Z.
Hypothesis Hprec : 0 < prec.
Hypothesis Hemax : prec < emax.

(** The product of two canonical data is exact when the product of their
    significands fits the format. *)
Lemma SFmul_canon (s1 s2 : bool) (P1 P2 : positive) (e1 e2 : Z) :
  Zpos (digits2_pos P1) <= prec ->
  Zpos (digits2_pos P2) <= prec ->
  Zpos (digits2_pos (P1 * P2)) <= prec ->
  normal_exp prec emax (e1 + e2 + Zpos (digits2_pos (P1 * P2)) - prec) ->
  SFmul prec emax (SFcanon prec s1 P1 e1) (SFcanon prec s2 P2 e2)
  = SFcanon prec (xorb s1 s2) (P1 * P2) (e1 + e2).
Proof.
  intros H1 H2 H12 Hn. unfold SFcanon at 1 2. cbn [SFmul].
  pose proof (digits2_pos_mul_lower P1 P2) as Hlow.
  set (d1 := Zpos (digits2_pos P1)) in *. set (d2 := Zpos (digits2_pos P2)) in *.
  rewrite pshl_mul_pshl by lia.
  rewrite binary_round_aux_canon; auto; try lia.
  - f_equal. lia.
  - replace (e1 + d1 - prec + (e2 + d2 - prec) + (prec - d1 + (prec - d2)))
      with (e1 + e2) by lia. exact Hn.
Qed.

End Product.

Lemma double_of_long_canon (n : Z) :
  n <> 0 -> Z.abs n < 2 ^ 53 ->
  double_of_long n = SFcanon double_prec (n <? 0) (Z.to_pos (Z.abs n)) 0.
Proof.
  intros Hn Hlt. unfold double_of_long.
  apply binary_normalize_int; unfold double_prec, double_emax; lia.
Qed.

(** What [valid_binary] says of a finite binary32 datum. *)
Lemma valid_binary32_finite (s : bool) (m : positive) (e : Z) :
  valid_binary float_prec float_emax (S754_finite s m e) = true ->
  Zpos (digits2_pos m) <= 24 /\ -149 <= e <= 104.
Proof.
  cbn [valid_binary]. unfold bounded, canonical_mantissa, fexp, emin, float_prec, float_emax.
  intros H. apply andb_prop in H as [H1 H2].
  apply Z.eqb_eq in H1. apply Z.leb_le in H2. lia.
Qed.

Lemma double_of_float_canon (s : bool) (m : positive) (e : Z) :
  valid_binary float_prec float_emax (S754_finite s m e) = true ->
  double_of_float (S754_finite s m e) = SFcanon double_prec s m e.
Proof.
  intros Hv. apply valid_binary32_finite in Hv as [Hd He].
  unfold double_of_float. change m with (pshl m 0) at 1.
  rewrite binary_round_canon; unfold double_prec, double_emax, normal_exp; try lia.
  f_equal. lia.
Qed.

Lemma shiftl_neg_bound (z e b : Z) :
  e < 0 -> Z.abs z < 2 ^ (b + 1) -> 0 <= b -> Z.abs (Z.shiftl z e) <= 2 ^ b.
Proof.
  intros He Hz Hb.
  rewrite <- (Z.opp_involutive e). rewrite Z.shiftl_opp_r, Z.shiftr_div_pow2 by lia.
  assert (Hp : 2 <= 2 ^ (- e)).
  { change 2 with (2 ^ 1) at 1. apply Z.pow_le_mono_r; lia. }
  rewrite Z.pow_add_r, Z.pow_1_r in Hz by lia.
  set (k := 2 ^ (- e)) in *. set (B := 2 ^ b) in *.
  assert (0 < B) by (apply Z.pow_pos_nonneg; lia).
  assert (- B <= z / k <= B).
  { split.
    - apply Z.div_le_lower_bound; [lia|]. nia.
    - apply Z.lt_succ_r. apply Z.div_lt_upper_bound; [lia|]. nia. }
  lia.
Qed.

(** [(long)floor(x)] of a canonical double. *)
Lemma long_of_float_floor_canon (s : bool) (P : positive) (e : Z) :
  Zpos (digits2_pos P) <= 53 ->
  in_long (Z.shiftl (cond_Zopp s (Zpos P)) e) = true ->
  long_of_float (floor (SFcanon double_prec s P e))
  = Some (Z.shiftl (cond_Zopp s (Zpos P)) e).
Proof.
  intros Hd Hin.
  pose proof (SFfloor_canon double_prec s P e Hd) as Hfl.
  pose proof (SFtrunc_canon double_prec s P e Hd) as Htr.
  unfold SFcanon in *. unfold floor.
  set (M := pshl P (double_prec - Zpos (digits2_pos P))) in *.
  set (e' := e + Zpos (digits2_pos P) - double_prec) in *.
  cbn [SFfloor] in Hfl. injection Hfl as Hfl.
  destruct (Z.leb_spec 0 e') as [He'|He'].
  - unfold long_of_float. rewrite Htr.
    assert (He : 0 <= e) by (unfold e', double_prec in He'; lia).
    assert (Heq : cond_Zopp s (Z.shiftl (Zpos P) e) = Z.shiftl (cond_Zopp s (Zpos P)) e).
    { rewrite !Z.shiftl_mul_pow2 by lia. apply cond_Zopp_mul. }
    rewrite Heq, Hin. reflexivity.
  - rewrite Hfl. set (z := Z.shiftl (cond_Zopp s (Zpos P)) e) in *.
    assert (Hz : Z.abs z <= 2 ^ 52).
    { rewrite <- Hfl. apply shiftl_neg_bound; try lia.
      assert (Zpos (digits2_pos M) = 53).
      { unfold M. rewrite digits2_pos_pshl by (unfold double_prec; lia).
        unfold double_prec. lia. }
      pose proof (digits2_pos_bounds M) as [_ HM]. rewrite H in HM.
      destruct s; cbn [cond_Zopp]; change (52 + 1) with 53; lia. }
    unfold integral_double. destruct z as [|p|p] eqn:Ez.
    + reflexivity.
    + unfold long_of_float.
      rewrite SFtrunc_binary_normalize; unfold double_prec, double_emax; try lia.
      rewrite Hin. reflexivity.
    + unfold long_of_float.
      rewrite SFtrunc_binary_normalize; unfold double_prec, double_emax; try lia.
      rewrite Hin. reflexivity.
Qed.

Lemma cond_Zopp_xorb (s1 s2 : bool) (a b : Z) :
  cond_Zopp (xorb s1 s2) (a * b) = cond_Zopp s1 a * cond_Zopp s2 b.
Proof. destruct s1, s2; cbn; lia. Qed.

(** C5 (as amended).  For a time code of fewer than [2^29] frames and a
    finite binary32 scalar, the double-precision product is exact, and the
    result is the time code of the floor of the exact product, provided
    that floor is a [long]. *)
Theorem m5_frame_time_code_multiply_scalar_exact
    (a : t_m5FrameTimeCode) (s : t_float) (n p : Z) :
  m5_frames_from_time_code a = Some n ->
  Z.abs n < 2 ^ 29 ->
  valid_binary float_prec float_emax s = true ->
  spec_floor_product n s = Some p ->
  in_long p = true ->
  m5_frame_time_code_multiply_scalar a s = Some (m5_frame_time_code_from_frames p).
Proof.
  intros Ha Hn Hv Hp Hin. unfold m5_frame_time_code_multiply_scalar.
  rewrite Ha. cbn [bind].
  assert (Hgoal : long_of_float (floor (SFmul double_prec double_emax
                     (double_of_long n) (double_of_float s))) = Some p);
    [|rewrite Hgoal; reflexivity].
  destruct s as [sg|sg| |sg m e]; cbn [spec_floor_product] in Hp; try discriminate;
    injection Hp as <-.
  - (* scalar zero *)
    cbn [double_of_float].
    destruct (Z.eq_dec n 0) as [->|Hn0]; [reflexivity|].
    rewrite double_of_long_canon by lia. reflexivity.
  - (* finite scalar *)
    pose proof (valid_binary32_finite sg m e Hv) as [Hdm He].
    rewrite double_of_float_canon by exact Hv.
    destruct (Z.eq_dec n 0) as [->|Hn0].
    + cbn [Z.mul]. rewrite Z.shiftl_0_l. reflexivity.
    + rewrite double_of_long_canon by lia.
      set (N := Z.to_pos (Z.abs n)).
      assert (HN : Zpos N = Z.abs n) by (unfold N; rewrite Z2Pos.id; lia).
      pose proof (digits2_pos_bounds m) as [_ Hm].
      assert (Hm24 : Zpos m < 2 ^ 24).
      { eapply Z.lt_le_trans; [exact Hm|]. apply Z.pow_le_mono_r; lia. }
      assert (HNm : Zpos (N * m) < 2 ^ 53).
      { rewrite Pos2Z.inj_mul, HN. change (2 ^ 53) with (2 ^ 29 * 2 ^ 24). nia. }
      pose proof (digits2_pos_le _ _ HNm) as HdNm.
      assert (HdN : Zpos (digits2_pos N) <= 53).
      { apply digits2_pos_le. rewrite HN. lia. }
      rewrite SFmul_canon; unfold double_prec, double_emax, normal_exp; try lia.
      assert (Hval : cond_Zopp (xorb (n <? 0) sg) (Zpos (N * m)) = n * cond_Zopp sg (Zpos m)).
      { rewrite Pos2Z.inj_mul, cond_Zopp_xorb, HN, cond_Zopp_abs. reflexivity. }
      change (0 + e) with e.
      rewrite <- Hval in Hin |- *.
      apply long_of_float_floor_canon; [lia|exact Hin].
Qed.

Lemma m5_frame_time_code_multiply_scalar_exact_witness :
  m5_frame_time_code_multiply_scalar (m5_frame_time_code_from_frames 42)
    (float_of_long (-1)) = Some (m5_frame_time_code_from_frames (-42)).
Proof.
  apply (m5_frame_time_code_multiply_scalar_exact
           (m5_frame_time_code_from_frames 42) (float_of_long (-1)) 42 (-42));
    reflexivity.
Defined.

(** The claim as stated fails.  The frame count [2^53 + 1] is the value of
    the time code [(1, 2^29, 1)]; it is rounded to [2^53] by the
    conversion to double, so multiplying by 1 loses a frame, whereas
    [floor((2^53 + 1) * 1)] is [2^53 + 1]. *)
Lemma m5_frame_time_code_multiply_scalar_inexact :
  let a := m5_frame_time_code_from_frames (2 ^ 53 + 1) in
  m5_frames_from_time_code a = Some (2 ^ 53 + 1) /\
  valid_binary float_prec float_emax float_one = true /\
  spec_multiply_scalar a float_one = Some a /\
  m5_frame_time_code_multiply_scalar a float_one
    = Some (m5_frame_time_code_from_frames (2 ^ 53)) /\
  m5_frame_time_code_multiply_scalar a float_one <> spec_multiply_scalar a float_one.
Proof.
  cbv zeta. repeat split; try (vm_compute; reflexivity).
  vm_compute. discriminate.
Qed.

(** No saturation either: a product beyond the [long] range reaches the
    cast [(long)] unchecked, which C leaves undefined, where the
    specification asks for the time code of [2^63 - 1]. *)
Lemma m5_frame_time_code_multiply_scalar_no_saturation :
  let a := m5_frame_time_code_from_frames (2 ^ 62) in
  m5_frames_from_time_code a = Some (2 ^ 62) /\
  spec_multiply_scalar a (float_of_long 4)
    = Some (m5_frame_time_code_from_frames LONG_MAX) /\
  m5_frame_time_code_multiply_scalar a (float_of_long 4) = None.
Proof.
  cbv zeta. repeat split; vm_compute; reflexivity.
Qed.

(** ** The time anchor *)

Lemma valid_binary64_finite (s : bool) (m : positive) (e : Z) :
  valid_binary double_prec double_emax (S754_finite s m e) = true ->
  Zpos (digits2_pos m) <= 53 /\ -1074 <= e <= 971.
Proof.
  cbn [valid_binary]. unfold bounded, canonical_mantissa, fexp, emin, double_prec, double_emax.
  intros H. apply andb_prop in H as [H1 H2].
  apply Z.eqb_eq in H1. apply Z.leb_le in H2. lia.
Qed.

Lemma in_ulong_true (z : Z) : 0 <= z <= ULONG_MAX -> in_ulong z = true.
Proof.
  unfold in_ulong. intros [H1 H2].
  apply andb_true_intro; split; apply Z.leb_le; assumption.
Qed.

(** [(unsigned long)ceil(x)] of a valid double whose ceiling is an
    [unsigned long]. *)
Lemma ulong_of_float_ceil (x : double) (z : Z) :
  valid_binary double_prec double_emax x = true ->
  SFceil x = Some z -> 0 <= z <= ULONG_MAX ->
  ulong_of_float (ceil x) = Some z.
Proof.
  intros Hv Hc Hz. destruct x as [s|s| |s m e]; cbn [SFceil] in Hc; try discriminate;
    injection Hc as Hc.
  - subst z. reflexivity.
  - apply valid_binary64_finite in Hv as [Hd He]. unfold ceil.
    destruct (Z.leb_spec 0 e) as [He0|He0].
    + unfold ulong_of_float. cbn [SFtrunc].
      assert (Heq : cond_Zopp s (Z.shiftl (Zpos m) e) = z).
      { rewrite <- Hc. rewrite !Z.shiftl_mul_pow2 by lia. destruct s; cbn [cond_Zopp negb]; lia. }
      rewrite Heq, in_ulong_true by exact Hz. reflexivity.
    + rewrite Hc.
      assert (Hb : Z.abs z <= 2 ^ 52).
      { rewrite <- Hc, Z.abs_opp. apply shiftl_neg_bound; try lia.
        pose proof (digits2_pos_bounds m) as [_ Hm].
        assert (2 ^ Zpos (digits2_pos m) <= 2 ^ 53) by (apply Z.pow_le_mono_r; lia).
        destruct s; cbn [cond_Zopp negb]; change (52 + 1) with 53; lia. }
      unfold integral_double, ulong_of_float. destruct z as [|p|p].
      * reflexivity.
      * rewrite SFtrunc_binary_normalize; unfold double_prec, double_emax; try lia.
        rewrite in_ulong_true by exact Hz. reflexivity.
      * lia.
Qed.




(** ** Messages to the playback object *)

(** C9.  A [start] message carrying a time code of negative frame count
    is rejected: the method reports one error and returns the object as
    it received it, whatever the state of the object. *)
Theorem m5_readsf_start_negative_rejected
    (pd : t_pd) (x : t_readsf) (argv : list t_atom)
    (ftc : t_m5FrameTimeCode) (ll : Z) :
  m5_frame_time_code_from_atoms argv = Some ftc ->
  m5_frames_from_time_code ftc = Some ll ->
  ll < 0 ->
  exists msg : string, m5_readsf_start pd x argv = Some (x, [E_pd_error msg]).
Proof.
  intros Hatoms Hframes Hneg. unfold m5_readsf_start.
  destruct (negb (state_eqb (x_state x) STATE_STARTUP)
            && negb (state_eqb (x_state x) STATE_STARTUP_2)).
  - eexists. reflexivity.
  - destruct argv as [|a argv']; [discriminate Hatoms|].
    rewrite Hatoms, Hframes. cbn [bind].
    destruct (Z.ltb_spec ll 0); [|lia].
    eexists. reflexivity.
Qed.

Lemma m5_readsf_start_negative_rejected_witness :
  exists msg : string,
    m5_readsf_start (pd_at 0) readsf_opened
      [A_FLOAT float_minus_one; A_FLOAT float_zero; A_FLOAT (float_of_long 5)]
    = Some (readsf_opened, [E_pd_error msg]).
Proof.
  apply (m5_readsf_start_negative_rejected (pd_at 0) readsf_opened _
           (mkFTC float_minus_one float_zero (float_of_long 5)) (-5));
    [reflexivity|reflexivity|lia].
Defined.

(** C10.  An [open] that is accepted (its flags name known types and it
    carries a file name) resets the schedule and the transfer state and
    leaves the loop length, the loop start and the anchor binding as
    earlier messages set them. *)
Theorem m5_readsf_open_resets
    (pd : t_pd) (x x' : t_readsf) (argv rest : list t_atom)
    (type : option string) (effs : list t_effect) :
  m5_readsf_open_flags (m5_sf_types pd) None argv = Some (type, rest) ->
  atom_getsymbolarg 0 rest <> EmptyString ->
  m5_readsf_open pd x argv = Some (x', effs) ->
  (x_m5PlayStartTime x' = START_NOW /\
   x_m5PlayEndTime x' = END_AT_LOOP /\
   x_fifohead x' = 0 /\ x_fifotail x' = 0 /\
   x_eof x' = 0 /\ x_fileerror x' = 0 /\
   x_m5HeadTimeRequest x' = S754_zero false /\
   x_m5TailTime x' = S754_zero false /\
   x_m5SoundFileFramesAvailableFromOnset x' = 0 /\
   x_state x' = STATE_STARTUP /\
   x_requestcode x' = REQUEST_OPEN) /\
  (x_m5LoopLength x' = x_m5LoopLength x /\
   x_m5LoopStart x' = x_m5LoopStart x /\
   x_m5TimeAnchorName x' = x_m5TimeAnchorName x /\
   x_m5TimeAnchor x' = x_m5TimeAnchor x).
Proof.
  intros Hflags Hname Hopen. unfold m5_readsf_open in Hopen.
  rewrite Hflags in Hopen.
  destruct (String.eqb_spec (atom_getsymbolarg 0 rest) EmptyString) as [E|_]; [contradiction|].
  destruct (sys_isabsolutepath pd (atom_getsymbolarg 0 rest));
  destruct (first_char_is "b" (atom_getsymbolarg 5 rest));
  destruct (first_char_is "l" (atom_getsymbolarg 5 rest));
  destruct (negb (atom_getsymbolarg 5 rest =? EmptyString)%string);
  destruct (ulong_of_float _) as [onset|]; cbn [bind] in Hopen; try discriminate;
  destruct (long_of_float _) as [hs|]; cbn [bind] in Hopen; try discriminate;
  destruct (int_of_float _) as [nch|]; cbn [bind] in Hopen; try discriminate;
  destruct (int_of_float _) as [bps|]; cbn [bind] in Hopen; try discriminate;
  destruct type as [t|];
  try (destruct (0 <=? sf_headersize _));
  injection Hopen as <- _; repeat split; reflexivity.
Qed.

Lemma m5_readsf_open_resets_witness :
  let x := set_x_m5LoopLength 48000 (set_x_m5LoopStart 200 readsf_opened) in
  let x' := fst (run_or (x, []) (m5_readsf_open (pd_at 0) x [A_SYMBOL "other.wav"])) in
  (x_m5PlayStartTime x' = START_NOW /\
   x_m5PlayEndTime x' = END_AT_LOOP /\
   x_fifohead x' = 0 /\ x_fifotail x' = 0 /\
   x_eof x' = 0 /\ x_fileerror x' = 0 /\
   x_m5HeadTimeRequest x' = S754_zero false /\
   x_m5TailTime x' = S754_zero false /\
   x_m5SoundFileFramesAvailableFromOnset x' = 0 /\
   x_state x' = STATE_STARTUP /\
   x_requestcode x' = REQUEST_OPEN) /\
  (x_m5LoopLength x' = 48000 /\
   x_m5LoopStart x' = 200 /\
   x_m5TimeAnchorName x' = None /\
   x_m5TimeAnchor x' = None).
Proof.
  intros x x'.
  apply (m5_readsf_open_resets (pd_at 0) x x' [A_SYMBOL "other.wav"]
           [A_SYMBOL "other.wav"] None [E_signal_request]).
  - reflexivity.
  - discriminate.
  - reflexivity.
Defined.

(** ** The refill period *)

Lemma wrap_int_id (z : Z) : INT_MIN <= z <= INT_MAX -> wrap_int z = z.
Proof.
  unfold INT_MIN, INT_MAX, wrap_int. intros H. rewrite Z.mod_small; lia.
Qed.

Lemma wrap_int_range (z : Z) : INT_MIN <= wrap_int z <= INT_MAX.
Proof.
  unfold wrap_int, INT_MIN, INT_MAX.
  pose proof (Z.mod_pos_bound (z + 2 ^ 31) (2 ^ 32) ltac:(lia)). lia.
Qed.

Lemma quot_int_range (a d : Z) :
  INT_MIN <= a <= INT_MAX -> 0 < d -> INT_MIN <= Z.quot a d <= INT_MAX.
Proof.
  intros Ha Hd. unfold INT_MIN, INT_MAX in *.
  destruct (Z.le_gt_cases 0 a).
  - rewrite Z.quot_div_nonneg by lia.
    pose proof (Z.div_pos a d ltac:(lia) Hd).
    assert (a / d <= a) by (apply Z.div_le_upper_bound; nia). lia.
  - rewrite <- (Z.opp_involutive a), Z.quot_opp_l by lia.
    rewrite Z.quot_div_nonneg by lia.
    pose proof (Z.div_pos (- a) d ltac:(lia) Hd).
    assert (- a / d <= - a) by (apply Z.div_le_upper_bound; nia). lia.
Qed.

(** The period armed by a division of the fifo size by sixteen blocks. *)
Lemma int_div_sixteen (fifosize bpf vecsize p : Z) (d : Z) :
  INT_MIN <= fifosize <= INT_MAX ->
  0 < bpf -> 0 < vecsize -> 16 * bpf * vecsize <= INT_MAX ->
  d = 16 * bpf * vecsize ->
  int_div fifosize d = Some p ->
  p = Z.quot fifosize (16 * bpf * vecsize).
Proof.
  intros Hf Hb Hv Hmax -> H. unfold int_div in H.
  destruct (16 * bpf * vecsize =? 0); [discriminate|]. injection H as <-.
  apply wrap_int_id. apply quot_int_range; [exact Hf|nia].
Qed.

Section SigPeriod.
Variables (bpf vecsize : Z).
Hypothesis Hbpf : 0 < bpf.
Hypothesis Hvec : 0 < vecsize.
Hypothesis Hmax : 16 * bpf * vecsize <= INT_MAX.

Lemma sixteen_blocks_l : wrap_int (wrap_int (16 * bpf) * vecsize) = 16 * bpf * vecsize.
Proof.
  unfold INT_MAX in Hmax.
  rewrite (wrap_int_id (16 * bpf)) by (unfold INT_MIN, INT_MAX; nia).
  apply wrap_int_id. unfold INT_MIN, INT_MAX. nia.
Qed.

Lemma sixteen_blocks_r : wrap_int (16 * wrap_int (bpf * vecsize)) = 16 * bpf * vecsize.
Proof.
  unfold INT_MAX in Hmax.
  rewrite (wrap_int_id (bpf * vecsize)) by (unfold INT_MIN, INT_MAX; nia).
  rewrite wrap_int_id; [lia|]. unfold INT_MIN, INT_MAX. nia.
Qed.

(** The playback worker, on OPEN. *)
Lemma m5_readsf_child_open_fifo_sigperiod (x x' : t_readsf) (sf : t_soundfile) :
  sf_bytesperframe sf = bpf -> x_vecsize x = vecsize ->
  m5_readsf_child_open_fifo x sf = Some x' ->
  x_sigperiod x' = spec_sigperiod x' /\ x_sigcountdown x' = x_sigperiod x'.
Proof.
  intros Hb Hv H. unfold m5_readsf_child_open_fifo in H.
  destruct (int_rem _ _) as [r|]; cbn [bind] in H; [|discriminate].
  destruct (int_div _ _) as [p|] eqn:Ep; cbn [bind] in H; [|discriminate].
  injection H as <-. unfold spec_sigperiod. cbn. split; [|reflexivity].
  cbn in Ep. rewrite Hb, Hv in *.
  eapply int_div_sixteen; [apply wrap_int_range|exact Hbpf|exact Hvec|exact Hmax| |exact Ep].
  apply sixteen_blocks_l.
Qed.

(** The capture object's dsp method. *)
Lemma m5_writesf_dsp_sigperiod (anchors anchors' : t_anchors) (x x' : t_writesf)
    (s_sr : t_float) (effs : list t_effect) :
  sf_bytesperframe (x_sf x) = bpf ->
  INT_MIN <= x_fifosize x <= INT_MAX ->
  m5_writesf_dsp anchors x vecsize s_sr = Some (x', anchors', effs) ->
  x_sigperiod x' = spec_sigperiod x'.
Proof.
  intros Hb Hf H. unfold m5_writesf_dsp in H.
  destruct (m5_writesf_time_set anchors x (x_m5TimeAnchorName x)) as [[x1 a1] e1] eqn:Ets.
  assert (Hx1 : x_sf x1 = x_sf x /\ x_fifosize x1 = x_fifosize x).
  { unfold m5_writesf_time_set in Ets.
    destruct (x_m5TimeAnchorName x) as [name|]; [|injection Ets as <- _ _; split; reflexivity].
    destruct (String.eqb name "self"); [injection Ets as <- _ _; split; reflexivity|].
    destruct (m5_time_anchor_find anchors name); injection Ets as <- _ _; split; reflexivity. }
  destruct Hx1 as [Hsf Hfs].
  destruct (int_div _ _) as [p|] eqn:Ep; cbn [bind] in H; [|discriminate].
  injection H as <- _ _. unfold spec_sigperiod. cbn.
  cbn in Ep. rewrite Hsf, Hfs, Hb in *.
  eapply int_div_sixteen; [exact Hf|exact Hbpf|exact Hvec|exact Hmax| |exact Ep].
  apply sixteen_blocks_l.
Qed.

(** The capture object's open method, when its arguments parse. *)
Lemma m5_writesf_open_sigperiod (pd : t_pd) (worker : t_writesf -> t_writesf)
    (x x' : t_writesf) (argv rest : list t_atom) (effs effs1 : list t_effect)
    (wa : t_soundfiler_writeargs) :
  m5_soundfiler_parsewriteargs pd argv = Some (Some (wa, rest, effs1)) ->
  wa_ascii wa = 0 ->
  m5_writesf_open pd worker x argv = Some (x', effs) ->
  sf_bytesperframe (x_sf x') = bpf -> x_vecsize x' = vecsize ->
  x_sigperiod x' = spec_sigperiod x' /\ x_sigcountdown x' = x_sigperiod x'.
Proof.
  intros Hparse Hascii H Hb Hv. unfold m5_writesf_open in H.
  destruct (if negb (state_eqb (x_state x) STATE_IDLE) then _ else _)
    as [[x0 effs0]|]; cbn [bind] in H; [|discriminate].
  rewrite Hparse in H. cbn [bind] in H. rewrite Hascii in H. cbn [Z.eqb negb] in H.
  destruct (negb (request_eqb (x_requestcode _) REQUEST_NOTHING)); [discriminate|].
  destruct (if 0 <? wa_samplerate wa then _ else _) as [sr|]; cbn [bind] in H;
    [|discriminate].
  destruct (int_rem _ _) as [r|]; cbn [bind] in H; [|discriminate].
  destruct (int_div _ _) as [p|] eqn:Ep; cbn [bind] in H; [|discriminate].
  injection H as <- _. cbn in Hb, Hv. unfold spec_sigperiod. cbn.
  split; [|reflexivity]. cbn in Ep. rewrite Hb, Hv in *.
  eapply int_div_sixteen; [apply wrap_int_range|exact Hbpf|exact Hvec|exact Hmax| |exact Ep].
  apply sixteen_blocks_r.
Qed.

End SigPeriod.

(** The playback object's dsp method divides by one block, not by
    sixteen. *)
Lemma m5_readsf_dsp_sigperiod (anchors anchors' : t_anchors) (x x' : t_readsf)
    (s_n : Z) (effs : list t_effect) :
  m5_readsf_dsp anchors x s_n = Some (x', anchors', effs) ->
  0 < sf_bytesperframe (x_sf x) -> 0 < s_n ->
  sf_bytesperframe (x_sf x) * s_n <= INT_MAX ->
  INT_MIN <= x_fifosize x <= INT_MAX ->
  x_sigperiod x' = Z.quot (x_fifosize x') (sf_bytesperframe (x_sf x') * x_vecsize x').
Proof.
  intros H Hb Hn Hmax Hf. unfold m5_readsf_dsp in H.
  destruct (m5_readsf_time_set anchors x (x_m5TimeAnchorName x)) as [[x1 a1] e1] eqn:Ets.
  assert (Hx1 : x_sf x1 = x_sf x /\ x_fifosize x1 = x_fifosize x).
  { unfold m5_readsf_time_set in Ets.
    destruct (x_m5TimeAnchorName x) as [name|]; [|injection Ets as <- _ _; split; reflexivity].
    destruct (String.eqb name "self"); [injection Ets as <- _ _; split; reflexivity|].
    destruct (m5_time_anchor_find anchors name); injection Ets as <- _ _; split; reflexivity. }
  destruct Hx1 as [Hsf Hfs].
  destruct (int_div _ _) as [p|] eqn:Ep; cbn [bind] in H; [|discriminate].
  injection H as <- _ _. cbn. cbn in Ep. rewrite Hsf, Hfs in *.
  unfold int_div in Ep. destruct (_ =? 0); [discriminate|]. injection Ep as <-.
  rewrite (wrap_int_id (sf_bytesperframe (x_sf x) * s_n)) by (unfold INT_MIN, INT_MAX in *; nia).
  apply wrap_int_id. apply quot_int_range; [exact Hf|nia].
Qed.

(** C7 fails at the playback object's dsp method.  With a fifo of 262144
    bytes, 2 bytes per frame and blocks of 64 frames, the method sets the
    period to 2048 blocks where sixteen signals per fifo ask for 128. *)
Theorem m5_readsf_dsp_sigperiod_not_sixteenth :
  let x' := set_x_sigperiod 2048 (set_x_vecsize 64 readsf_opened) in
  m5_readsf_dsp no_anchors readsf_opened 64 = Some (x', no_anchors, [E_dsp_add]) /\
  x_fifosize x' = 262144 /\ sf_bytesperframe (x_sf x') = 2 /\ x_vecsize x' = 64 /\
  x_sigperiod x' = 2048 /\
  spec_sigperiod x' = 128.
Proof.
  vm_compute. repeat split; reflexivity.
Qed.

(** ** Threshold start of the capture object *)

(** The scan of one channel returns the first frame that reaches the
    threshold. *)
Lemma m5_find_threshold_frames_none (fp : Z -> t_float) (thr : t_float) (n : nat) (j : Z) :
  (forall k, j <= k < j + Z.of_nat n -> reaches_threshold thr (fp k) = false) ->
  m5_find_threshold_frames fp thr n j = None.
Proof.
  revert j. induction n as [|n IH]; intros j H; cbn [m5_find_threshold_frames].
  - reflexivity.
  - rewrite (H j) by lia. apply IH. intros k Hk. apply H. lia.
Qed.

Lemma m5_find_threshold_frames_first (fp : Z -> t_float) (thr : t_float)
    (n : nat) (j t : Z) :
  j <= t < j + Z.of_nat n ->
  reaches_threshold thr (fp t) = true ->
  (forall k, j <= k < t -> reaches_threshold thr (fp k) = false) ->
  m5_find_threshold_frames fp thr n j = Some t.
Proof.
  revert j. induction n as [|n IH]; intros j Ht Hhit Hbefore;
    cbn [m5_find_threshold_frames].
  - lia.
  - destruct (Z.eq_dec j t) as [->|Hne].
    + rewrite Hhit. reflexivity.
    + rewrite (Hbefore j) by lia. apply IH; [lia|exact Hhit|].
      intros k Hk. apply Hbefore. lia.
Qed.

Lemma m5_find_threshold_frames_sound (fp : Z -> t_float) (thr : t_float)
    (n : nat) (j t : Z) :
  m5_find_threshold_frames fp thr n j = Some t ->
  j <= t < j + Z.of_nat n /\
  reaches_threshold thr (fp t) = true /\
  (forall k, j <= k < t -> reaches_threshold thr (fp k) = false).
Proof.
  revert j. induction n as [|n IH]; intros j H; cbn [m5_find_threshold_frames] in H.
  - discriminate.
  - destruct (reaches_threshold thr (fp j)) eqn:E.
    + injection H as <-. split; [lia|]. split; [exact E|]. intros k Hk. lia.
    + apply IH in H as (Hr & Hhit & Hbefore).
      split; [lia|]. split; [exact Hhit|].
      intros k Hk. destruct (Z.eq_dec k j) as [->|]; [exact E|apply Hbefore; lia].
Qed.

Lemma m5_find_threshold_frames_complete (fp : Z -> t_float) (thr : t_float)
    (n : nat) (j : Z) :
  m5_find_threshold_frames fp thr n j = None ->
  forall k, j <= k < j + Z.of_nat n -> reaches_threshold thr (fp k) = false.
Proof.
  revert j. induction n as [|n IH]; intros j H k Hk; cbn [m5_find_threshold_frames] in H.
  - lia.
  - destruct (reaches_threshold thr (fp j)) eqn:E; [discriminate|].
    destruct (Z.eq_dec k j) as [->|]; [exact E|]. apply (IH (j + 1)); [exact H|lia].
Qed.

(** The scan of the channels: either no sample of the block reaches the
    threshold and the result is NOT_FOUND, or it is the frame of the first
    sample to reach it in the order of the scan. *)
Lemma m5_find_threshold_channels_spec (nframes : Z) (vecs : t_vecs) (thr : t_float)
    (n : nat) (i0 : Z) :
  0 <= nframes ->
  ((forall i j, i0 <= i < i0 + Z.of_nat n -> 0 <= j < nframes ->
      reaches_threshold thr (vecs i j) = false) /\
   m5_find_threshold_channels nframes vecs thr n i0 = NOT_FOUND)
  \/
  (exists i t, i0 <= i < i0 + Z.of_nat n /\ 0 <= t < nframes /\
     reaches_threshold thr (vecs i t) = true /\
     (forall j, 0 <= j < t -> reaches_threshold thr (vecs i j) = false) /\
     (forall i' j, i0 <= i' < i -> 0 <= j < nframes ->
        reaches_threshold thr (vecs i' j) = false) /\
     m5_find_threshold_channels nframes vecs thr n i0 = t).
Proof.
  intros Hn. revert i0. induction n as [|n IH]; intros i0;
    cbn [m5_find_threshold_channels].
  - left. split; [intros; lia|reflexivity].
  - destruct (m5_find_threshold_frames (vecs i0) thr (Z.to_nat nframes) 0) as [t|] eqn:E.
    + apply m5_find_threshold_frames_sound in E as (Hr & Hhit & Hbefore).
      rewrite Z2Nat.id in Hr by lia.
      right. exists i0, t.
      split; [lia|]. split; [lia|]. split; [exact Hhit|].
      split; [intros j Hj; apply Hbefore; lia|].
      split; [intros i' j Hi'; lia|reflexivity].
    + pose proof (m5_find_threshold_frames_complete _ _ _ _ E) as Hnone.
      rewrite Z2Nat.id in Hnone by lia.
      destruct (IH (i0 + 1)) as [[Hall Hres]|(i & t & Hi & Ht & Hhit & Hbefore & Hprev & Hres)].
      * left. split; [|exact Hres]. intros i j Hi Hj.
        destruct (Z.eq_dec i i0) as [->|]; [apply Hnone; lia|apply Hall; lia].
      * right. exists i, t.
        split; [lia|]. split; [lia|]. split; [exact Hhit|].
        split; [exact Hbefore|]. split; [|exact Hres].
        intros i' j Hi' Hj.
        destruct (Z.eq_dec i' i0) as [->|]; [apply Hnone; lia|apply Hprev; lia].
Qed.

Lemma m5_find_threshold_spec (nchannels nframes : Z) (vecs : t_vecs) (thr : t_float) :
  0 <= nchannels -> 0 <= nframes ->
  ((forall i j, 0 <= i < nchannels -> 0 <= j < nframes ->
      reaches_threshold thr (vecs i j) = false) /\
   m5_find_threshold nchannels nframes vecs thr = NOT_FOUND)
  \/
  (exists i t, first_in_scan_order nchannels nframes thr vecs i t /\
     m5_find_threshold nchannels nframes vecs thr = t).
Proof.
  intros Hc Hn. unfold m5_find_threshold, first_in_scan_order.
  destruct (m5_find_threshold_channels_spec nframes vecs thr (Z.to_nat nchannels) 0 Hn)
    as [[Hall Hres]|(i & t & Hi & Ht & Hhit & Hbefore & Hprev & Hres)];
    rewrite Z2Nat.id in * by lia.
  - left. split; [|exact Hres]. intros i j Hi Hj. apply Hall; lia.
  - right. exists i, t.
    split; [|exact Hres].
    split; [lia|]. split; [lia|]. split; [exact Hhit|].
    split; [exact Hbefore|].
    intros i' j Hi' Hj. apply Hprev; lia.
Qed.

Lemma double_minus_one_eq : double_minus_one = S754_finite true 4503599627370496 (-52).
Proof. vm_compute. reflexivity. Qed.

Lemma SFeqb_threshold_not_now (a : double) :
  SFeqb a START_AT_THRESHOLD = true -> SFeqb a START_NOW = false.
Proof.
  unfold START_NOW. rewrite double_minus_one_eq.
  unfold START_AT_THRESHOLD, DBL_MAX, SFeqb, SFcompare.
  destruct a as [s|s| |s m e]; try discriminate.
  - destruct s; discriminate.
  - destruct s; [discriminate|]. intros _. reflexivity.
Qed.

(** What the capture block callback does when the start time is the
    START_AT_THRESHOLD sentinel: if some sample of the block reaches the
    threshold in absolute value, the start time becomes [blockStart + t],
    where [t] is the frame of the first such sample met by the scan,
    which goes channel by channel; if none does, the object is left as it
    was, the sentinel in place. *)
Lemma m5_writesf_perform_threshold_start
    (x : t_writesf) (blockStartTime : Z) (vecs : t_vecs) :
  SFeqb (x_m5PlayStartTime x) START_AT_THRESHOLD = true ->
  0 <= sf_nchannels (x_sf x) -> 0 <= x_vecsize x ->
  0 <= blockStartTime -> blockStartTime + x_vecsize x <= ULONG_MAX ->
  let nch := sf_nchannels (x_sf x) in
  let n := x_vecsize x in
  let thr := x_m5PlayStartThreshold x in
  (exists i t, first_in_scan_order nch n thr vecs i t /\
     m5_writesf_perform_start_time x blockStartTime vecs
     = set_x_m5PlayStartTime (double_of_long (blockStartTime + t)) x)
  \/
  ((forall i j, 0 <= i < nch -> 0 <= j < n -> reaches_threshold thr (vecs i j) = false) /\
   m5_writesf_perform_start_time x blockStartTime vecs = x).
Proof.
  intros Hthr Hc Hn Hb Hmax nch n thr.
  unfold m5_writesf_perform_start_time.
  rewrite (SFeqb_threshold_not_now _ Hthr), Hthr.
  fold nch n thr.
  destruct (m5_find_threshold_spec nch n vecs thr Hc Hn)
    as [[Hall Hres]|(i & t & Hfirst & Hres)].
  - right. split; [exact Hall|]. rewrite Hres. reflexivity.
  - left. exists i, t. split; [exact Hfirst|]. rewrite Hres.
    destruct Hfirst as (_ & Ht & _).
    assert (Hne : (t =? NOT_FOUND) = false) by (apply Z.eqb_neq; unfold NOT_FOUND; lia).
    rewrite Hne. cbn [negb].
    unfold wrap_ulong, ULONG_MAX in *.
    rewrite (Z.mod_small (blockStartTime + t)) by (subst n; lia).
    rewrite Z.sub_0_r, Z.mod_small by (subst n; lia). reflexivity.
Qed.

Lemma m5_writesf_perform_threshold_start_witness :
  (exists i t,
     first_in_scan_order 2 128 (S754_finite false 8388608 (-24)) (impulse 0 3 float_one) i t /\
     m5_writesf_perform_start_time writesf_armed 12800 (impulse 0 3 float_one)
     = set_x_m5PlayStartTime (double_of_long (12800 + t)) writesf_armed)
  \/
  ((forall i j, 0 <= i < 2 -> 0 <= j < 128 ->
      reaches_threshold (S754_finite false 8388608 (-24)) (impulse 0 3 float_one i j) = false) /\
   m5_writesf_perform_start_time writesf_armed 12800 (impulse 0 3 float_one) = writesf_armed).
Proof.
  apply (m5_writesf_perform_threshold_start writesf_armed 12800 (impulse 0 3 float_one)).
  - reflexivity.
  - vm_compute. discriminate.
  - vm_compute. discriminate.
  - lia.
  - vm_compute. discriminate.
Defined.

(** On the block of the witness the scan finds the impulse at frame 3. *)
Lemma m5_writesf_perform_threshold_impulse :
  m5_writesf_perform_start_time writesf_armed 12800 (impulse 0 3 float_one)
  = set_x_m5PlayStartTime (double_of_long 12803) writesf_armed.
Proof. vm_compute. reflexivity. Qed.

(** With one channel the scan and the specification agree: the frame
    found is the earliest frame of the block that reaches the
    threshold. *)
Lemma first_in_scan_order_one_channel (n : Z) (thr : t_float) (vecs : t_vecs) (i t : Z) :
  first_in_scan_order 1 n thr vecs i t ->
  i = 0 /\ reaches_threshold thr (vecs 0 t) = true /\
  forall j, 0 <= j < t -> reaches_threshold thr (vecs 0 j) = false.
Proof.
  intros (Hi & _ & Hhit & Hbefore & _).
  assert (i = 0) by lia. subst i. auto.
Qed.

Lemma spec_first_frame_one_channel (vecs : t_vecs) (thr : t_float) (n : nat) (t : Z) :
  spec_first_frame 1 vecs thr n t = m5_find_threshold_frames (vecs 0) thr n t.
Proof.
  revert t. induction n as [|n IH]; intros t;
    cbn [spec_first_frame m5_find_threshold_frames].
  - reflexivity.
  - change (Z.to_nat 1) with 1%nat. cbn [spec_frame_reaches].
    rewrite orb_false_r, IH. reflexivity.
Qed.

(** With a single input channel the capture block callback starts as
    specified: when the start time is the START_AT_THRESHOLD sentinel it
    becomes the block start plus the earliest frame of the block whose
    sample reaches the threshold, and it is left alone when no sample
    does. *)
Theorem m5_writesf_perform_threshold_one_channel
    (x : t_writesf) (blockStartTime : Z) (vecs : t_vecs) :
  SFeqb (x_m5PlayStartTime x) START_AT_THRESHOLD = true ->
  sf_nchannels (x_sf x) = 1 -> 0 <= x_vecsize x ->
  0 <= blockStartTime -> blockStartTime + x_vecsize x <= ULONG_MAX ->
  m5_writesf_perform_start_time x blockStartTime vecs
  = spec_threshold_start x blockStartTime vecs.
Proof.
  intros Hthr Hc Hn Hb Hmax.
  unfold m5_writesf_perform_start_time, spec_threshold_start.
  rewrite (SFeqb_threshold_not_now _ Hthr), Hthr, Hc.
  rewrite spec_first_frame_one_channel.
  unfold m5_find_threshold. change (Z.to_nat 1) with 1%nat.
  cbn [m5_find_threshold_channels].
  destruct (m5_find_threshold_frames (vecs 0) (x_m5PlayStartThreshold x)
              (Z.to_nat (x_vecsize x)) 0) as [t|] eqn:E.
  - apply m5_find_threshold_frames_sound in E as (Hr & _).
    rewrite Z2Nat.id in Hr by lia.
    assert (Hne : (t =? NOT_FOUND) = false) by (apply Z.eqb_neq; unfold NOT_FOUND; lia).
    rewrite Hne. cbn [negb].
    unfold wrap_ulong, ULONG_MAX in *.
    rewrite (Z.mod_small (blockStartTime + t)) by lia.
    rewrite Z.sub_0_r, Z.mod_small by lia. reflexivity.
  - reflexivity.
Qed.

Lemma m5_writesf_perform_threshold_one_channel_witness :
  let x0 := set_x_state STATE_STARTUP
              (run_or readsf_zeroed (m5_writesf_new float_one float_zero)) in
  let x := fst (run_or (x0, [])
                  (m5_writesf_start (pd_at 0) x0 [A_FLOAT (S754_finite false 8388608 (-24))])) in
  m5_writesf_perform_start_time x 12800 (impulse 0 3 float_one)
  = spec_threshold_start x 12800 (impulse 0 3 float_one).
Proof.
  intros x0 x.
  apply (m5_writesf_perform_threshold_one_channel x 12800 (impulse 0 3 float_one)).
  - vm_compute. reflexivity.
  - vm_compute. reflexivity.
  - vm_compute. discriminate.
  - lia.
  - vm_compute. discriminate.
Defined.

(** C8 fails on a block in which a later channel reaches the threshold
    first.  A two-channel recorder armed with [start 0.5] receives, in
    the block that starts at frame 12800, a sample of 1.0 at frame 5 of
    channel 0 and one at frame 2 of channel 1.  The first sample of the
    block to reach the threshold is at offset 2, and the claim sets the
    start time to 12802; the scan exhausts channel 0 before it looks at
    channel 1, answers 5, and the callback sets the start time to
    12805. *)
Theorem m5_writesf_perform_threshold_not_first :
  let thr := x_m5PlayStartThreshold writesf_armed in
  SFeqb (x_m5PlayStartTime writesf_armed) START_AT_THRESHOLD = true /\
  sf_nchannels (x_sf writesf_armed) = 2 /\ x_vecsize writesf_armed = 128 /\
  reaches_threshold thr (two_onsets 1 2) = true /\
  reaches_threshold thr (two_onsets 0 5) = true /\
  (forall i j, 0 <= i < 2 -> 0 <= j < 2 -> reaches_threshold thr (two_onsets i j) = false) /\
  spec_first_frame 2 two_onsets thr 128 0 = Some 2 /\
  m5_find_threshold 2 128 two_onsets thr = 5 /\
  m5_writesf_perform_start_time writesf_armed 12800 two_onsets
  = set_x_m5PlayStartTime (double_of_long 12805) writesf_armed /\
  spec_threshold_start writesf_armed 12800 two_onsets
  = set_x_m5PlayStartTime (double_of_long 12802) writesf_armed /\
  x_m5PlayStartTime (m5_writesf_perform_start_time writesf_armed 12800 two_onsets)
  <> x_m5PlayStartTime (spec_threshold_start writesf_armed 12800 two_onsets).
Proof.
  cbv zeta.
  do 5 (split; [vm_compute; reflexivity|]).
  split.
  { intros i j Hi Hj.
    assert (Hc : (i = 0 \/ i = 1) /\ (j = 0 \/ j = 1)) by lia.
    destruct Hc as [[-> | ->] [-> | ->]]; vm_compute; reflexivity. }
  do 4 (split; [vm_compute; reflexivity|]).
  vm_compute. discriminate.
Qed.

(** ** The playback worker: the place to read *)

Lemma wrap_ulong_id (z : Z) : 0 <= z <= ULONG_MAX -> wrap_ulong z = z.
Proof. unfold wrap_ulong, ULONG_MAX. intros H. apply Z.mod_small. lia. Qed.

Lemma wrap_ulong_nonneg (z : Z) : 0 <= wrap_ulong z <= ULONG_MAX.
Proof.
  unfold wrap_ulong, ULONG_MAX.
  pose proof (Z.mod_pos_bound z (2 ^ 64) ltac:(lia)). lia.
Qed.

Lemma fresh_seek_S_nonneg (x : t_readsf) (c : t_readsf_child) :
  0 <= m5_readsf_child_loop_start_bytes x c.
Proof. unfold m5_readsf_child_loop_start_bytes. apply wrap_ulong_nonneg. Qed.

(** A place to read within the loop or at its very end, once nudged. *)
Lemma m5_readsf_child_nudge_value (x : t_readsf) (c : t_readsf_child) (next : Z) :
  let init := m5_initial_offset c in
  let L := m5_readsf_child_loop_length_bytes x c in
  let S := m5_readsf_child_loop_start_bytes x c in
  0 < L -> 0 <= init -> L + init + S <= LONG_MAX ->
  init + S <= next <= init + S + L ->
  m5_readsf_child_nudge x c next = if next =? init + S + L then init + S else next.
Proof.
  intros init L S HL Hinit Hend Hn. pose proof (fresh_seek_S_nonneg x c) as HS.
  unfold m5_readsf_child_nudge. fold L S init. fold S in HS.
  unfold LONG_MAX in Hend.
  rewrite (wrap_ulong_id init) by (unfold ULONG_MAX; lia).
  rewrite (wrap_ulong_id (L + init)) by (unfold ULONG_MAX; lia).
  rewrite (wrap_ulong_id (L + init + S)) by (unfold ULONG_MAX; lia).
  rewrite (wrap_ulong_id next) by (unfold ULONG_MAX; lia).
  rewrite (wrap_ulong_id (init + S)) by (unfold ULONG_MAX; lia).
  rewrite (wrap_long_id (init + S)) by (unfold LONG_MIN, LONG_MAX; lia).
  replace (L + init + S) with (init + S + L) by lia. reflexivity.
Qed.

Section FreshSeek.
Variables (x : t_readsf) (c : t_readsf_child) (h st : Z).

Let bpf := sf_bytesperframe (child_sf c).
Let init := m5_initial_offset c.
Let L := m5_readsf_child_loop_length_bytes x c.
Let S := m5_readsf_child_loop_start_bytes x c.
Let byteTime := (h - st) * bpf.

Hypothesis Hhead : long_of_float (x_m5HeadTimeRequest x) = Some h.
Hypothesis Hstart :
  long_of_float (if SFltb (x_m5PlayStartTime x) (S754_zero false)
                 then S754_zero false else x_m5PlayStartTime x) = Some st.
Hypothesis Hbpf : 0 < bpf.
Hypothesis HL : 0 < L.
Hypothesis Hinit : 0 <= init.
Hypothesis Hend : L + init + S <= LONG_MAX.
Hypothesis Hbt : LONG_MIN < byteTime <= LONG_MAX.

Lemma fresh_seek_byte_time : wrap_long (wrap_long (h - st) * bpf) = byteTime.
Proof.
  unfold LONG_MIN, LONG_MAX in *. subst byteTime.
  assert (- 2 ^ 63 <= h - st <= 2 ^ 63 - 1) by nia.
  rewrite (wrap_long_id (h - st)) by (unfold LONG_MIN, LONG_MAX; lia).
  apply wrap_long_id. unfold LONG_MIN, LONG_MAX. lia.
Qed.

(** The place to read for a fresh buffer, as the two branches compute
    it. *)
Lemma m5_readsf_child_fresh_seek_value :
  m5_readsf_child_fresh_seek x c
  = Some (if 0 <=? byteTime then byteTime mod L + init + S
          else L - (- byteTime) mod L + init + S).
Proof.
  pose proof (fresh_seek_S_nonneg x c) as HS. fold S in HS.
  unfold m5_readsf_child_fresh_seek. rewrite Hhead, Hstart. cbn [bind].
  fold bpf. rewrite fresh_seek_byte_time. fold L S init.
  unfold LONG_MIN, LONG_MAX in *.
  destruct (Z.leb_spec 0 byteTime) as [Hpos|Hneg]; f_equal.
  - rewrite (wrap_ulong_id byteTime) by (unfold ULONG_MAX; lia).
    rewrite Z.rem_mod_nonneg by lia.
    pose proof (Z.mod_pos_bound byteTime L HL) as Hm.
    rewrite (wrap_ulong_id init) by (unfold ULONG_MAX; lia).
    rewrite (wrap_ulong_id (byteTime mod L + init)) by (unfold ULONG_MAX; lia).
    rewrite (wrap_ulong_id (byteTime mod L + init + S)) by (unfold ULONG_MAX; lia).
    apply wrap_long_id. unfold LONG_MIN, LONG_MAX. lia.
  - replace (-1 * byteTime) with (- byteTime) by lia.
    rewrite (wrap_long_id (- byteTime)) by (unfold LONG_MIN, LONG_MAX; lia).
    rewrite (wrap_ulong_id (- byteTime)) by (unfold ULONG_MAX; lia).
    rewrite Z.rem_mod_nonneg by lia.
    pose proof (Z.mod_pos_bound (- byteTime) L HL) as Hm.
    rewrite (wrap_ulong_id (L - (- byteTime) mod L)) by (unfold ULONG_MAX; lia).
    rewrite (wrap_ulong_id init) by (unfold ULONG_MAX; lia).
    rewrite (wrap_ulong_id (L - (- byteTime) mod L + init)) by (unfold ULONG_MAX; lia).
    rewrite (wrap_ulong_id (L - (- byteTime) mod L + init + S)) by (unfold ULONG_MAX; lia).
    apply wrap_long_id. unfold LONG_MIN, LONG_MAX. lia.
Qed.

Lemma fresh_seek_in_loop :
  (if (if 0 <=? byteTime then byteTime mod L + init + S
       else L - (- byteTime) mod L + init + S) =? init + S + L
   then init + S
   else (if 0 <=? byteTime then byteTime mod L + init + S
         else L - (- byteTime) mod L + init + S))
  = init + S + byteTime mod L.
Proof.
  pose proof (Z.mod_pos_bound byteTime L HL) as Hm.
  destruct (Z.leb_spec 0 byteTime) as [Hpos|Hneg].
  - destruct (Z.eqb_spec (byteTime mod L + init + S) (init + S + L)); lia.
  - pose proof (Z.mod_pos_bound (- byteTime) L HL) as Hm'.
    destruct (Z.eq_dec ((- byteTime) mod L) 0) as [Hz|Hnz].
    + rewrite Hz.
      assert (byteTime mod L = 0).
      { rewrite <- (Z.opp_involutive byteTime). apply Z.mod_opp_l_z; lia. }
      destruct (Z.eqb_spec (L - 0 + init + S) (init + S + L)); lia.
    + assert (byteTime mod L = L - (- byteTime) mod L).
      { rewrite <- (Z.opp_involutive byteTime) at 1. apply Z.mod_opp_l_nz; lia. }
      destruct (Z.eqb_spec (L - (- byteTime) mod L + init + S) (init + S + L)); lia.
Qed.

End FreshSeek.

(** C3.  When the fifo is fresh (head = tail = 0), with
    [byteTime = (headTimeRequest - max(0, startTime)) * bytesPerFrame],
    the place to read is [byteTime mod loopBytes + initialOffset +
    loopStartBytes] for [byteTime >= 0] and [loopBytes - (-byteTime) mod
    loopBytes + initialOffset + loopStartBytes] for [byteTime < 0]; a
    place equal to [initialOffset + loopStartBytes + loopBytes] is wrapped
    back to [initialOffset + loopStartBytes]; so the iteration reads at
    the in-loop position [initialOffset + loopStartBytes + byteTime mod
    loopBytes], also for a start time in the past. *)
Theorem m5_readsf_child_seek_fresh
    (EMPTY : Z) (x : t_readsf) (c : t_readsf_child) (h st : Z) :
  x_fifohead x = 0 -> x_fifotail x = 0 ->
  long_of_float (x_m5HeadTimeRequest x) = Some h ->
  long_of_float (if SFltb (x_m5PlayStartTime x) (S754_zero false)
                 then S754_zero false else x_m5PlayStartTime x) = Some st ->
  let bpf := sf_bytesperframe (child_sf c) in
  let init := m5_initial_offset c in
  let L := m5_readsf_child_loop_length_bytes x c in
  let S := m5_readsf_child_loop_start_bytes x c in
  let byteTime := (h - st) * bpf in
  0 < bpf -> 0 < L -> 0 <= init -> L + init + S <= LONG_MAX ->
  LONG_MIN < byteTime <= LONG_MAX ->
  m5_readsf_child_fresh_seek x c
    = Some (if 0 <=? byteTime then byteTime mod L + init + S
            else L - (- byteTime) mod L + init + S)
  /\ m5_readsf_child_nudge x c (init + S + L) = init + S
  /\ m5_readsf_child_seek EMPTY x c
     = Some (inr (mkChild (child_sf c) (m5_original_bytelimit c) (m5_seek_max c)
                    (m5_initial_offset c) (init + S + byteTime mod L),
                  L - byteTime mod L)).
Proof.
  cbv zeta. intros Hfh Hft Hh Hs Hbpf HL Hinit Hend Hbt.
  pose proof (m5_readsf_child_fresh_seek_value x c h st Hh Hs Hbpf HL Hinit Hend Hbt) as Hfresh.
  pose proof (fresh_seek_S_nonneg x c) as HS.
  pose proof (fresh_seek_in_loop x c h st HL) as Hin.
  pose proof (m5_readsf_child_nudge_value x c) as Hnudge. cbv zeta in Hnudge.
  set (bpf := sf_bytesperframe (child_sf c)) in *.
  set (init := m5_initial_offset c) in *.
  set (L := m5_readsf_child_loop_length_bytes x c) in *.
  set (S := m5_readsf_child_loop_start_bytes x c) in *.
  set (byteTime := (h - st) * bpf) in *.
  pose proof (Z.mod_pos_bound byteTime L HL) as Hm.
  pose proof (Z.mod_pos_bound (- byteTime) L HL) as Hm'.
  split; [exact Hfresh|]. split.
  - rewrite Hnudge by lia. rewrite Z.eqb_refl. reflexivity.
  - unfold m5_readsf_child_seek. fold L.
    destruct (Z.eqb_spec L 0) as [|_]; [lia|].
    rewrite Hfh, Hft. cbn [Z.eqb andb]. rewrite Hfresh. cbn [bind].
    rewrite Hnudge; try assumption.
    + rewrite Hin. do 3 f_equal.
      fold S init. unfold LONG_MAX in Hend.
      rewrite (wrap_ulong_id init) by (unfold ULONG_MAX; lia).
      rewrite (wrap_ulong_id (L + init)) by (unfold ULONG_MAX; lia).
      rewrite (wrap_ulong_id (L + init + S)) by (unfold ULONG_MAX; lia).
      rewrite (wrap_ulong_id (init + S + byteTime mod L)) by (unfold ULONG_MAX; lia).
      rewrite wrap_ulong_id by (unfold ULONG_MAX; lia). lia.
    + destruct (0 <=? byteTime); lia.
Qed.

Lemma m5_readsf_child_seek_fresh_witness :
  m5_readsf_child_fresh_seek readsf_late child_opened = Some 2044
  /\ m5_readsf_child_nudge readsf_late child_opened (44 + 0 + 4000) = 44
  /\ m5_readsf_child_seek (-1004) readsf_late child_opened
     = Some (inr (mkChild (child_sf child_opened) 4000 4044 44 2044, 2000)).
Proof.
  apply (m5_readsf_child_seek_fresh (-1004) readsf_late child_opened 10000 5000);
    try reflexivity; try (vm_compute; intuition discriminate).
Defined.

(** ** The end of the current loop in double precision *)

Lemma shl_align_fst (mx : positive) (ex ez : Z) :
  ez <= ex -> fst (shl_align mx ex ez) = pshl mx (ex - ez).
Proof.
  intros H. unfold shl_align.
  destruct (ez - ex) as [|d|d] eqn:E; cbn [fst]; try lia.
  - replace (ex - ez) with 0 by lia. reflexivity.
  - replace (ex - ez) with (Zpos d) by lia. reflexivity.
Qed.

(** An integer below [2^53], given with trailing zero digits, is converted exactly. *)
Lemma binary_normalize_scaled (z J : Z) :
  0 <= J -> Z.abs z < 2 ^ 53 ->
  binary_normalize double_prec double_emax (z * 2 ^ J) (- J) false = double_of_long z.
Proof.
  intros HJ Hz. destruct z as [|p|p].
  - reflexivity.
  - rewrite double_of_long_canon by lia. cbn [Z.abs Z.to_pos Z.ltb Z.compare].
    rewrite <- pshl_mul by lia. cbn [binary_normalize].
    pose proof (digits2_pos_le p 53 Hz).
    rewrite binary_round_canon; unfold double_prec, double_emax, normal_exp; try lia.
    f_equal. lia.
  - rewrite double_of_long_canon by lia. cbn [Z.abs Z.to_pos Z.ltb Z.compare].
    change (Z.neg p) with (- Z.pos p). rewrite Z.mul_opp_l, <- pshl_mul by lia.
    change (- Z.pos (pshl p J)) with (Z.neg (pshl p J)). cbn [binary_normalize].
    pose proof (digits2_pos_le p 53 Hz).
    rewrite binary_round_canon; unfold double_prec, double_emax, normal_exp; try lia.
    f_equal. lia.
Qed.

Lemma canon_aligned (P : positive) (ez : Z) :
  Zpos (digits2_pos P) <= 53 -> ez <= Zpos (digits2_pos P) - 53 ->
  Zpos (fst (shl_align (pshl P (53 - Zpos (digits2_pos P)))
                       (0 + Zpos (digits2_pos P) - 53) ez))
  = Zpos P * 2 ^ (- ez).
Proof.
  intros Hd He. rewrite shl_align_fst by lia. rewrite pshl_pshl by lia.
  rewrite pshl_mul by lia. f_equal. f_equal. lia.
Qed.

Lemma SFadd_canon_int (s1 s2 : bool) (P1 P2 : positive) :
  Zpos (digits2_pos P1) <= 53 -> Zpos (digits2_pos P2) <= 53 ->
  Z.abs (cond_Zopp s1 (Zpos P1) + cond_Zopp s2 (Zpos P2)) < 2 ^ 53 ->
  SFadd double_prec double_emax (SFcanon double_prec s1 P1 0) (SFcanon double_prec s2 P2 0)
  = double_of_long (cond_Zopp s1 (Zpos P1) + cond_Zopp s2 (Zpos P2)).
Proof.
  intros H1 H2 Hz. unfold SFcanon, double_prec. cbn [SFadd].
  set (ez := Z.min _ _).
  rewrite !canon_aligned by lia.
  rewrite !cond_Zopp_mul, <- Z.mul_add_distr_r.
  rewrite <- (Z.opp_involutive ez) at 2.
  apply binary_normalize_scaled; lia.
Qed.

Lemma SFsub_canon_int (s1 s2 : bool) (P1 P2 : positive) :
  Zpos (digits2_pos P1) <= 53 -> Zpos (digits2_pos P2) <= 53 ->
  Z.abs (cond_Zopp s1 (Zpos P1) - cond_Zopp s2 (Zpos P2)) < 2 ^ 53 ->
  SFsub double_prec double_emax (SFcanon double_prec s1 P1 0) (SFcanon double_prec s2 P2 0)
  = double_of_long (cond_Zopp s1 (Zpos P1) - cond_Zopp s2 (Zpos P2)).
Proof.
  intros H1 H2 Hz. unfold SFcanon, double_prec. cbn [SFsub].
  set (ez := Z.min _ _).
  rewrite !canon_aligned by lia.
  rewrite !cond_Zopp_mul, <- Z.mul_sub_distr_r.
  rewrite <- (Z.opp_involutive ez) at 2.
  apply binary_normalize_scaled; lia.
Qed.

Lemma to_pos_digits (n : Z) :
  n <> 0 -> Z.abs n < 2 ^ 53 -> Zpos (digits2_pos (Z.to_pos (Z.abs n))) <= 53.
Proof. intros Hn Hlt. apply digits2_pos_le. rewrite Z2Pos.id by lia. exact Hlt. Qed.

Lemma cond_Zopp_to_pos (n : Z) :
  n <> 0 -> cond_Zopp (n <? 0) (Zpos (Z.to_pos (Z.abs n))) = n.
Proof. intros Hn. rewrite Z2Pos.id by lia. apply cond_Zopp_abs. Qed.

(** Sums and differences of whole numbers below [2^53] are exact. *)
Lemma SFadd_double_of_long (a b : Z) :
  Z.abs a < 2 ^ 53 -> Z.abs b < 2 ^ 53 -> Z.abs (a + b) < 2 ^ 53 ->
  SFadd double_prec double_emax (double_of_long a) (double_of_long b) = double_of_long (a + b).
Proof.
  intros Ha Hb Hab.
  destruct (Z.eq_dec a 0) as [->|Na]; destruct (Z.eq_dec b 0) as [->|Nb].
  - reflexivity.
  - rewrite Z.add_0_l, (double_of_long_canon b) by lia. reflexivity.
  - rewrite Z.add_0_r, (double_of_long_canon a) by lia. reflexivity.
  - rewrite (double_of_long_canon a), (double_of_long_canon b) by lia.
    rewrite SFadd_canon_int; rewrite ?cond_Zopp_to_pos by lia; auto using to_pos_digits.
Qed.

Lemma SFsub_double_of_long (a b : Z) :
  0 <= a < 2 ^ 53 -> 0 <= b < 2 ^ 53 ->
  SFsub double_prec double_emax (double_of_long a) (double_of_long b) = double_of_long (a - b).
Proof.
  intros Ha Hb.
  destruct (Z.eq_dec a 0) as [->|Na]; destruct (Z.eq_dec b 0) as [->|Nb].
  - reflexivity.
  - rewrite Z.sub_0_l, (double_of_long_canon b), (double_of_long_canon (- b)) by lia.
    replace (Z.abs (- b)) with (Z.abs b) by lia.
    destruct (Z.ltb_spec b 0); [lia|]. destruct (Z.ltb_spec (- b) 0); [|lia]. reflexivity.
  - rewrite Z.sub_0_r, (double_of_long_canon a) by lia. reflexivity.
  - rewrite (double_of_long_canon a), (double_of_long_canon b) by lia.
    assert (Z.abs a < 2 ^ 53) by lia. assert (Z.abs b < 2 ^ 53) by lia.
    rewrite SFsub_canon_int; rewrite ?cond_Zopp_to_pos by lia; auto using to_pos_digits; lia.
Qed.

Lemma SFmul_double_of_long (a b : Z) :
  0 < a -> 0 < b -> a * b < 2 ^ 53 ->
  SFmul double_prec double_emax (double_of_long a) (double_of_long b) = double_of_long (a * b).
Proof.
  intros Ha Hb Hab.
  assert (a < 2 ^ 53 /\ b < 2 ^ 53) as [Ha' Hb'] by (gen_pow; nia).
  rewrite (double_of_long_canon a), (double_of_long_canon b), (double_of_long_canon (a * b)) by nia.
  destruct (Z.ltb_spec a 0); [lia|]. destruct (Z.ltb_spec b 0); [lia|].
  destruct (Z.ltb_spec (a * b) 0); [nia|].
  assert (Hp : (Z.to_pos (Z.abs a) * Z.to_pos (Z.abs b))%positive = Z.to_pos (Z.abs (a * b))).
  { rewrite Z.abs_mul, Z2Pos.inj_mul by lia. reflexivity. }
  assert (Hd : Zpos (digits2_pos (Z.to_pos (Z.abs (a * b)))) <= 53) by (apply to_pos_digits; nia).
  rewrite SFmul_canon; unfold double_prec, double_emax, normal_exp; rewrite ?Hp;
    auto using to_pos_digits; try (apply to_pos_digits; lia); try lia.
Qed.

Lemma canon_compare (A B : positive) :
  Zpos (digits2_pos A) <= 53 -> Zpos (digits2_pos B) <= 53 ->
  match Z.compare (0 + Zpos (digits2_pos A) - 53) (0 + Zpos (digits2_pos B) - 53) with
  | Lt => Lt
  | Gt => Gt
  | Eq => Pos.compare_cont Eq (pshl A (53 - Zpos (digits2_pos A)))
                             (pshl B (53 - Zpos (digits2_pos B)))
  end = (Zpos A ?= Zpos B).
Proof.
  intros HA HB.
  pose proof (digits2_pos_bounds A) as [Alo Ahi].
  pose proof (digits2_pos_bounds B) as [Blo Bhi].
  set (dA := Zpos (digits2_pos A)) in *. set (dB := Zpos (digits2_pos B)) in *.
  destruct (Z.compare_spec (0 + dA - 53) (0 + dB - 53)) as [E|L|G].
  - change (Pos.compare_cont Eq ?x ?y) with (Zpos x ?= Zpos y).
    rewrite !pshl_mul by lia. replace dB with dA by lia.
    assert (0 < 2 ^ (53 - dA)) by (apply Z.pow_pos_nonneg; lia).
    destruct (Z.compare_spec (Zpos A) (Zpos B));
      [apply Z.compare_eq_iff|apply Z.compare_lt_iff|apply Z.compare_gt_iff]; gen_pow; nia.
  - symmetry. apply Z.compare_lt_iff.
    assert (2 ^ dA <= 2 ^ (dB - 1)) by (apply Z.pow_le_mono_r; lia). lia.
  - symmetry. apply Z.compare_gt_iff.
    assert (2 ^ dB <= 2 ^ (dA - 1)) by (apply Z.pow_le_mono_r; lia). lia.
Qed.

(** Whole numbers below [2^53] compare as doubles the way they compare as integers. *)
Lemma SFcompare_double_of_long (a b : Z) :
  0 <= a < 2 ^ 53 -> 0 <= b < 2 ^ 53 ->
  SFcompare (double_of_long a) (double_of_long b) = Some (a ?= b).
Proof.
  intros Ha Hb.
  destruct (Z.eq_dec a 0) as [->|Na]; destruct (Z.eq_dec b 0) as [->|Nb].
  - reflexivity.
  - rewrite (double_of_long_canon b) by lia. destruct (Z.ltb_spec b 0); [lia|].
    change (double_of_long 0) with (S754_zero false).
    unfold SFcanon. cbn [SFcompare]. f_equal. symmetry. apply Z.compare_lt_iff. lia.
  - rewrite (double_of_long_canon a) by lia. destruct (Z.ltb_spec a 0); [lia|].
    change (double_of_long 0) with (S754_zero false).
    unfold SFcanon. cbn [SFcompare]. f_equal. symmetry. apply Z.compare_gt_iff. lia.
  - rewrite (double_of_long_canon a), (double_of_long_canon b) by lia.
    destruct (Z.ltb_spec a 0); [lia|]. destruct (Z.ltb_spec b 0); [lia|].
    unfold SFcanon, double_prec. cbn [SFcompare]. f_equal.
    rewrite canon_compare by (apply to_pos_digits; lia).
    rewrite !Z2Pos.id by lia. f_equal; lia.
Qed.

Lemma SFleb_double_of_long (a b : Z) :
  0 <= a < 2 ^ 53 -> 0 <= b < 2 ^ 53 ->
  SFleb (double_of_long a) (double_of_long b) = (a <=? b).
Proof.
  intros Ha Hb. unfold SFleb. rewrite SFcompare_double_of_long by assumption.
  unfold Z.leb. destruct (a ?= b); reflexivity.
Qed.

Lemma int_of_float_of_long (k : Z) :
  INT_MIN <= k <= INT_MAX -> int_of_float (double_of_long k) = Some k.
Proof.
  intros Hk. unfold int_of_float, double_of_long.
  rewrite SFtrunc_binary_normalize; unfold double_prec, double_emax; try lia.
  - unfold in_int.
    destruct (Z.leb_spec INT_MIN k); [|lia].
    destruct (Z.leb_spec k INT_MAX); [reflexivity|lia].
  - unfold INT_MIN, INT_MAX in Hk. lia.
Qed.

(** *** Rounding a quotient *)

Section RoundingNear.
Variables prec emax : Z.
Hypothesis Hprec : 0 < prec.
Hypothesis Hemax : prec < emax.

(** The last step of rounding: a carry into a new digit drops one zero. *)
Lemma round_finish (s : bool) (M1 : positive) (e : Z) :
  2 ^ (prec - 1) <= Zpos M1 <= 2 ^ prec ->
  3 - emax - prec <= e -> e + 1 <= emax - prec ->
  exists M E,
    (let '(mrs, e') := shr_fexp prec emax (Zpos M1) e loc_Exact in
     match shr_m mrs with
     | Z0 => S754_zero s
     | Zpos m => if e' <=? emax - prec then S754_finite s m e' else S754_infinity s
     | _ => S754_nan
     end) = S754_finite s M E
    /\ Zpos (digits2_pos M) = prec
    /\ e <= E <= e + 1
    /\ Zpos M * 2 ^ (E - e) = Zpos M1.
Proof.
  intros [Hlo Hhi] He1 He2.
  assert (H2 : 2 ^ prec = 2 * 2 ^ (prec - 1)).
  { replace prec with (Z.succ (prec - 1)) at 1 by lia. apply Z.pow_succ_r. lia. }
  destruct (Z.eq_dec (Zpos M1) (2 ^ prec)) as [Heq|Hne].
  - assert (Hd : Zpos (digits2_pos M1) = prec + 1).
    { apply digits2_pos_unique. replace (prec + 1 - 1) with prec by lia.
      replace (prec + 1) with (Z.succ prec) by lia. rewrite Z.pow_succ_r by lia.
      assert (0 < 2 ^ prec) by (apply Z.pow_pos_nonneg; lia). lia. }
    unfold shr_fexp. cbn [Zdigits2]. rewrite Hd, fexp_normal by lia.
    replace (prec + 1 + e - prec - e) with 1 by lia.
    destruct M1 as [p|p|].
    + exfalso. rewrite Pos2Z.inj_xI in Heq. lia.
    + exists p, (e + 1). cbn [shr shr_record_of_loc iter_pos shr_1 shr_m orb].
      destruct (Z.leb_spec (e + 1) (emax - prec)); [|lia].
      assert (Hp : Zpos p = 2 ^ (prec - 1)) by (rewrite Pos2Z.inj_xO in Heq; lia).
      split; [reflexivity|]. split.
      * apply digits2_pos_unique. rewrite Hp.
        assert (0 < 2 ^ (prec - 1)) by (apply Z.pow_pos_nonneg; lia). lia.
      * split; [lia|]. replace (e + 1 - e) with 1 by lia.
        rewrite Pos2Z.inj_xO. lia.
    + exfalso. assert (0 < 2 ^ (prec - 1)) by (apply Z.pow_pos_nonneg; lia). lia.
  - assert (Hd : Zpos (digits2_pos M1) = prec) by (apply digits2_pos_unique; lia).
    unfold shr_fexp. cbn [Zdigits2]. rewrite Hd, fexp_normal by lia.
    replace (prec + e - prec - e) with 0 by lia.
    exists M1, e. cbn [shr shr_record_of_loc shr_m].
    destruct (Z.leb_spec e (emax - prec)); [|lia].
    split; [reflexivity|]. split; [exact Hd|]. split; [lia|].
    rewrite Z.sub_diag. lia.
Qed.

(** Rounding to nearest a mantissa of [prec] or [prec + 1] digits, with
    any information on the digits that follow, moves it by less than two
    units of its last place. *)
Lemma binary_round_aux_near (s : bool) (q : positive) (e : Z) (l : location) :
  2 ^ (prec - 1) <= Zpos q < 2 ^ (prec + 1) ->
  3 - emax - prec <= e -> e + 2 <= emax - prec ->
  exists M E,
    binary_round_aux prec emax s (Zpos q) e l = S754_finite s M E
    /\ Zpos (digits2_pos M) = prec
    /\ e <= E <= e + 2
    /\ (Zpos M * 2 ^ (E - e) = Zpos q
        \/ Zpos M * 2 ^ (E - e) = Zpos q + 1
        \/ (Zpos M * 2 ^ (E - e) = Zpos q - 1 /\ Z.odd (Zpos q) = true)).
Proof.
  intros [Hlo Hhi] He1 He2.
  assert (H2 : 2 ^ prec = 2 * 2 ^ (prec - 1)).
  { replace prec with (Z.succ (prec - 1)) at 1 by lia. apply Z.pow_succ_r. lia. }
  assert (H3 : 2 ^ (prec + 1) = 2 * 2 ^ prec).
  { replace (prec + 1) with (Z.succ prec) by lia. apply Z.pow_succ_r. lia. }
  assert (Hpos : 0 < 2 ^ (prec - 1)) by (apply Z.pow_pos_nonneg; lia).
  unfold binary_round_aux.
  destruct (Z.lt_ge_cases (Zpos q) (2 ^ prec)) as [Hlt|Hge].
  - (* [prec] digits: nothing is dropped before rounding *)
    assert (Hd : Zpos (digits2_pos q) = prec) by (apply digits2_pos_unique; lia).
    unfold shr_fexp at 1. cbn [Zdigits2]. rewrite Hd, fexp_normal by lia.
    replace (prec + e - prec - e) with 0 by lia. cbn [shr].
    assert (Hcase : exists M1 : positive,
               round_nearest_even (shr_m (shr_record_of_loc (Zpos q) l))
                 (loc_of_shr_record (shr_record_of_loc (Zpos q) l)) = Zpos M1
               /\ (Zpos M1 = Zpos q \/ Zpos M1 = Zpos q + 1)).
    { destruct l as [|[| |]]; cbn [shr_record_of_loc shr_m loc_of_shr_record round_nearest_even].
      - exists q. auto.
      - destruct (Z.even (Zpos q)); [exists q; auto|exists (q + 1)%positive; split; [reflexivity|right; lia]].
      - exists q. auto.
      - exists (q + 1)%positive. split; [reflexivity|right; lia]. }
    destruct Hcase as (M1 & -> & HM1).
    destruct (round_finish s M1 e) as (M & E & Heq & HdM & HE & HV); try lia.
    exists M, E. split; [exact Heq|]. split; [exact HdM|]. split; [lia|].
    rewrite HV. destruct HM1; auto.
  - (* [prec + 1] digits: the last one is dropped *)
    assert (Hd : Zpos (digits2_pos q) = prec + 1).
    { apply digits2_pos_unique. replace (prec + 1 - 1) with prec by lia. lia. }
    unfold shr_fexp at 1. cbn [Zdigits2]. rewrite Hd, fexp_normal by lia.
    replace (prec + 1 + e - prec - e) with 1 by lia. cbn [shr iter_pos].
    assert (Hcase : exists M1 : positive,
               round_nearest_even (shr_m (shr_1 (shr_record_of_loc (Zpos q) l)))
                 (loc_of_shr_record (shr_1 (shr_record_of_loc (Zpos q) l))) = Zpos M1
               /\ (2 * Zpos M1 = Zpos q
                   \/ 2 * Zpos M1 = Zpos q + 1
                   \/ (2 * Zpos M1 = Zpos q - 1 /\ Z.odd (Zpos q) = true))).
    { destruct q as [p|p|].
      - destruct l as [|[| |]];
          cbn [shr_record_of_loc shr_1 orb shr_m loc_of_shr_record round_nearest_even].
        + destruct (Z.even (Zpos p)).
          * exists p. split; [reflexivity|]. right. right. split; [lia|reflexivity].
          * exists (p + 1)%positive. split; [reflexivity|]. right. left. lia.
        + exists (p + 1)%positive. split; [reflexivity|]. right. left. lia.
        + exists (p + 1)%positive. split; [reflexivity|]. right. left. lia.
        + exists (p + 1)%positive. split; [reflexivity|]. right. left. lia.
      - destruct l as [|[| |]];
          cbn [shr_record_of_loc shr_1 orb shr_m loc_of_shr_record round_nearest_even];
          exists p; (split; [reflexivity|left; lia]).
      - exfalso. lia. }
    destruct Hcase as (M1 & -> & HM1).
    destruct (round_finish s M1 (e + 1)) as (M & E & Heq & HdM & HE & HV); try lia.
    exists M, E. split; [exact Heq|]. split; [exact HdM|]. split; [lia|].
    replace (E - e) with (Z.succ (E - (e + 1))) by lia.
    rewrite Z.pow_succ_r by lia.
    replace (Zpos M * (2 * 2 ^ (E - (e + 1)))) with (2 * (Zpos M * 2 ^ (E - (e + 1)))) by ring.
    rewrite HV. exact HM1.
Qed.

End RoundingNear.

(** *** The whole part of a quotient *)

Lemma div_succ_no_cross (q t : Z) : 0 < t -> (q + 1) mod t <> 0 -> (q + 1) / t = q / t.
Proof.
  intros Ht Hm.
  pose proof (Z.div_mod q t ltac:(lia)) as Hq.
  pose proof (Z.mod_pos_bound q t Ht) as Hr.
  destruct (Z.eq_dec (q mod t) (t - 1)) as [Heq|Hne].
  - exfalso. apply Hm. replace (q + 1) with ((q / t + 1) * t) by lia.
    apply Z.mod_mul. lia.
  - symmetry. apply (Z.div_unique (q + 1) t (q / t) (q mod t + 1)); lia.
Qed.

Lemma div_pred_odd (q K : Z) :
  1 <= K -> Z.odd q = true -> (q - 1) / 2 ^ K = q / 2 ^ K.
Proof.
  intros HK Hodd.
  replace K with (Z.succ (K - 1)) by lia. rewrite Z.pow_succ_r by lia.
  assert (0 < 2 ^ (K - 1)) by (apply Z.pow_pos_nonneg; lia).
  rewrite <- !Z.div_div by lia. f_equal.
  rewrite (Zodd_div2 q) at 1 by (apply Zodd_bool_iff; exact Hodd).
  rewrite Z.div2_div.
  replace (2 * (q / 2) + 1 - 1) with (q / 2 * 2) by lia.
  apply Z.div_mul. lia.
Qed.

Lemma integral_double_false (z : Z) : integral_double false z = double_of_long z.
Proof. destruct z; reflexivity. Qed.

(** The whole part of the quotient of two whole numbers below [2^53],
    computed in double precision, is their integer quotient: rounding
    the quotient never reaches the next whole number. *)
Lemma floor_SFdiv_canon (A B : positive) :
  Zpos A < 2 ^ 53 -> Zpos B < 2 ^ 53 ->
  floor (SFdiv double_prec double_emax
           (SFcanon double_prec false A 0) (SFcanon double_prec false B 0))
  = double_of_long (Zpos A / Zpos B).
Proof.
  intros HA HB.
  pose proof (digits2_pos_le A 53 HA) as HdA.
  pose proof (digits2_pos_le B 53 HB) as HdB.
  pose proof (digits2_pos_bounds A) as [Alo Ahi].
  pose proof (digits2_pos_bounds B) as [Blo Bhi].
  unfold SFcanon, double_prec, double_emax. cbn [SFdiv].
  set (dA := Zpos (digits2_pos A)) in *. set (dB := Zpos (digits2_pos B)) in *.
  assert (HdA1 : 1 <= dA) by (unfold dA; lia).
  assert (HdB1 : 1 <= dB) by (unfold dB; lia).
  set (m1 := pshl A (53 - dA)). set (m2 := pshl B (53 - dB)).
  assert (Hm1 : Zpos m1 = Zpos A * 2 ^ (53 - dA)) by (apply pshl_mul; lia).
  assert (Hm2 : Zpos m2 = Zpos B * 2 ^ (53 - dB)) by (apply pshl_mul; lia).
  assert (Hd1 : Zpos (digits2_pos m1) = 53) by (unfold m1; rewrite digits2_pos_pshl by lia; fold dA; lia).
  assert (Hd2 : Zpos (digits2_pos m2) = 53) by (unfold m2; rewrite digits2_pos_pshl by lia; fold dB; lia).
  pose proof (digits2_pos_bounds m1) as [M1lo M1hi]. rewrite Hd1 in M1lo, M1hi.
  pose proof (digits2_pos_bounds m2) as [M2lo M2hi]. rewrite Hd2 in M2lo, M2hi.
  change (2 ^ (53 - 1)) with (2 ^ 52) in M1lo, M2lo.
  set (K := 53 + dB - dA).
  set (Q := Zpos m1 * 2 ^ 53).
  assert (Hcore : SFdiv_core_binary 53 1024 (Zpos m1) (0 + dA - 53) (Zpos m2) (0 + dB - 53)
                  = (Q / Zpos m2, - K, new_location (Zpos m2) (Q mod Zpos m2))).
  { unfold SFdiv_core_binary. cbv zeta. cbn [Zdigits2]. rewrite Hd1, Hd2.
    rewrite fexp_normal by lia.
    replace (Z.min (53 + (0 + dA - 53) - (53 + (0 + dB - 53)) - 53)
                   (0 + dA - 53 - (0 + dB - 53))) with (- K) by (unfold K; lia).
    replace (0 + dA - 53 - (0 + dB - 53) - - K) with 53 by (unfold K; lia).
    cbv iota beta. rewrite Z.shiftl_mul_pow2 by lia. fold Q.
    unfold Z.div, Z.modulo. destruct (Z.div_eucl Q (Zpos m2)). reflexivity. }
  rewrite Hcore. clear Hcore.
  (* the quotient of the mantissas *)
  assert (HQ : Q = Zpos A * 2 ^ (106 - dA)).
  { unfold Q. rewrite Hm1. replace (106 - dA) with ((53 - dA) + 53) by lia.
    rewrite Z.pow_add_r by lia. ring. }
  assert (HBK : Zpos m2 * 2 ^ K = Zpos B * 2 ^ (106 - dA)).
  { rewrite Hm2. replace (106 - dA) with ((53 - dB) + K) by (unfold K; lia).
    rewrite Z.pow_add_r by (unfold K; lia). ring. }
  assert (HC : 2 ^ 53 <= 2 ^ (106 - dA)) by (apply Z.pow_le_mono_r; lia).
  assert (HK : 0 < 2 ^ K) by (apply Z.pow_pos_nonneg; unfold K; lia).
  pose proof (Z.div_mod Q (Zpos m2) ltac:(lia)) as Hdm.
  pose proof (Z.mod_pos_bound Q (Zpos m2) ltac:(lia)) as Hr.
  set (q := Q / Zpos m2) in *. set (r := Q mod Zpos m2) in *.
  assert (Hquot : q / 2 ^ K = Zpos A / Zpos B).
  { unfold q. rewrite Z.div_div by lia. rewrite HBK, HQ.
    apply Z.div_mul_cancel_r; lia. }
  assert (Hcross : (q + 1) mod 2 ^ K <> 0).
  { intros Hz. apply Z.mod_divide in Hz; [|lia]. destruct Hz as [N HN].
    assert (E1 : (q + 1) * Zpos m2 = N * (Zpos B * 2 ^ (106 - dA))).
    { rewrite <- HBK, HN. ring. }
    assert (E2 : 2 ^ (106 - dA) * (N * Zpos B - Zpos A) = Zpos m2 - r).
    { rewrite HQ in Hdm. gen_pow. lia. }
    set (C := 2 ^ (106 - dA)) in *. set (D := N * Zpos B - Zpos A) in *.
    assert (0 < C * D) by lia.
    assert (0 < D) by (apply (Z.mul_pos_cancel_l C D); lia).
    assert (C * 1 <= C * D) by (apply Z.mul_le_mono_nonneg_l; lia).
    lia. }
  assert (Hqlo : 2 ^ 52 <= q).
  { unfold q. apply Z.div_le_lower_bound; [lia|]. unfold Q. clear - M1lo M2hi.
    change (2 ^ 52) with 4503599627370496 in *. change (2 ^ 53) with 9007199254740992 in *. lia. }
  assert (Hqhi : q < 2 ^ 54).
  { unfold q. apply Z.div_lt_upper_bound; [lia|]. unfold Q. clear - M1hi M2lo.
    change (2 ^ 52) with 4503599627370496 in *. change (2 ^ 53) with 9007199254740992 in *.
    change (2 ^ 54) with 18014398509481984. lia. }
  destruct q as [|qp|qp] eqn:Eq; try lia.
  destruct (binary_round_aux_near 53 1024 ltac:(lia) (xorb false false) qp (- K)
              (new_location (Zpos m2) r)) as (M & E & Heq & HdM & HE & HV);
    try (unfold K; lia).
  rewrite Heq. cbn [xorb].
  (* the value of the result, as a multiple of [2^-K] *)
  set (V := Zpos M * 2 ^ (E - - K)) in *.
  assert (HVq : V / 2 ^ K = Zpos A / Zpos B).
  { rewrite <- Hquot. destruct HV as [->|[->|[-> Hodd]]].
    - reflexivity.
    - apply div_succ_no_cross; assumption.
    - apply div_pred_odd; [unfold K; lia|exact Hodd]. }
  assert (Hsh : Z.shiftl (Zpos M) E = Zpos A / Zpos B).
  { rewrite <- HVq. unfold V.
    rewrite <- (shiftl_mul_pow2_sub (Zpos M) (E - - K) E) by lia.
    replace (E - (E - - K)) with (- K) by lia.
    rewrite Z.shiftl_div_pow2 by (unfold K; lia).
    rewrite Z.opp_involutive. reflexivity. }
  unfold floor. destruct (Z.leb_spec 0 E) as [HE0|HE0].
  - rewrite <- Hsh. rewrite Z.shiftl_mul_pow2 by lia.
    rewrite <- pshl_mul by lia. unfold double_of_long. cbn [binary_normalize].
    rewrite binary_round_canon; unfold double_prec, double_emax, normal_exp; try lia.
    unfold SFcanon. rewrite HdM. cbn [pshl Z.sub Z.opp Z.add Z.pos_sub].
    replace (53 - 53) with 0 by lia. cbn [pshl]. f_equal. lia.
  - cbn [cond_Zopp]. rewrite Hsh. apply integral_double_false.
Qed.

Lemma floor_SFdiv_double_of_long (a b : Z) :
  0 <= a < 2 ^ 53 -> 0 < b < 2 ^ 53 ->
  floor (SFdiv double_prec double_emax (double_of_long a) (double_of_long b))
  = double_of_long (a / b).
Proof.
  intros Ha Hb. rewrite (double_of_long_canon b) by lia.
  destruct (Z.ltb_spec b 0); [lia|].
  destruct (Z.eq_dec a 0) as [->|Na].
  - reflexivity.
  - rewrite (double_of_long_canon a) by lia. destruct (Z.ltb_spec a 0); [lia|].
    rewrite floor_SFdiv_canon by (rewrite Z2Pos.id; lia).
    rewrite !Z2Pos.id by lia. f_equal. f_equal; lia.
Qed.

(** *** The end of the current loop *)

Lemma SFeqb_END_AT_LOOP : SFeqb END_AT_LOOP END_AT_LOOP = true.
Proof. vm_compute. reflexivity. Qed.

(** C4: in the playback block callback, an end time that is the sentinel
    [END_AT_LOOP] is resolved to [startTime + k * Lframes], where
    [Lframes] is the explicit loop length, or the frames available in the
    file when the loop length is [LOOP_SELF], and
    [k = floor ((blockStart - startTime) / Lframes) + 1], at least 1.
    Times and lengths are whole numbers of frames below [2^53], which
    doubles hold exactly. *)
Theorem m5_readsf_perform_end_time_spec (x : t_readsf) (blockStart st : Z) :
  x_m5PlayEndTime x = END_AT_LOOP ->
  x_m5PlayStartTime x = double_of_long st ->
  let Lframes := if x_m5LoopLength x =? LOOP_SELF
                 then x_m5SoundFileFramesAvailableFromOnset x
                 else x_m5LoopLength x in
  let k := Z.max 1 ((blockStart - st) / Lframes + 1) in
  0 <= st < 2 ^ 53 -> 0 <= blockStart < 2 ^ 53 ->
  0 < Lframes -> k <= INT_MAX -> st + k * Lframes < 2 ^ 53 ->
  m5_readsf_perform_end_time x blockStart
  = Some (set_x_m5PlayEndTime (double_of_long (st + k * Lframes)) x).
Proof.
  intros Hend Hst Lframes k Hs Hb HL Hk Hfit.
  assert (Hk1 : 1 <= k) by (unfold k; lia).
  assert (HL53 : Lframes < 2 ^ 53) by nia.
  assert (HkL : 0 < k * Lframes < 2 ^ 53) by nia.
  unfold m5_readsf_perform_end_time. rewrite Hend, Hst, SFeqb_END_AT_LOOP.
  assert (HLd : (if x_m5LoopLength x =? LOOP_SELF
                 then double_of_long (x_m5SoundFileFramesAvailableFromOnset x)
                 else double_of_long (x_m5LoopLength x)) = double_of_long Lframes).
  { unfold Lframes. destruct (x_m5LoopLength x =? LOOP_SELF); reflexivity. }
  cbv zeta. rewrite HLd.
  change (S754_zero false) with (double_of_long 0).
  rewrite SFleb_double_of_long by lia.
  destruct (Z.leb_spec Lframes 0) as [|_]; [lia|].
  rewrite SFleb_double_of_long by lia.
  destruct (Z.leb_spec st blockStart) as [Hle|Hgt].
  - (* some loops have played *)
    assert (Hq : 0 <= (blockStart - st) / Lframes) by (apply Z.div_pos; lia).
    assert (Hqk : (blockStart - st) / Lframes + 1 = k) by (unfold k; lia).
    assert (Hq53 : (blockStart - st) / Lframes < 2 ^ 53).
    { apply Z.div_lt_upper_bound; nia. }
    rewrite SFsub_double_of_long by lia.
    rewrite floor_SFdiv_double_of_long by lia.
    rewrite SFadd_double_of_long by (unfold INT_MAX in Hk; lia).
    rewrite Hqk. rewrite int_of_float_of_long by (unfold INT_MIN; lia).
    cbn [bind]. rewrite SFmul_double_of_long by lia.
    rewrite SFadd_double_of_long by lia.
    do 3 f_equal. ring.
  - (* the first loop has not begun *)
    assert (Hq : (blockStart - st) / Lframes < 0) by (apply Z.div_lt_upper_bound; lia).
    assert (Hk' : k = 1) by (unfold k; lia).
    cbn [bind]. rewrite SFmul_double_of_long by lia.
    rewrite SFadd_double_of_long by lia.
    rewrite Hk'. do 3 f_equal. ring.
Qed.

Lemma m5_readsf_perform_end_time_spec_witness :
  m5_readsf_perform_end_time
    (set_x_m5SoundFileFramesAvailableFromOnset 2000 readsf_late) 11000
  = Some (set_x_m5PlayEndTime (double_of_long (5000 + 4 * 2000))
            (set_x_m5SoundFileFramesAvailableFromOnset 2000 readsf_late)).
Proof.
  apply (m5_readsf_perform_end_time_spec
           (set_x_m5SoundFileFramesAvailableFromOnset 2000 readsf_late) 11000 5000);
    try reflexivity; vm_compute; intuition discriminate.
Defined.


(** ** Arithmetic of time codes *)

(** The three fields of a time code made from a frame count. *)
Lemma from_frames_fields (n : Z) :
  Z.abs n < 2 ^ 48 + 2 ^ 24 ->
  long_of_float (sign (m5_frame_time_code_from_frames n)) = Some (if n <? 0 then -1 else 1)
  /\ long_of_float (epoch (m5_frame_time_code_from_frames n)) = Some (Z.abs n / 2 ^ 24)
  /\ long_of_float (frames (m5_frame_time_code_from_frames n)) = Some (Z.abs n mod 2 ^ 24).
Proof.
  intros Hn. unfold m5_frame_time_code_from_frames. cbn [sign epoch frames].
  unfold labs, FRAME_FLOAT_EPOCH.
  rewrite (wrap_long_id (Z.abs n)) by (unfold LONG_MIN, LONG_MAX; lia).
  rewrite Z.quot_div_nonneg, Z.rem_mod_nonneg by lia.
  change 16777216 with (2 ^ 24).
  pose proof (Z.mod_pos_bound (Z.abs n) (2 ^ 24) ltac:(lia)) as Hr.
  assert (Hq : 0 <= Z.abs n / 2 ^ 24 <= 2 ^ 24).
  { split; [apply Z.div_pos; lia|].
    apply Z.lt_succ_r. apply Z.div_lt_upper_bound; lia. }
  split; [|split].
  - destruct (n <? 0); reflexivity.
  - apply long_of_float_of_long. lia.
  - apply long_of_float_of_long. lia.
Qed.

Lemma frames_from_frames (n : Z) :
  Z.abs n < 2 ^ 48 + 2 ^ 24 ->
  m5_frames_from_time_code (m5_frame_time_code_from_frames n) = Some n.
Proof.
  intros Hn. destruct (from_frames_fields n Hn) as (Hs & He & Hf).
  unfold m5_frames_from_time_code. rewrite Hs, He, Hf. cbn [bind]. f_equal.
  unfold FRAME_FLOAT_EPOCH. change 16777216 with (2 ^ 24).
  pose proof (Z.div_mod (Z.abs n) (2 ^ 24) ltac:(lia)) as Hdm.
  pose proof (Z.mod_pos_bound (Z.abs n) (2 ^ 24) ltac:(lia)) as Hr.
  assert (Hq : 0 <= Z.abs n / 2 ^ 24 <= 2 ^ 24).
  { split; [apply Z.div_pos; lia|].
    apply Z.lt_succ_r. apply Z.div_lt_upper_bound; lia. }
  rewrite (wrap_long_id (_ * 2 ^ 24)) by (unfold LONG_MIN, LONG_MAX; lia).
  rewrite (wrap_long_id (_ + _)) by (unfold LONG_MIN, LONG_MAX; lia).
  destruct (Z.ltb_spec n 0); rewrite wrap_long_id; unfold LONG_MIN, LONG_MAX; lia.
Qed.

(** A time code made from a frame count is normalised: its sign is 1 or
    -1, negative exactly for a negative count, its epoch and frames are
    whole numbers with [0 <= frames < 2^24], and they recombine to the
    frame count. *)
Theorem m5_frame_time_code_from_frames_normalised (n : Z) :
  Z.abs n < 2 ^ 48 + 2 ^ 24 ->
  exists s e f : Z,
    long_of_float (sign (m5_frame_time_code_from_frames n)) = Some s
    /\ long_of_float (epoch (m5_frame_time_code_from_frames n)) = Some e
    /\ long_of_float (frames (m5_frame_time_code_from_frames n)) = Some f
    /\ (s = 1 \/ s = -1) /\ (s = -1 <-> n < 0)
    /\ 0 <= e /\ 0 <= f < FRAME_FLOAT_EPOCH
    /\ s * (e * FRAME_FLOAT_EPOCH + f) = n.
Proof.
  intros Hn. destruct (from_frames_fields n Hn) as (Hs & He & Hf).
  exists (if n <? 0 then -1 else 1), (Z.abs n / 2 ^ 24), (Z.abs n mod 2 ^ 24).
  unfold FRAME_FLOAT_EPOCH. change 16777216 with (2 ^ 24).
  pose proof (Z.div_mod (Z.abs n) (2 ^ 24) ltac:(lia)) as Hdm.
  pose proof (Z.mod_pos_bound (Z.abs n) (2 ^ 24) ltac:(lia)) as Hr.
  assert (Hq : 0 <= Z.abs n / 2 ^ 24) by (apply Z.div_pos; lia).
  repeat (split; [assumption|]).
  destruct (Z.ltb_spec n 0); repeat split; try lia.
Qed.

Lemma m5_frame_time_code_from_frames_normalised_witness :
  exists s e f : Z,
    long_of_float (sign (m5_frame_time_code_from_frames (-50000000))) = Some s
    /\ long_of_float (epoch (m5_frame_time_code_from_frames (-50000000))) = Some e
    /\ long_of_float (frames (m5_frame_time_code_from_frames (-50000000))) = Some f
    /\ (s = 1 \/ s = -1) /\ (s = -1 <-> -50000000 < 0)
    /\ 0 <= e /\ 0 <= f < FRAME_FLOAT_EPOCH
    /\ s * (e * FRAME_FLOAT_EPOCH + f) = -50000000.
Proof.
  apply (m5_frame_time_code_from_frames_normalised (-50000000)). reflexivity.
Defined.

(** Adding two time codes adds their frame counts. *)
Theorem m5_frame_time_code_add_frames (a b : t_m5FrameTimeCode) (m n : Z) :
  m5_frames_from_time_code a = Some m ->
  m5_frames_from_time_code b = Some n ->
  Z.abs (m + n) < 2 ^ 48 + 2 ^ 24 ->
  m5_frame_time_code_add a b = Some (m5_frame_time_code_from_frames (m + n))
  /\ m5_frames_from_time_code (m5_frame_time_code_from_frames (m + n)) = Some (m + n).
Proof.
  intros Ha Hb Hmn. split.
  - unfold m5_frame_time_code_add. rewrite Ha, Hb. cbn [bind].
    rewrite wrap_long_id by (unfold LONG_MIN, LONG_MAX; lia). reflexivity.
  - apply frames_from_frames. exact Hmn.
Qed.

Lemma m5_frame_time_code_add_frames_witness :
  m5_frame_time_code_add (mkFTC float_one (float_of_long 2) (float_of_long 100))
                         (mkFTC float_minus_one (float_of_long 1) (float_of_long 300))
  = Some (m5_frame_time_code_from_frames (33554532 + -16777516))
  /\ m5_frames_from_time_code (m5_frame_time_code_from_frames (33554532 + -16777516))
     = Some (33554532 + -16777516).
Proof.
  apply (m5_frame_time_code_add_frames
           (mkFTC float_one (float_of_long 2) (float_of_long 100))
           (mkFTC float_minus_one (float_of_long 1) (float_of_long 300))
           33554532 (-16777516)); reflexivity.
Defined.

(** The sum does not depend on the order of the operands, whatever the
    codes, also when one of them has no frame count. *)
Theorem m5_frame_time_code_add_comm (a b : t_m5FrameTimeCode) :
  m5_frame_time_code_add a b = m5_frame_time_code_add b a.
Proof.
  unfold m5_frame_time_code_add.
  destruct (m5_frames_from_time_code a) as [m|], (m5_frames_from_time_code b) as [n|];
    cbn [bind]; try reflexivity.
  rewrite (Z.add_comm m n). reflexivity.
Qed.

(** Comparing two time codes made from frame counts compares the frame
    counts: the result is the sign of their difference. *)
Theorem m5_frame_time_code_compare_order (m n : Z) :
  Z.abs m < 2 ^ 48 + 2 ^ 24 -> Z.abs n < 2 ^ 48 + 2 ^ 24 ->
  m5_frame_time_code_compare (m5_frame_time_code_from_frames m)
                             (m5_frame_time_code_from_frames n)
  = Some (Z.sgn (m - n)).
Proof.
  intros Hm Hn. unfold m5_frame_time_code_compare.
  rewrite !frames_from_frames by assumption. cbn [bind].
  destruct (Z.gtb_spec m n); [f_equal; lia|].
  destruct (Z.eqb_spec m n); f_equal; lia.
Qed.

Lemma m5_frame_time_code_compare_order_witness :
  m5_frame_time_code_compare (m5_frame_time_code_from_frames 48000)
                             (m5_frame_time_code_from_frames 20000000)
  = Some (Z.sgn (48000 - 20000000)).
Proof.
  apply (m5_frame_time_code_compare_order 48000 20000000); reflexivity.
Defined.

(** Exchanging the operands of a comparison negates its result, and the
    result is always -1, 0 or 1. *)
Theorem m5_frame_time_code_compare_antisym (a b : t_m5FrameTimeCode) (r : Z) :
  m5_frame_time_code_compare a b = Some r ->
  m5_frame_time_code_compare b a = Some (- r) /\ -1 <= r <= 1.
Proof.
  unfold m5_frame_time_code_compare.
  destruct (m5_frames_from_time_code a) as [m|]; [|discriminate].
  destruct (m5_frames_from_time_code b) as [n|]; [|discriminate]. cbn [bind].
  destruct (Z.gtb_spec m n), (Z.eqb_spec m n), (Z.gtb_spec n m), (Z.eqb_spec n m);
    intros [= <-]; try lia; split; try reflexivity; lia.
Qed.

Lemma m5_frame_time_code_compare_antisym_witness :
  m5_frame_time_code_compare (m5_frame_time_code_from_frames 20000000)
                             (m5_frame_time_code_from_frames 48000) = Some (- -1)
  /\ -1 <= -1 <= 1.
Proof.
  apply (m5_frame_time_code_compare_antisym
           (m5_frame_time_code_from_frames 48000)
           (m5_frame_time_code_from_frames 20000000) (-1)); reflexivity.
Defined.

(** ** Time codes in messages and in loops *)

(** A message is read as a time code exactly when it is the list of three
    floats that [m5_frame_time_code_out] sends for that code. *)
Theorem m5_frame_time_code_from_atoms_out (a : list t_atom) (c : t_m5FrameTimeCode) :
  m5_frame_time_code_from_atoms a = Some c <-> a = m5_frame_time_code_out c.
Proof.
  unfold m5_frame_time_code_out. split.
  - destruct a as [|[s|s] [|[e|e] [|[f|f] [|x a]]]]; cbn; try discriminate.
    intros [= <-]. reflexivity.
  - intros ->. destruct c. reflexivity.
Qed.



(** The position in the loop.  A loop length that is not positive is
    refused, with nothing written and the clock not even read.  For a
    loop of [l > 0] frames, the code written is that of the C remainder
    [p] of the clock by [l]: the clock less [p] is a whole number of
    loops, [|p| < l], and [p] is the position [clock mod l] in [0, l) for
    a clock that is not negative. *)
Theorem m5_loop_position_from_clock_time_in_loop
    (clock : double) (L : t_m5FrameTimeCode) (l : Z) :
  m5_frames_from_time_code L = Some l ->
  (l <= 0 -> m5_loop_position_from_clock_time clock L = Some (1, None))
  /\ (0 < l -> forall c : Z, long_of_float clock = Some c ->
      exists p : Z,
        m5_loop_position_from_clock_time clock L
        = Some (0, Some (m5_frame_time_code_from_frames p))
        /\ (l | c - p) /\ Z.abs p < l /\ (0 <= c -> 0 <= p < l /\ p = c mod l)).
Proof.
  intros HL. unfold m5_loop_position_from_clock_time. rewrite HL. cbn [bind]. split.
  - intros Hl. destruct (Z.leb_spec l 0); [reflexivity|lia].
  - intros Hl c Hc. exists (Z.rem c l).
    destruct (Z.leb_spec l 0); [lia|]. rewrite Hc. cbn [bind].
    split; [reflexivity|].
    pose proof (Z.quot_rem' c l) as Hqr.
    pose proof (Z.rem_bound_abs c l ltac:(lia)) as Hb.
    split; [exists (Z.quot c l); lia|].
    split; [lia|]. intros Hc0.
    pose proof (Z.rem_mod_nonneg c l ltac:(lia) ltac:(lia)) as Hm.
    pose proof (Z.mod_pos_bound c l ltac:(lia)). lia.
Qed.

Lemma m5_loop_position_from_clock_time_in_loop_witness :
  (12000 <= 0 ->
   m5_loop_position_from_clock_time (double_of_long 23000)
     (m5_frame_time_code_from_frames 12000) = Some (1, None))
  /\ (0 < 12000 -> forall c : Z, long_of_float (double_of_long 23000) = Some c ->
      exists p : Z,
        m5_loop_position_from_clock_time (double_of_long 23000)
          (m5_frame_time_code_from_frames 12000)
        = Some (0, Some (m5_frame_time_code_from_frames p))
        /\ (12000 | c - p) /\ Z.abs p < 12000
        /\ (0 <= c -> 0 <= p < 12000 /\ p = c mod 12000)).
Proof.
  apply (m5_loop_position_from_clock_time_in_loop (double_of_long 23000)
           (m5_frame_time_code_from_frames 12000) 12000). reflexivity.
Defined.

(** With no offset, no displacement and no safety margin, the start
    written for a clock that is not negative is the first loop boundary
    at or after the clock. *)
Theorem m5_loop_start_from_clock_time_next_boundary
    (clock : double) (O L : t_m5FrameTimeCode) (l c : Z) :
  m5_frames_from_time_code O = Some 0 ->
  m5_frames_from_time_code L = Some l ->
  long_of_float clock = Some c ->
  0 < l -> 0 <= c -> c + l <= LONG_MAX ->
  exists b : Z,
    m5_loop_start_from_clock_time clock O L 0 0
    = Some (0, Some (m5_frame_time_code_from_frames b))
    /\ (l | b) /\ c <= b < c + l.
Proof.
  intros HO HL Hc Hl Hc0 Hmax.
  unfold m5_loop_start_from_clock_time. rewrite HO, HL, Hc. cbn [bind].
  rewrite Z.sub_0_r, Z.mul_0_l.
  rewrite (wrap_long_id c) by (unfold LONG_MIN, LONG_MAX in *; lia).
  destruct (Z.ltb_spec l 0); [lia|]. destruct (Z.eqb_spec l 0); [lia|].
  rewrite Z.rem_mod_nonneg by lia.
  pose proof (Z.div_mod c l ltac:(lia)) as Hdm.
  pose proof (Z.mod_pos_bound c l ltac:(lia)) as Hr.
  change (wrap_long 0) with 0.
  destruct (Z.eqb_spec (c mod l) 0) as [E|E].
  - exists c. rewrite !Z.add_0_r, !(wrap_long_id c) by (unfold LONG_MIN, LONG_MAX in *; lia).
    split; [reflexivity|]. split; [exists (c / l); lia|lia].
  - exists (c + l - c mod l).
    rewrite !Z.add_0_r.
    rewrite !(wrap_long_id (c + l)) by (unfold LONG_MIN, LONG_MAX in *; lia).
    rewrite !(wrap_long_id (c + l - c mod l)) by (unfold LONG_MIN, LONG_MAX in *; lia).
    split; [reflexivity|]. split; [exists (c / l + 1); lia|lia].
Qed.

Lemma m5_loop_start_from_clock_time_next_boundary_witness :
  exists b : Z,
    m5_loop_start_from_clock_time (double_of_long 23000)
      m5_frame_time_code_init (m5_frame_time_code_from_frames 12000) 0 0
    = Some (0, Some (m5_frame_time_code_from_frames b))
    /\ (12000 | b) /\ 23000 <= b < 23000 + 12000.
Proof.
  apply (m5_loop_start_from_clock_time_next_boundary (double_of_long 23000)
           m5_frame_time_code_init (m5_frame_time_code_from_frames 12000) 12000 23000);
    try reflexivity; vm_compute; intuition discriminate.
Defined.

(** The number of loops in a duration: refused exactly when the duration
    is negative or the loop length is not positive; otherwise the count
    is a double whose whole part is the integer quotient of the two frame
    counts. *)
Theorem m5_loops_containing_duration_count
    (D L : t_m5FrameTimeCode) (d l : Z) :
  m5_frames_from_time_code D = Some d ->
  m5_frames_from_time_code L = Some l ->
  d < 2 ^ 53 -> l < 2 ^ 53 ->
  (d < 0 \/ l <= 0 -> m5_loops_containing_duration D L = Some (1, None))
  /\ (0 <= d -> 0 < l ->
      exists count : double,
        m5_loops_containing_duration D L = Some (0, Some count)
        /\ floor count = double_of_long (d / l)).
Proof.
  intros HD HL Hd53 Hl53. unfold m5_loops_containing_duration.
  rewrite HD. cbn [bind]. split.
  - intros [Hd|Hl].
    + destruct (Z.ltb_spec d 0); [reflexivity|lia].
    + destruct (Z.ltb_spec d 0); [reflexivity|]. rewrite HL. cbn [bind].
      destruct (Z.leb_spec l 0); [reflexivity|lia].
  - intros Hd Hl. destruct (Z.ltb_spec d 0); [lia|]. rewrite HL. cbn [bind].
    destruct (Z.leb_spec l 0); [lia|].
    eexists. split; [reflexivity|].
    apply floor_SFdiv_double_of_long; lia.
Qed.

Lemma m5_loops_containing_duration_count_witness :
  (100000 < 0 \/ 48000 <= 0 ->
   m5_loops_containing_duration (m5_frame_time_code_from_frames 100000)
     (m5_frame_time_code_from_frames 48000) = Some (1, None))
  /\ (0 <= 100000 -> 0 < 48000 ->
      exists count : double,
        m5_loops_containing_duration (m5_frame_time_code_from_frames 100000)
          (m5_frame_time_code_from_frames 48000) = Some (0, Some count)
        /\ floor count = double_of_long (100000 / 48000)).
Proof.
  apply (m5_loops_containing_duration_count
           (m5_frame_time_code_from_frames 100000)
           (m5_frame_time_code_from_frames 48000) 100000 48000); reflexivity.
Defined.

(** ** Anchors and the start of a block *)

(** The start time of an anchor is latched: once an access has set it to
    a time other than the sentinel, every later access returns that time
    and leaves the anchor alone, whatever the clock reads by then. *)
Theorem m5_time_anchor_get_starttime_latched
    (h h' : t_clock_host) (x : t_m5TimeAnchor) :
  SFeqb (snd (m5_time_anchor_get_starttime h x)) MARK_TIME_ANCHOR = false ->
  m5_time_anchor_get_starttime h' (fst (m5_time_anchor_get_starttime h x))
  = m5_time_anchor_get_starttime h x
  /\ x_sym (fst (m5_time_anchor_get_starttime h x)) = x_sym x
  /\ x_usedindsp (fst (m5_time_anchor_get_starttime h x)) = x_usedindsp x.
Proof.
  unfold m5_time_anchor_get_starttime.
  destruct (SFeqb (x_starttime x) MARK_TIME_ANCHOR) eqn:E;
    cbn [fst snd x_starttime x_sym x_usedindsp]; intros H.
  - rewrite H. auto.
  - rewrite E. auto.
Qed.

Lemma m5_time_anchor_get_starttime_latched_witness :
  m5_time_anchor_get_starttime (host_at 99999)
    (fst (m5_time_anchor_get_starttime (host_at 640) (m5_time_anchor_new "t")))
  = m5_time_anchor_get_starttime (host_at 640) (m5_time_anchor_new "t")
  /\ x_sym (fst (m5_time_anchor_get_starttime (host_at 640) (m5_time_anchor_new "t")))
     = x_sym (m5_time_anchor_new "t")
  /\ x_usedindsp (fst (m5_time_anchor_get_starttime (host_at 640) (m5_time_anchor_new "t")))
     = x_usedindsp (m5_time_anchor_new "t").
Proof.
  apply (m5_time_anchor_get_starttime_latched (host_at 640) (host_at 99999)
           (m5_time_anchor_new "t")).
  reflexivity.
Defined.



(** The sign of the ceiling of a double. *)
Lemma SFltb_ceil_zero (x : double) (z : Z) :
  valid_binary double_prec double_emax x = true ->
  SFceil x = Some z ->
  SFltb (ceil x) (S754_zero false) = (z <? 0).
Proof.
  intros Hv Hc. destruct x as [s|s| |s m e]; cbn [SFceil] in Hc; try discriminate;
    injection Hc as Hc.
  - subst z. reflexivity.
  - apply valid_binary64_finite in Hv as [Hd He]. unfold ceil.
    destruct (Z.leb_spec 0 e) as [He0|He0].
    + assert (Heq : z = cond_Zopp s (Zpos m * 2 ^ e)).
      { rewrite <- Hc. rewrite Z.shiftl_mul_pow2 by lia. destruct s; cbn [cond_Zopp negb]; lia. }
      assert (0 < Zpos m * 2 ^ e).
      { apply Z.mul_pos_pos; [lia|apply Z.pow_pos_nonneg; lia]. }
      destruct s; cbn [cond_Zopp] in Heq; unfold SFltb; cbn [SFcompare];
        symmetry; [apply Z.ltb_lt|apply Z.ltb_ge]; lia.
    + rewrite Hc.
      assert (Hb : Z.abs z <= 2 ^ 52).
      { rewrite <- Hc, Z.abs_opp. apply shiftl_neg_bound; try lia.
        pose proof (digits2_pos_bounds m) as [_ Hm].
        assert (2 ^ Zpos (digits2_pos m) <= 2 ^ 53) by (apply Z.pow_le_mono_r; lia).
        destruct s; cbn [cond_Zopp negb]; change (52 + 1) with 53; lia. }
      unfold integral_double. destruct (Z.eq_dec z 0) as [->|Hz]; [reflexivity|].
      assert (Hn : binary_normalize double_prec double_emax z 0 s
                   = SFcanon double_prec (z <? 0) (Z.to_pos (Z.abs z)) 0).
      { apply binary_normalize_int; unfold double_prec, double_emax; lia. }
      destruct z as [|p|p]; [congruence| |]; rewrite Hn; reflexivity.
Qed.

(** Without a shared anchor, the block callbacks count frames from the
    local anchor of the object, and a clock that reads before it gives 0:
    the block start is the ceiling of the elapsed time, clamped at 0. *)
Theorem m5_block_start_time_local_clamped
    (pd : t_pd) (anchors : t_anchors) (x : t_readsf) (z : Z) :
  x_m5TimeAnchor x = None ->
  let elapsed := clock_gettimesincewithunits (pd_clock pd)
                   (x_m5LocalTimeAnchor x) double_one 1 in
  valid_binary double_prec double_emax elapsed = true ->
  SFceil elapsed = Some z ->
  z <= ULONG_MAX ->
  m5_block_start_time pd anchors x = Some (Z.max 0 z, anchors).
Proof.
  intros Hnone elapsed Hv Hc Hz. unfold m5_block_start_time. rewrite Hnone.
  fold elapsed. rewrite (SFltb_ceil_zero elapsed z Hv Hc).
  destruct (Z.ltb_spec z 0) as [Hneg|Hpos].
  - change (ulong_of_float (S754_zero false)) with (Some 0). cbn [bind].
    do 2 f_equal. lia.
  - rewrite (ulong_of_float_ceil elapsed z Hv Hc) by lia. cbn [bind].
    do 2 f_equal. lia.
Qed.

Lemma m5_block_start_time_local_clamped_witness :
  m5_block_start_time (pd_at 0) no_anchors
    (set_x_m5LocalTimeAnchor (double_of_long 1600) readsf_opened)
  = Some (Z.max 0 (-5), no_anchors).
Proof.
  apply (m5_block_start_time_local_clamped (pd_at 0) no_anchors
           (set_x_m5LocalTimeAnchor (double_of_long 1600) readsf_opened) (-5));
    try reflexivity; vm_compute; discriminate.
Defined.

(** ** The messages of the playback object *)

Lemma from_atoms_no_symbol (argv : list t_atom) (ftc : t_m5FrameTimeCode) :
  m5_frame_time_code_from_atoms argv = Some ftc ->
  atom_getsymbolarg 0 argv = EmptyString /\ argv <> [].
Proof.
  destruct argv as [|[f|s] argv']; cbn; try discriminate.
  intros _. split; [reflexivity|discriminate].
Qed.

(** [start] is refused unless an [open] came before: in any state other
    than the two start-up states the method reports an error and leaves
    the object as it is, whatever its arguments. *)
Theorem m5_readsf_start_requires_open (pd : t_pd) (x : t_readsf) (argv : list t_atom) :
  x_state x <> STATE_STARTUP -> x_state x <> STATE_STARTUP_2 ->
  m5_readsf_start pd x argv
  = Some (x, [E_pd_error "[readsf~]: start requested with no prior 'open'"]).
Proof.
  intros H1 H2. unfold m5_readsf_start.
  destruct (x_state x); try contradiction; reflexivity.
Qed.

Lemma m5_readsf_start_requires_open_witness :
  m5_readsf_start (pd_at 0) readsf_fresh []
  = Some (readsf_fresh, [E_pd_error "[readsf~]: start requested with no prior 'open'"]).
Proof.
  apply (m5_readsf_start_requires_open (pd_at 0) readsf_fresh []); vm_compute; discriminate.
Defined.

(** A loop length that is not positive is rejected: one error, and the
    object is left as it was. *)
Theorem m5_readsf_loop_length_rejected
    (x : t_readsf) (argv : list t_atom) (ftc : t_m5FrameTimeCode) (ll : Z) :
  m5_frame_time_code_from_atoms argv = Some ftc ->
  m5_frames_from_time_code ftc = Some ll ->
  ll <= 0 ->
  m5_readsf_loop_length x argv
  = Some (x, [E_pd_error "m5_readsf~: Loop length must be > 0 frames."]).
Proof.
  intros Hatoms Hframes Hll. unfold m5_readsf_loop_length.
  destruct (from_atoms_no_symbol argv ftc Hatoms) as [-> _]. cbn [String.eqb].
  rewrite Hatoms, Hframes. cbn [bind].
  destruct (Z.leb_spec ll 0); [reflexivity|lia].
Qed.

Lemma m5_readsf_loop_length_rejected_witness :
  m5_readsf_loop_length readsf_opened
    [A_FLOAT float_one; A_FLOAT float_zero; A_FLOAT float_zero]
  = Some (readsf_opened, [E_pd_error "m5_readsf~: Loop length must be > 0 frames."]).
Proof.
  apply (m5_readsf_loop_length_rejected readsf_opened _
           (mkFTC float_one float_zero float_zero) 0); [reflexivity|reflexivity|lia].
Defined.



(** The loop messages keep the loop fields sound: whatever the arguments
    of [loop_length] and [loop_start], a loop length and a loop start
    that were not negative stay so; a length set by [loop_length] is
    positive or [LOOP_SELF]. *)
Theorem m5_readsf_loop_fields_nonneg
    (x x' : t_readsf) (argv : list t_atom) (effs : list t_effect) :
  0 <= x_m5LoopLength x -> 0 <= x_m5LoopStart x ->
  m5_readsf_loop_length x argv = Some (x', effs)
  \/ m5_readsf_loop_start x argv = Some (x', effs) ->
  0 <= x_m5LoopLength x' /\ 0 <= x_m5LoopStart x'.
Proof.
  intros HL HS [H|H].
  - unfold m5_readsf_loop_length in H.
    destruct (String.eqb (atom_getsymbolarg 0 argv) "self").
    + injection H as <- _. cbn. unfold LOOP_SELF. lia.
    + destruct (m5_frame_time_code_from_atoms argv) as [ftc|].
      * destruct (m5_frames_from_time_code ftc) as [ll|]; [|discriminate].
        cbn [bind] in H. destruct (Z.leb_spec ll 0).
        -- injection H as <- _. auto.
        -- injection H as <- _. cbn. lia.
      * injection H as <- _. auto.
  - unfold m5_readsf_loop_start in H.
    destruct (m5_frame_time_code_from_atoms argv) as [ftc|].
    + destruct (m5_frames_from_time_code ftc) as [ll|]; [|discriminate].
      cbn [bind] in H. destruct (Z.ltb_spec ll 0).
      * injection H as <- _. auto.
      * injection H as <- _. cbn. lia.
    + injection H as <- _. auto.
Qed.

Lemma m5_readsf_loop_fields_nonneg_witness :
  0 <= x_m5LoopLength
         (set_x_m5LoopLength 48000 (set_x_m5LoopLengthRequest 1 readsf_opened))
  /\ 0 <= x_m5LoopStart
            (set_x_m5LoopLength 48000 (set_x_m5LoopLengthRequest 1 readsf_opened)).
Proof.
  apply (m5_readsf_loop_fields_nonneg readsf_opened _
           [A_FLOAT float_one; A_FLOAT float_zero; A_FLOAT (float_of_long 48000)]
           [E_signal_request]).
  - vm_compute. discriminate.
  - vm_compute. discriminate.
  - left. reflexivity.
Defined.

(** A negative end time is rejected by [stop]: one error, and the object
    is left as it was, whatever its state. *)
Theorem m5_readsf_stop_negative_rejected
    (x : t_readsf) (argv : list t_atom) (ftc : t_m5FrameTimeCode) (ll : Z) :
  m5_frame_time_code_from_atoms argv = Some ftc ->
  m5_frames_from_time_code ftc = Some ll ->
  ll < 0 ->
  exists msg : string, m5_readsf_stop x argv = Some (x, [E_pd_error msg]).
Proof.
  intros Hatoms Hframes Hll. unfold m5_readsf_stop.
  destruct (negb (state_eqb (x_state x) STATE_STREAM)
            && negb (state_eqb (x_state x) STATE_STARTUP)
            && negb (state_eqb (x_state x) STATE_STARTUP_2)).
  - eexists. reflexivity.
  - destruct (from_atoms_no_symbol argv ftc Hatoms) as [Hsym Hne].
    destruct argv as [|a argv']; [contradiction|].
    rewrite Hsym. cbn [String.eqb]. rewrite Hatoms, Hframes. cbn [bind].
    destruct (Z.ltb_spec ll 0); [|lia]. eexists. reflexivity.
Qed.

Lemma m5_readsf_stop_negative_rejected_witness :
  exists msg : string,
    m5_readsf_stop readsf_late
      [A_FLOAT float_minus_one; A_FLOAT float_zero; A_FLOAT (float_of_long 5)]
    = Some (readsf_late, [E_pd_error msg]).
Proof.
  apply (m5_readsf_stop_negative_rejected readsf_late _
           (mkFTC float_minus_one float_zero (float_of_long 5)) (-5));
    [reflexivity|reflexivity|lia].
Defined.

(** The life of a playback: an accepted [open] arms the object, so that a
    following [start] is accepted and streams from the next block, and a
    following [stop] idles the object and asks the worker to close the
    file; each step signals the worker. *)
Theorem m5_readsf_open_start_stop
    (pd pd' : t_pd) (x x1 : t_readsf) (argv rest : list t_atom)
    (type : option string) (effs : list t_effect) :
  m5_readsf_open_flags (m5_sf_types pd) None argv = Some (type, rest) ->
  atom_getsymbolarg 0 rest <> EmptyString ->
  m5_readsf_open pd x argv = Some (x1, effs) ->
  exists x2 x3 : t_readsf,
    m5_readsf_start pd' x1 [] = Some (x2, [E_signal_request])
    /\ x_state x2 = STATE_STREAM
    /\ x_m5PlayStartTime x2 = START_NOW
    /\ x_m5PlayEndTime x2 = END_AT_LOOP
    /\ x_m5LocalTimeAnchor x2 = clock_getlogicaltime (pd_clock pd')
    /\ m5_readsf_stop x2 [] = Some (x3, [E_signal_request])
    /\ x_state x3 = STATE_IDLE
    /\ x_requestcode x3 = REQUEST_CLOSE.
Proof.
  intros Hflags Hname Hopen.
  assert (Hst : x_state x1 = STATE_STARTUP /\ x_m5PlayEndTime x1 = END_AT_LOOP).
  { unfold m5_readsf_open in Hopen. rewrite Hflags in Hopen.
    destruct (String.eqb_spec (atom_getsymbolarg 0 rest) EmptyString) as [E|_];
      [contradiction|].
    destruct (sys_isabsolutepath pd (atom_getsymbolarg 0 rest));
    destruct (first_char_is "b" (atom_getsymbolarg 5 rest));
    destruct (first_char_is "l" (atom_getsymbolarg 5 rest));
    destruct (negb (atom_getsymbolarg 5 rest =? EmptyString)%string);
    destruct (ulong_of_float _) as [onset|]; cbn [bind] in Hopen; try discriminate;
    destruct (long_of_float _) as [hs|]; cbn [bind] in Hopen; try discriminate;
    destruct (int_of_float _) as [nch|]; cbn [bind] in Hopen; try discriminate;
    destruct (int_of_float _) as [bps|]; cbn [bind] in Hopen; try discriminate;
    destruct type as [t|];
    try (destruct (0 <=? sf_headersize _));
    injection Hopen as <- _; split; reflexivity. }
  destruct Hst as [Hst Hend].
  unfold m5_readsf_start. rewrite Hst. cbn [state_eqb negb andb].
  eexists. eexists. split; [reflexivity|].
  split; [reflexivity|]. split; [reflexivity|]. split; [exact Hend|].
  split; [reflexivity|].
  unfold m5_readsf_stop. cbn [x_state set_x_state set_x_m5LocalTimeAnchor
    set_x_m5PlayStartTime set_x_m5LoopLengthRequest state_eqb negb andb].
  split; [reflexivity|]. split; reflexivity.
Qed.

Lemma m5_readsf_open_start_stop_witness :
  exists x2 x3 : t_readsf,
    m5_readsf_start (pd_at 640) readsf_armed [] = Some (x2, [E_signal_request])
    /\ x_state x2 = STATE_STREAM
    /\ x_m5PlayStartTime x2 = START_NOW
    /\ x_m5PlayEndTime x2 = END_AT_LOOP
    /\ x_m5LocalTimeAnchor x2 = clock_getlogicaltime (pd_clock (pd_at 640))
    /\ m5_readsf_stop x2 [] = Some (x3, [E_signal_request])
    /\ x_state x3 = STATE_IDLE
    /\ x_requestcode x3 = REQUEST_CLOSE.
Proof.
  apply (m5_readsf_open_start_stop (pd_at 0) (pd_at 640) readsf_fresh readsf_armed
           [A_SYMBOL "loop.wav"] [A_SYMBOL "loop.wav"] None [E_signal_request]).
  - reflexivity.
  - discriminate.
  - reflexivity.
Defined.

(** ** Construction *)

Lemma sf_channel_count_range (n : Z) : 1 <= sf_channel_count n <= MAXSFCHANS.
Proof.
  unfold sf_channel_count, MAXSFCHANS.
  destruct (Z.ltb_spec n 1); [lia|]. destruct (Z.ltb_spec 64 n); lia.
Qed.

Lemma sf_buffer_size_range (n b : Z) :
  1 <= n <= MAXSFCHANS -> MINBUFSIZE <= sf_buffer_size n b <= MAXBUFSIZE.
Proof.
  unfold sf_buffer_size, MINBUFSIZE, MAXBUFSIZE, MAXSFCHANS, DEFBUFPERCHAN, READSIZE.
  intros Hn. destruct (Z.leb_spec b 0).
  - rewrite wrap_int_id by (unfold INT_MIN, INT_MAX; lia). lia.
  - destruct (Z.ltb_spec b (4 * 65536)); [lia|].
    destruct (Z.ltb_spec 16777216 b); lia.
Qed.

(** Whatever the creation arguments, a player has between 1 and
    MAXSFCHANS outlets and a buffer of MINBUFSIZE to MAXBUFSIZE bytes; it
    starts idle, with an empty fifo and no request pending. *)
Theorem m5_readsf_new_bounds (fnchannels fbufsize : t_float) (x : t_readsf) :
  m5_readsf_new fnchannels fbufsize = Some x ->
  1 <= x_noutlets x <= MAXSFCHANS
  /\ MINBUFSIZE <= x_bufsize x <= MAXBUFSIZE
  /\ x_state x = STATE_IDLE /\ x_requestcode x = REQUEST_NOTHING
  /\ x_fifosize x = 0 /\ x_fifohead x = 0 /\ x_fifotail x = 0.
Proof.
  unfold m5_readsf_new.
  destruct (int_of_float fnchannels) as [n|]; cbn [bind]; [|discriminate].
  destruct (int_of_float fbufsize) as [b|]; cbn [bind]; [|discriminate].
  pose proof (sf_channel_count_range n) as Hn.
  pose proof (sf_buffer_size_range (sf_channel_count n) b Hn) as Hb.
  intros [= <-]. cbn [x_noutlets x_bufsize x_state x_requestcode x_fifosize x_fifohead
    x_fifotail set_x_noutlets set_x_bufsize set_x_state set_x_requestcode set_x_fifosize
    set_x_fifohead set_x_fifotail set_x_vecsize set_x_sf set_x_m5SoundFileFramesAvailableFromOnset
    set_x_m5LoopLength set_x_m5LoopLengthRequest set_x_m5LoopStart set_x_namelist
    set_x_m5HeadTimeRequest set_x_m5TailTime set_x_m5TimeAnchorName set_x_m5TimeAnchor
    set_x_m5LocalTimeAnchor set_x_m5PlayStartTime set_x_m5PlayEndTime
    set_x_m5PlayStartThreshold].
  repeat split; try reflexivity; lia.
Qed.

Lemma m5_readsf_new_bounds_witness :
  1 <= x_noutlets readsf_fresh <= MAXSFCHANS
  /\ MINBUFSIZE <= x_bufsize readsf_fresh <= MAXBUFSIZE
  /\ x_state readsf_fresh = STATE_IDLE /\ x_requestcode readsf_fresh = REQUEST_NOTHING
  /\ x_fifosize readsf_fresh = 0 /\ x_fifohead readsf_fresh = 0
  /\ x_fifotail readsf_fresh = 0.
Proof.
  apply (m5_readsf_new_bounds float_one float_zero readsf_fresh). reflexivity.
Defined.

(** Whatever the creation arguments, a recorder has between 1 and
    MAXSFCHANS channels, frames of two bytes per channel and a buffer of
    MINBUFSIZE to MAXBUFSIZE bytes; it starts idle, to record from the
    next start on and never to stop by itself. *)
Theorem m5_writesf_new_bounds (fnchannels fbufsize : t_float) (x : t_writesf) :
  m5_writesf_new fnchannels fbufsize = Some x ->
  1 <= sf_nchannels (x_sf x) <= MAXSFCHANS
  /\ sf_bytesperframe (x_sf x) = 2 * sf_nchannels (x_sf x)
  /\ MINBUFSIZE <= x_bufsize x <= MAXBUFSIZE
  /\ x_state x = STATE_IDLE /\ x_requestcode x = REQUEST_NOTHING
  /\ x_m5PlayStartTime x = START_NOW /\ x_m5PlayEndTime x = END_NEVER.
Proof.
  unfold m5_writesf_new.
  destruct (int_of_float fnchannels) as [n|]; cbn [bind]; [|discriminate].
  destruct (int_of_float fbufsize) as [b|]; cbn [bind]; [|discriminate].
  pose proof (sf_channel_count_range n) as Hn.
  pose proof (sf_buffer_size_range (sf_channel_count n) b Hn) as Hb.
  intros [= <-].
  assert (Hw : wrap_int (sf_channel_count n * 2) = 2 * sf_channel_count n).
  { unfold MAXSFCHANS in Hn. rewrite wrap_int_id by (unfold INT_MIN, INT_MAX; lia). lia. }
  repeat split; try reflexivity; try apply Hn; try apply Hb. exact Hw.
Qed.

Lemma m5_writesf_new_bounds_witness :
  let x := run_or readsf_zeroed (m5_writesf_new (float_of_long 200) (float_of_long 100)) in
  1 <= sf_nchannels (x_sf x) <= MAXSFCHANS
  /\ sf_bytesperframe (x_sf x) = 2 * sf_nchannels (x_sf x)
  /\ MINBUFSIZE <= x_bufsize x <= MAXBUFSIZE
  /\ x_state x = STATE_IDLE /\ x_requestcode x = REQUEST_NOTHING
  /\ x_m5PlayStartTime x = START_NOW /\ x_m5PlayEndTime x = END_NEVER.
Proof.
  intros x.
  apply (m5_writesf_new_bounds (float_of_long 200) (float_of_long 100) x). reflexivity.
Defined.

(** ** The fifo of the worker and the start of a recording *)

(** On OPEN the worker empties the fifo and sizes it to the largest
    multiple of the bytes of MAXVECSIZE frames that fits the buffer. *)
Theorem m5_readsf_child_open_fifo_size (x x' : t_readsf) (sf : t_soundfile) :
  0 < sf_bytesperframe sf ->
  sf_bytesperframe sf * MAXVECSIZE <= INT_MAX ->
  0 <= x_bufsize x <= INT_MAX ->
  m5_readsf_child_open_fifo x sf = Some x' ->
  let tick := sf_bytesperframe sf * MAXVECSIZE in
  (tick | x_fifosize x')
  /\ x_fifosize x' <= x_bufsize x < x_fifosize x' + tick
  /\ x_fifohead x' = 0 /\ x_sf x' = sf /\ x_bufsize x' = x_bufsize x.
Proof.
  intros Hb Hmax Hbuf H tick. unfold m5_readsf_child_open_fifo in H.
  unfold int_rem in H. cbn [x_bufsize set_x_sf set_x_fifohead] in H.
  rewrite (wrap_int_id (sf_bytesperframe sf * MAXVECSIZE)) in H
    by (unfold INT_MIN, INT_MAX, MAXVECSIZE in *; lia).
  fold tick in H.
  assert (Ht : 0 < tick) by (unfold tick, MAXVECSIZE; lia).
  destruct (Z.eqb_spec tick 0); [lia|]. cbn [bind] in H.
  rewrite Z.rem_mod_nonneg in H by lia.
  pose proof (Z.mod_pos_bound (x_bufsize x) tick Ht) as Hr.
  pose proof (Z.div_mod (x_bufsize x) tick ltac:(lia)) as Hdm.
  assert (Hle : x_bufsize x mod tick <= x_bufsize x) by (apply Z.mod_le; lia).
  rewrite (wrap_int_id (x_bufsize x mod tick)) in H by (unfold INT_MIN, INT_MAX in *; lia).
  rewrite (wrap_int_id (x_bufsize x - x_bufsize x mod tick)) in H
    by (unfold INT_MIN, INT_MAX in *; lia).
  destruct (int_div _ _) as [p|]; cbn [bind] in H; [|discriminate].
  injection H as <-. cbn.
  split; [exists (x_bufsize x / tick); lia|].
  split; [lia|]. repeat split.
Qed.

Lemma m5_readsf_child_open_fifo_size_witness :
  let tick := sf_bytesperframe (x_sf readsf_opened) * MAXVECSIZE in
  (tick | x_fifosize readsf_opened)
  /\ x_fifosize readsf_opened <= x_bufsize readsf_armed < x_fifosize readsf_opened + tick
  /\ x_fifohead readsf_opened = 0 /\ x_sf readsf_opened = x_sf readsf_opened
  /\ x_bufsize readsf_opened = x_bufsize readsf_armed.
Proof.
  apply (m5_readsf_child_open_fifo_size readsf_armed readsf_opened (x_sf readsf_opened)).
  - vm_compute. reflexivity.
  - vm_compute. discriminate.
  - vm_compute. intuition discriminate.
  - vm_compute. reflexivity.
Defined.

(** A loop of no bytes cannot be streamed: with the loop length left to
    the file and no byte in the file after the onset, the worker gives up
    at once, marking the end of the file and the error EMPTY, and reads
    nothing. *)
Theorem m5_readsf_child_seek_empty
    (EMPTY : Z) (x : t_readsf) (c : t_readsf_child) :
  x_m5LoopLength x = LOOP_SELF ->
  m5_original_bytelimit c = 0 ->
  exists x' : t_readsf,
    m5_readsf_child_seek EMPTY x c = Some (inl x')
    /\ x_eof x' = 1 /\ x_fileerror x' = EMPTY
    /\ x_fifohead x' = x_fifohead x /\ x_fifotail x' = x_fifotail x
    /\ x_state x' = x_state x.
Proof.
  intros HL Hb. unfold m5_readsf_child_seek, m5_readsf_child_loop_length_bytes.
  rewrite HL, Hb. cbn [Z.eqb LOOP_SELF]. change (wrap_ulong 0 =? 0) with true.
  eexists. split; [reflexivity|]. repeat split.
Qed.

Lemma m5_readsf_child_seek_empty_witness :
  exists x' : t_readsf,
    m5_readsf_child_seek (-1004) readsf_late
      (m5_readsf_child_opened readsf_late (set_sf_bytelimit 0 (x_sf readsf_opened)))
    = Some (inl x')
    /\ x_eof x' = 1 /\ x_fileerror x' = -1004
    /\ x_fifohead x' = x_fifohead readsf_late /\ x_fifotail x' = x_fifotail readsf_late
    /\ x_state x' = x_state readsf_late.
Proof.
  apply (m5_readsf_child_seek_empty (-1004) readsf_late
           (m5_readsf_child_opened readsf_late (set_sf_bytelimit 0 (x_sf readsf_opened))));
    reflexivity.
Defined.

Lemma SFeqb_whole_not_threshold (n : Z) :
  0 <= n < 2 ^ 53 -> SFeqb (double_of_long n) START_AT_THRESHOLD = false.
Proof.
  intros Hn. destruct (Z.eq_dec n 0) as [->|Hz]; [reflexivity|].
  rewrite double_of_long_canon by lia.
  destruct (Z.ltb_spec n 0); [lia|].
  assert (Hd : Zpos (digits2_pos (Z.to_pos (Z.abs n))) <= 53).
  { apply digits2_pos_le. rewrite Z2Pos.id by lia. lia. }
  unfold SFcanon, START_AT_THRESHOLD, DBL_MAX, SFeqb, SFcompare, double_prec.
  destruct (Z.compare_spec (0 + Zpos (digits2_pos (Z.to_pos (Z.abs n))) - 53) 971);
    [exfalso; lia|reflexivity|exfalso; lia].
Qed.

(** In the capture block callback, a start time left at START_NOW is
    latched to the start of the block, and the same time is put aside
    for the report; no threshold is looked for. *)
Theorem m5_writesf_perform_start_now
    (x : t_writesf) (blockStartTime : Z) (vecs : t_vecs) :
  SFeqb (x_m5PlayStartTime x) START_NOW = true ->
  0 <= blockStartTime < 2 ^ 53 ->
  m5_writesf_perform_start_time x blockStartTime vecs
  = set_x_m5WriteStartTimeReport (double_of_long blockStartTime)
      (set_x_m5PlayStartTime (double_of_long blockStartTime) x).
Proof.
  intros Hnow Hb. unfold m5_writesf_perform_start_time. rewrite Hnow.
  cbn [x_m5PlayStartTime set_x_m5WriteStartTimeReport set_x_m5PlayStartTime].
  rewrite SFeqb_whole_not_threshold by exact Hb. reflexivity.
Qed.

Lemma m5_writesf_perform_start_now_witness :
  let x := set_x_m5PlayStartTime START_NOW writesf_armed in
  m5_writesf_perform_start_time x 12800 (impulse 0 3 float_one)
  = set_x_m5WriteStartTimeReport (double_of_long 12800)
      (set_x_m5PlayStartTime (double_of_long 12800) x).
Proof.
  intros x.
  apply (m5_writesf_perform_start_now x 12800 (impulse 0 3 float_one));
    [reflexivity|lia].
Defined.




(** ** The arguments of a write request *)

(** What the flags of a write request may leave in the arguments parsed
    so far: a sample size among 2, 3, 4 and 8 bytes, and a sample rate
    that is positive or still unset. *)
Lemma m5_soundfiler_parsewriteflags_sound (types : list string) (n : nat) :
  forall (argv : list t_atom) (wa wa' : t_soundfiler_writeargs) (e e' : Z)
         (rest : list t_atom),
    (List.length argv <= n)%nat ->
    m5_soundfiler_parsewriteflags types wa e argv = Some (Some (wa', e', rest)) ->
    VALID_BYTESPERSAMPLE (wa_bytespersample wa) = true ->
    wa_samplerate wa = -1 \/ 0 < wa_samplerate wa ->
    VALID_BYTESPERSAMPLE (wa_bytespersample wa') = true
    /\ (wa_samplerate wa' = -1 \/ 0 < wa_samplerate wa')
    /\ exists flags : list t_atom, argv = flags ++ rest.
Proof.
  induction n as [|n IH]; intros argv wa wa' e e' rest Hlen H Hb Hs.
  - destruct argv; [|cbn in Hlen; lia]. cbn in H. injection H as <- <- <-.
    split; [exact Hb|]. split; [exact Hs|]. exists []. reflexivity.
  - assert (Hstop : Some (Some (wa, e, argv)) = Some (Some (wa', e', rest)) ->
              VALID_BYTESPERSAMPLE (wa_bytespersample wa') = true
              /\ (wa_samplerate wa' = -1 \/ 0 < wa_samplerate wa')
              /\ exists flags : list t_atom, argv = flags ++ rest).
    { intros [= <- <- <-]. split; [exact Hb|]. split; [exact Hs|]. exists []. reflexivity. }
    destruct argv as [|a argv1]; [exact (Hstop H)|].
    destruct a as [f|s]; [exact (Hstop H)|].
    destruct s as [|c flag]; [exact (Hstop H)|].
    destruct (Ascii.eqb_spec c "-"%char) as [->|Hne].
    2:{ destruct c as [[] [] [] [] [] [] [] []];
          try (exfalso; apply Hne; reflexivity); exact (Hstop H). }
    cbn [m5_soundfiler_parsewriteflags] in H. cbn [List.length] in Hlen.
    assert (Hone : forall wa1 e1,
              m5_soundfiler_parsewriteflags types wa1 e1 argv1 = Some (Some (wa', e', rest)) ->
              VALID_BYTESPERSAMPLE (wa_bytespersample wa1) = true ->
              wa_samplerate wa1 = -1 \/ 0 < wa_samplerate wa1 ->
              VALID_BYTESPERSAMPLE (wa_bytespersample wa') = true
              /\ (wa_samplerate wa' = -1 \/ 0 < wa_samplerate wa')
              /\ exists flags : list t_atom,
                   A_SYMBOL (String "-" flag) :: argv1 = flags ++ rest).
    { intros wa1 e1 H1 Hb1 Hs1.
      destruct (IH argv1 wa1 wa' e1 e' rest ltac:(lia) H1 Hb1 Hs1) as (B & S & fl & ->).
      split; [exact B|]. split; [exact S|].
      exists (A_SYMBOL (String "-" flag) :: fl). reflexivity. }
    assert (Htwo : forall f argv2 wa1 e1,
              argv1 = A_FLOAT f :: argv2 ->
              m5_soundfiler_parsewriteflags types wa1 e1 argv2 = Some (Some (wa', e', rest)) ->
              VALID_BYTESPERSAMPLE (wa_bytespersample wa1) = true ->
              wa_samplerate wa1 = -1 \/ 0 < wa_samplerate wa1 ->
              VALID_BYTESPERSAMPLE (wa_bytespersample wa') = true
              /\ (wa_samplerate wa' = -1 \/ 0 < wa_samplerate wa')
              /\ exists flags : list t_atom,
                   A_SYMBOL (String "-" flag) :: argv1 = flags ++ rest).
    { intros f argv2 wa1 e1 -> H1 Hb1 Hs1. cbn [List.length] in Hlen.
      destruct (IH argv2 wa1 wa' e1 e' rest ltac:(lia) H1 Hb1 Hs1) as (B & S & fl & ->).
      split; [exact B|]. split; [exact S|].
      exists (A_SYMBOL (String "-" flag) :: A_FLOAT f :: fl). reflexivity. }
    destruct (String.eqb flag "skip").
    { destruct argv1 as [|[f|s] argv2]; try discriminate.
      destruct (SFltb f float_zero); [discriminate|].
      destruct (ulong_of_float f) as [v|]; cbn [bind] in H; [|discriminate].
      apply (Htwo f argv2 _ _ eq_refl H); assumption. }
    destruct (String.eqb flag "nframes").
    { destruct argv1 as [|[f|s] argv2]; try discriminate.
      destruct (SFltb f float_zero); [discriminate|].
      destruct (ulong_of_float f) as [v|]; cbn [bind] in H; [|discriminate].
      apply (Htwo f argv2 _ _ eq_refl H); assumption. }
    destruct (String.eqb flag "bytes").
    { destruct argv1 as [|[f|s] argv2]; try discriminate.
      destruct (int_of_float f) as [v|]; cbn [bind] in H; [|discriminate].
      destruct (v <? 2); cbn [orb] in H; [discriminate|].
      destruct (VALID_BYTESPERSAMPLE v) eqn:Ev; cbn [negb] in H; [|discriminate].
      apply (Htwo f argv2 _ _ eq_refl H); [exact Ev|exact Hs]. }
    destruct (String.eqb flag "normalize").
    { apply (Hone _ _ H); assumption. }
    destruct (String.eqb flag "big").
    { apply (Hone _ _ H); assumption. }
    destruct (String.eqb flag "little").
    { apply (Hone _ _ H); assumption. }
    destruct (String.eqb flag "rate" || String.eqb flag "r").
    { destruct argv1 as [|[f|s] argv2]; try discriminate.
      destruct (int_of_float f) as [v|]; cbn [bind] in H; [|discriminate].
      destruct (Z.leb_spec v 0); [discriminate|].
      apply (Htwo f argv2 _ _ eq_refl H); [exact Hb|right; cbn; lia]. }
    destruct (String.eqb flag "ascii").
    { apply (Hone _ _ H); assumption. }
    destruct (String.eqb flag "nextstep").
    { apply (Hone _ _ H); assumption. }
    destruct (m5_soundfile_findtype types flag) as [t|]; [|discriminate].
    apply (Hone _ _ H); assumption.
Qed.

(** A write request that parses has the shape [flags... filename
    rest...]; the arguments parsed name a soundfile type, a sample size
    among 2, 3, 4 and 8 bytes, and a sample rate that is positive or left
    unset (-1). *)
Theorem m5_soundfiler_parsewriteargs_sound
    (pd : t_pd) (argv rest : list t_atom) (wa : t_soundfiler_writeargs)
    (effs : list t_effect) :
  m5_soundfiler_parsewriteargs pd argv = Some (Some (wa, rest, effs)) ->
  VALID_BYTESPERSAMPLE (wa_bytespersample wa) = true
  /\ (wa_samplerate wa = -1 \/ 0 < wa_samplerate wa)
  /\ (exists t : string, wa_type wa = Some t)
  /\ exists flags : list t_atom, argv = flags ++ A_SYMBOL (wa_filesym wa) :: rest.
Proof.
  unfold m5_soundfiler_parsewriteargs. intros H.
  destruct (m5_soundfiler_parsewriteflags _ _ _ argv) as [[[[wa0 e0] argv0]|]|] eqn:Ef;
    cbn [bind] in H; try discriminate.
  destruct (m5_soundfiler_parsewriteflags_sound _ _ _ _ _ _ _ _ (le_n _) Ef eq_refl
              (or_introl eq_refl)) as (B & S & fl & ->).
  destruct argv0 as [|[f|filesym] argv']; try discriminate.
  destruct (match wa_type wa0 with Some t => _ | None => _ end) as [[t|] ascii];
    cbn [bind] in H; [|discriminate].
  injection H as <- <- _. cbn [wa_bytespersample wa_samplerate wa_type wa_filesym].
  split; [exact B|]. split; [exact S|]. split; [exists t; reflexivity|].
  exists fl. reflexivity.
Qed.

Lemma m5_soundfiler_parsewriteargs_sound_witness :
  let wa := mkWriteargs "take.wav" (Some "wave"%string) 48000 3 0 SFMAXFRAMES 0 0 0 in
  VALID_BYTESPERSAMPLE (wa_bytespersample wa) = true
  /\ (wa_samplerate wa = -1 \/ 0 < wa_samplerate wa)
  /\ (exists t : string, wa_type wa = Some t)
  /\ exists flags : list t_atom,
       [A_SYMBOL "-bytes"; A_FLOAT (float_of_long 3); A_SYMBOL "-rate";
        A_FLOAT (float_of_long 48000); A_SYMBOL "take.wav"; A_FLOAT float_one]
       = flags ++ A_SYMBOL (wa_filesym wa) :: [A_FLOAT float_one].
Proof.
  intros wa.
  apply (m5_soundfiler_parsewriteargs_sound (pd_at 0) _ [A_FLOAT float_one] wa []).
  vm_compute. reflexivity.
Defined.



(** ** The block callback: lining up with the clock *)

Lemma ulong_of_float_of_long (n : Z) :
  0 <= n < 2 ^ 53 -> ulong_of_float (double_of_long n) = Some n.
Proof.
  intros Hn. unfold ulong_of_float, double_of_long.
  rewrite SFtrunc_binary_normalize by (unfold double_prec, double_emax; lia).
  rewrite in_ulong_true by (unfold ULONG_MAX; lia). reflexivity.
Qed.

(** Once the block callback has lined the fifo up with the clock, the
    tail time is the start of the block and no loop change is pending;
    and whenever the fifo is left empty, the worker is asked to read from
    the start of the block.  The block size and the fifo size are not
    touched. *)
Theorem m5_readsf_perform_sync_aligned (x x' : t_readsf) (blockStartTime : Z) :
  0 <= blockStartTime < 2 ^ 53 ->
  m5_readsf_perform_sync x blockStartTime = Some x' ->
  ulong_of_float (x_m5TailTime x') = Some blockStartTime
  /\ x_m5LoopLengthRequest x' = 0
  /\ (x_fifohead x' = x_fifotail x' ->
      x_m5HeadTimeRequest x' = double_of_long blockStartTime
      /\ x_m5TailTime x' = double_of_long blockStartTime)
  /\ x_vecsize x' = x_vecsize x /\ x_fifosize x' = x_fifosize x
  /\ x_sf x' = x_sf x /\ x_state x' = x_state x.
Proof.
  intros Hb H. pose proof (ulong_of_float_of_long blockStartTime Hb) as HD.
  unfold m5_readsf_perform_sync in H.
  set (x1 := if SFeqb (x_m5PlayStartTime x) START_NOW then _ else x) in H.
  assert (H1 : x_m5TailTime x1 = x_m5TailTime x /\ x_m5LoopLengthRequest x1 = x_m5LoopLengthRequest x
               /\ x_vecsize x1 = x_vecsize x /\ x_fifosize x1 = x_fifosize x
               /\ x_sf x1 = x_sf x /\ x_state x1 = x_state x).
  { unfold x1. destruct (SFeqb _ _); repeat split. }
  clearbody x1. destruct H1 as (T1 & R1 & V1 & F1 & S1 & St1).
  set (x2 := if negb (x_m5LoopLengthRequest x1 =? 0) then _ else x1) in H.
  assert (H2 : x_m5TailTime x2 = x_m5TailTime x1 /\ x_m5LoopLengthRequest x2 = 0
               /\ x_vecsize x2 = x_vecsize x1 /\ x_fifosize x2 = x_fifosize x1
               /\ x_sf x2 = x_sf x1 /\ x_state x2 = x_state x1).
  { unfold x2. destruct (Z.eqb_spec (x_m5LoopLengthRequest x1) 0); cbn [negb]; repeat split.
    assumption. }
  clearbody x2. destruct H2 as (T2 & R2 & V2 & F2 & S2 & St2).
  rewrite <- V1, <- V2, <- F1, <- F2, <- S1, <- S2, <- St1, <- St2. clear T1 R1 V1 F1 S1 St1 T2 V2 F2 S2 St2 x1 x.
  destruct (ulong_of_float (x_m5TailTime x2)) as [tt|] eqn:Ett; cbn [bind] in H; [|discriminate].
  match type of H with
  | bind ?c _ = _ => destruct c as [x3|] eqn:E3; cbn [bind] in H; [|discriminate]
  end.
  assert (H3 : x_m5LoopLengthRequest x3 = 0
               /\ x_vecsize x3 = x_vecsize x2 /\ x_fifosize x3 = x_fifosize x2
               /\ x_sf x3 = x_sf x2 /\ x_state x3 = x_state x2
               /\ (ulong_of_float (x_m5TailTime x3) = Some blockStartTime
                   \/ x_fifohead x3 = x_fifotail x3)).
  { destruct (Z.eqb_spec tt blockStartTime) as [->|Hne]; cbn [negb] in E3.
    - injection E3 as <-. repeat split; auto.
    - destruct (long_of_float (x_m5TailTime x2)) as [tf|]; cbn [bind] in E3; [|discriminate].
      destruct (wrap_long (wrap_long blockStartTime - tf) <? 0);
        match type of E3 with
        | (if ?c then _ else _) = _ => destruct c
        end; injection E3 as <-; cbn; repeat split; auto. }
  destruct H3 as (R3 & V3 & F3 & S3 & St3 & HT).
  rewrite <- V3, <- F3, <- S3, <- St3.
  destruct (Z.eqb_spec (x_fifohead x3) (x_fifotail x3)) as [Heq|Hne];
    injection H as <-; cbn.
  - repeat split; auto.
  - destruct HT as [HT|HT]; [|contradiction].
    repeat split; auto; contradiction.
Qed.

Lemma m5_readsf_perform_sync_aligned_witness :
  let x' := set_x_m5TailTime (double_of_long 12000)
              (set_x_m5HeadTimeRequest (double_of_long 12000) readsf_late) in
  ulong_of_float (x_m5TailTime x') = Some 12000
  /\ x_m5LoopLengthRequest x' = 0
  /\ (x_fifohead x' = x_fifotail x' ->
      x_m5HeadTimeRequest x' = double_of_long 12000
      /\ x_m5TailTime x' = double_of_long 12000)
  /\ x_vecsize x' = x_vecsize readsf_late /\ x_fifosize x' = x_fifosize readsf_late
  /\ x_sf x' = x_sf readsf_late /\ x_state x' = x_state readsf_late.
Proof.
  intros x'.
  apply (m5_readsf_perform_sync_aligned readsf_late x' 12000).
  - lia.
  - vm_compute. reflexivity.
Defined.




(** ** The block callback: playing a block *)



Section Transfer.
Variables (x x' : t_readsf) (blockStartTime : Z) (effs : list t_effect).
Hypothesis Hvec : 0 <= x_vecsize x <= INT_MAX.
Hypothesis Hbs : 0 <= blockStartTime <= ULONG_MAX.
Hypothesis Hrun : m5_readsf_perform_transfer x blockStartTime = Some (x', effs).




End Transfer.

(** ** The block callback as a whole *)

Lemma Some_ulong_of_float (x : spec_float) (z : Z) :
  ulong_of_float x = Some z -> 0 <= z <= ULONG_MAX.
Proof.
  unfold ulong_of_float. destruct (SFtrunc x) as [t|]; [|discriminate].
  destruct (in_ulong t) eqn:E; [|discriminate]. intros [= <-].
  unfold in_ulong in E. apply andb_prop in E as [E1 E2].
  apply Z.leb_le in E1, E2. lia.
Qed.




















(** The end of a playback: when the end time falls before the end of the
    block, the frames up to the end time are played and the rest of the
    block is silence; the object idles, asks the worker to close the file
    and schedules the bang; the fifo is left as it is. *)
Theorem m5_readsf_perform_transfer_end (x : t_readsf) (blockStartTime e : Z) :
  ulong_of_float (x_m5PlayEndTime x) = Some e ->
  0 <= x_vecsize x <= INT_MAX ->
  0 <= blockStartTime -> blockStartTime + x_vecsize x <= ULONG_MAX ->
  e < blockStartTime + x_vecsize x ->
  let played := Z.max 0 (e - blockStartTime) in
  m5_readsf_perform_transfer x blockStartTime
  = Some (set_x_requestcode REQUEST_CLOSE (set_x_state STATE_IDLE x),
          (if 0 <? played then [E_xferin 0 played] else [])
          ++ [E_clock_delay clock_bang; E_zero played (x_vecsize x - played)]).
Proof.
  intros He Hvec Hb Hmax Hend played.
  pose proof (Some_ulong_of_float _ _ He) as Hr.
  unfold m5_readsf_perform_transfer. cbv zeta.
  cbn [x_m5PlayEndTime x_m5PlayStartTime x_vecsize x_sf set_x_state].
  rewrite He. cbn [bind].
  rewrite !(wrap_ulong_id (x_vecsize x)) by (unfold ULONG_MAX, INT_MAX in *; lia).
  rewrite (wrap_ulong_id (blockStartTime + x_vecsize x)) by lia.
  destruct (Z.ltb_spec e (blockStartTime + x_vecsize x)); [|lia].
  destruct (Z.leb_spec e blockStartTime) as [Hle|Hgt].
  - replace played with 0 by (unfold played; lia).
    cbn [Z.eqb negb Z.ltb Z.compare].
    rewrite (wrap_ulong_id (x_vecsize x)) by (unfold ULONG_MAX, INT_MAX in *; lia).
    rewrite Z.sub_0_r. reflexivity.
  - replace played with (e - blockStartTime) by (unfold played; lia).
    rewrite (wrap_ulong_id (e - blockStartTime)) by lia.
    destruct (Z.ltb_spec (x_vecsize x) (e - blockStartTime)); [lia|].
    destruct (Z.eqb_spec (e - blockStartTime) 0); [lia|]. cbn [negb].
    destruct (Z.ltb_spec 0 (e - blockStartTime)); [|lia].
    rewrite (wrap_ulong_id (x_vecsize x - _)) by (unfold ULONG_MAX, INT_MAX in *; lia).
    rewrite (wrap_int_id (x_vecsize x - _)) by (unfold INT_MIN, INT_MAX in *; lia).
    rewrite (wrap_ulong_id (x_vecsize x - _)) by (unfold ULONG_MAX, INT_MAX in *; lia).
    reflexivity.
Qed.

Lemma m5_readsf_perform_transfer_end_witness :
  let x := set_x_m5PlayEndTime (double_of_long 10010) readsf_streaming in
  m5_readsf_perform_transfer x 10000
  = Some (set_x_requestcode REQUEST_CLOSE (set_x_state STATE_IDLE x),
          (if 0 <? Z.max 0 (10010 - 10000) then [E_xferin 0 (Z.max 0 (10010 - 10000))] else [])
          ++ [E_clock_delay clock_bang;
              E_zero (Z.max 0 (10010 - 10000)) (x_vecsize x - Z.max 0 (10010 - 10000))]).
Proof.
  intros x.
  apply (m5_readsf_perform_transfer_end x 10000 10010).
  - vm_compute. reflexivity.
  - vm_compute. intuition discriminate.
  - lia.
  - vm_compute. discriminate.
  - vm_compute. reflexivity.
Defined.

(** ** The refill period elsewhere *)

(** When the worker has opened the file, it arms the refill countdown
    with a period of one sixteenth of the fifo, counted in blocks. *)
Theorem m5_readsf_child_open_fifo_sixteenth (x x' : t_readsf) (sf : t_soundfile) :
  0 < sf_bytesperframe sf -> 0 < x_vecsize x ->
  16 * sf_bytesperframe sf * x_vecsize x <= INT_MAX ->
  m5_readsf_child_open_fifo x sf = Some x' ->
  x_sigperiod x' = Z.quot (x_fifosize x') (16 * sf_bytesperframe (x_sf x') * x_vecsize x')
  /\ x_sigcountdown x' = x_sigperiod x'.
Proof.
  intros Hb Hv Hmax H.
  exact (m5_readsf_child_open_fifo_sigperiod (sf_bytesperframe sf) (x_vecsize x)
           Hb Hv Hmax x x' sf eq_refl eq_refl H).
Qed.

Lemma m5_readsf_child_open_fifo_sixteenth_witness :
  x_sigperiod readsf_opened
  = Z.quot (x_fifosize readsf_opened)
      (16 * sf_bytesperframe (x_sf readsf_opened) * x_vecsize readsf_opened)
  /\ x_sigcountdown readsf_opened = x_sigperiod readsf_opened.
Proof.
  apply (m5_readsf_child_open_fifo_sixteenth readsf_armed readsf_opened
           (x_sf readsf_opened)).
  - vm_compute. reflexivity.
  - vm_compute. reflexivity.
  - vm_compute. discriminate.
  - vm_compute. reflexivity.
Defined.

(** The dsp method of the recorder sets the period to one sixteenth of
    the fifo, counted in blocks of the size the host announces. *)
Theorem m5_writesf_dsp_sixteenth (anchors anchors' : t_anchors) (x x' : t_writesf)
    (s_n : Z) (s_sr : t_float) (effs : list t_effect) :
  0 < sf_bytesperframe (x_sf x) -> 0 < s_n ->
  16 * sf_bytesperframe (x_sf x) * s_n <= INT_MAX ->
  INT_MIN <= x_fifosize x <= INT_MAX ->
  m5_writesf_dsp anchors x s_n s_sr = Some (x', anchors', effs) ->
  x_vecsize x' = s_n
  /\ x_sigperiod x' = Z.quot (x_fifosize x') (16 * sf_bytesperframe (x_sf x') * x_vecsize x').
Proof.
  intros Hb Hv Hmax Hf H. split.
  - unfold m5_writesf_dsp in H.
    destruct (m5_writesf_time_set anchors x (x_m5TimeAnchorName x)) as [[x1 a1] e1].
    destruct (int_div _ _) as [p|]; cbn [bind] in H; [|discriminate].
    injection H as <- _ _. reflexivity.
  - exact (m5_writesf_dsp_sigperiod (sf_bytesperframe (x_sf x)) s_n Hb Hv Hmax
             anchors anchors' x x' s_sr effs eq_refl Hf H).
Qed.

Lemma m5_writesf_dsp_sixteenth_witness :
  let x := set_x_fifosize 262144 writesf_armed in
  let x' := fst (fst (run_or (x, no_anchors, [])
                        (m5_writesf_dsp no_anchors x 64 (float_of_long 48000)))) in
  x_vecsize x' = 64
  /\ x_sigperiod x' = Z.quot (x_fifosize x') (16 * sf_bytesperframe (x_sf x') * x_vecsize x').
Proof.
  intros x x'.
  apply (m5_writesf_dsp_sixteenth no_anchors no_anchors x x' 64 (float_of_long 48000)
           [E_dsp_add]).
  - vm_compute. reflexivity.
  - lia.
  - vm_compute. discriminate.
  - vm_compute. intuition discriminate.
  - vm_compute. reflexivity.
Defined.

(** What an [open] of the recorder returns when its arguments parse: the
    countdown is armed with a period of one sixteenth of the fifo,
    counted in blocks. *)
Lemma m5_writesf_open_armed (pd : t_pd) (worker : t_writesf -> t_writesf)
    (x x' : t_writesf) (argv rest : list t_atom) (effs effs1 : list t_effect)
    (wa : t_soundfiler_writeargs) :
  m5_soundfiler_parsewriteargs pd argv = Some (Some (wa, rest, effs1)) ->
  wa_ascii wa = 0 ->
  m5_writesf_open pd worker x argv = Some (x', effs) ->
  0 < sf_bytesperframe (x_sf x') -> 0 < x_vecsize x' ->
  16 * sf_bytesperframe (x_sf x') * x_vecsize x' <= INT_MAX ->
  x_sigperiod x' = Z.quot (x_fifosize x') (16 * sf_bytesperframe (x_sf x') * x_vecsize x')
  /\ x_sigcountdown x' = x_sigperiod x'
  /\ x_state x' = STATE_STARTUP /\ x_requestcode x' = REQUEST_OPEN.
Proof.
  intros Hparse Hascii H Hb Hv Hmax.
  destruct (m5_writesf_open_sigperiod (sf_bytesperframe (x_sf x')) (x_vecsize x')
              Hb Hv Hmax pd worker x x' argv rest effs effs1 wa Hparse Hascii H
              eq_refl eq_refl) as [P C].
  split; [exact P|]. split; [exact C|].
  unfold m5_writesf_open in H.
  destruct (if negb (state_eqb (x_state x) STATE_IDLE) then _ else _)
    as [[x0 effs0]|]; cbn [bind] in H; [|discriminate].
  rewrite Hparse in H. cbn [bind] in H. rewrite Hascii in H. cbn [Z.eqb negb] in H.
  destruct (negb (request_eqb (x_requestcode _) REQUEST_NOTHING)); [discriminate|].
  destruct (if 0 <? wa_samplerate wa then _ else _) as [sr|]; cbn [bind] in H;
    [|discriminate].
  destruct (int_rem _ _) as [r|]; cbn [bind] in H; [|discriminate].
  destruct (int_div _ _) as [p|]; cbn [bind] in H; [|discriminate].
  injection H as <- _. split; reflexivity.
Qed.

Lemma request_eqb_eq (a b : t_soundfile_request) : a = b -> request_eqb a b = true.
Proof. intros ->. destruct b; reflexivity. Qed.

(** An [open] of the recorder returns once its wait for the worker is
    over, when the file's sample rate converts to [int] and a frame has a
    positive number of bytes. *)
Lemma m5_writesf_open_returns (pd : t_pd) (worker : t_writesf -> t_writesf)
    (x : t_writesf) (argv rest : list t_atom) (effs1 : list t_effect)
    (wa : t_soundfiler_writeargs) :
  m5_soundfiler_parsewriteargs pd argv = Some (Some (wa, rest, effs1)) ->
  wa_ascii wa = 0 ->
  let xw := m5_writesf_open_waited worker x in
  x_requestcode xw = REQUEST_NOTHING ->
  (0 < wa_samplerate wa
   \/ exists sr : Z,
        (if SFltb float_zero (x_insamplerate xw) then int_of_float (x_insamplerate xw)
         else int_of_float (sys_getsr pd)) = Some sr) ->
  let bpf := sf_nchannels (x_sf xw)
             * (if 2 <? wa_bytespersample wa then wa_bytespersample wa else 2) in
  0 < bpf -> bpf * MAXVECSIZE <= INT_MAX ->
  0 < x_vecsize xw -> 16 * bpf * x_vecsize xw <= INT_MAX ->
  exists (x' : t_writesf) (effs : list t_effect),
    m5_writesf_open pd worker x argv = Some (x', effs)
    /\ sf_bytesperframe (x_sf x') = bpf /\ x_vecsize x' = x_vecsize xw.
Proof.
  intros Hparse Hascii xw Hreq Hsr bpf Hb Hbmax Hv Hmax.
  unfold m5_writesf_open.
  set (r0 := if negb (state_eqb (x_state x) STATE_IDLE)
             then m5_writesf_stop x [] else Some (x, [])).
  assert (H0 : exists effs0,
             r0 = Some ((if negb (state_eqb (x_state x) STATE_IDLE)
                         then fst (run_or (x, []) (m5_writesf_stop x []))
                         else x), effs0)).
  { unfold r0. destruct (negb (state_eqb (x_state x) STATE_IDLE)).
    - unfold m5_writesf_stop. destruct (_ && _ && _); eexists; reflexivity.
    - eexists; reflexivity. }
  clearbody r0. destruct H0 as (effs0 & ->). cbn [bind].
  rewrite Hparse. cbn [bind]. rewrite Hascii. cbn [Z.eqb negb].
  fold (m5_writesf_open_waited worker x). fold xw.
  rewrite (request_eqb_eq _ _ Hreq). cbn [negb].
  assert (Hsr' : exists sr : Z,
             (if 0 <? wa_samplerate wa then Some (wa_samplerate wa)
              else if SFltb float_zero (x_insamplerate (set_x_filename (wa_filesym wa) xw))
                   then int_of_float (x_insamplerate (set_x_filename (wa_filesym wa) xw))
                   else int_of_float (sys_getsr pd)) = Some sr).
  { destruct (Z.ltb_spec 0 (wa_samplerate wa)) as [Hpos|Hneg]; [eexists; reflexivity|].
    destruct Hsr as [Hpos|Hsr]; [lia|]. exact Hsr. }
  destruct Hsr' as (sr & ->). cbn [bind].
  cbn [x_sf set_x_filename set_sf_type set_sf_samplerate set_sf_bytespersample
       set_sf_bigendian set_sf_bytesperframe sf_nchannels sf_bytespersample
       sf_bytesperframe].
  fold bpf.
  assert (Hbi : wrap_int bpf = bpf).
  { apply wrap_int_id. unfold INT_MIN, INT_MAX, MAXVECSIZE in *. lia. }
  rewrite Hbi.
  unfold int_rem, int_div.
  cbn -[Z.mul Z.quot Z.rem wrap_int Z.eqb Z.sub Z.add app MAXVECSIZE].
  rewrite (wrap_int_id (bpf * MAXVECSIZE))
    by (unfold INT_MIN, INT_MAX, MAXVECSIZE in *; lia).
  destruct (Z.eqb_spec (bpf * MAXVECSIZE) 0) as [E|_];
    [unfold MAXVECSIZE in E; lia|].
  cbn -[Z.mul Z.quot Z.rem wrap_int Z.eqb Z.sub Z.add app MAXVECSIZE].
  rewrite (sixteen_blocks_r bpf (x_vecsize xw) Hb Hv Hmax).
  destruct (Z.eqb_spec (16 * bpf * x_vecsize xw) 0) as [E|_]; [nia|].
  cbn -[Z.mul Z.quot Z.rem wrap_int Z.eqb Z.sub Z.add app MAXVECSIZE].
  eexists. eexists. split; [reflexivity|]. split; reflexivity.
Qed.


(** An [open] of the recorder whose arguments parse returns once its
    wait for the worker is over, and arms the countdown with a period of
    one sixteenth of the fifo, counted in blocks.  The recorder is first
    stopped if it was not idle; the wait is over when the worker leaves
    no request pending.  The sample rate is taken to convert to [int]
    and a frame to have a positive number of bytes. *)
Theorem m5_writesf_open_sixteenth (pd : t_pd) (worker : t_writesf -> t_writesf)
    (x : t_writesf) (argv rest : list t_atom) (effs1 : list t_effect)
    (wa : t_soundfiler_writeargs) :
  m5_soundfiler_parsewriteargs pd argv = Some (Some (wa, rest, effs1)) ->
  wa_ascii wa = 0 ->
  let xw := m5_writesf_open_waited worker x in
  x_requestcode xw = REQUEST_NOTHING ->
  (0 < wa_samplerate wa
   \/ exists sr : Z,
        (if SFltb float_zero (x_insamplerate xw) then int_of_float (x_insamplerate xw)
         else int_of_float (sys_getsr pd)) = Some sr) ->
  let bpf := sf_nchannels (x_sf xw)
             * (if 2 <? wa_bytespersample wa then wa_bytespersample wa else 2) in
  0 < bpf -> bpf * MAXVECSIZE <= INT_MAX ->
  0 < x_vecsize xw -> 16 * bpf * x_vecsize xw <= INT_MAX ->
  exists (x' : t_writesf) (effs : list t_effect),
    m5_writesf_open pd worker x argv = Some (x', effs)
    /\ sf_bytesperframe (x_sf x') = bpf /\ x_vecsize x' = x_vecsize xw
    /\ x_sigperiod x' = Z.quot (x_fifosize x') (16 * bpf * x_vecsize xw)
    /\ x_sigcountdown x' = x_sigperiod x'
    /\ x_state x' = STATE_STARTUP /\ x_requestcode x' = REQUEST_OPEN.
Proof.
  intros Hparse Hascii xw Hreq Hsr bpf Hb Hbmax Hv Hmax.
  destruct (m5_writesf_open_returns pd worker x argv rest effs1 wa
              Hparse Hascii Hreq Hsr Hb Hbmax Hv Hmax) as (x' & effs & Hrun & Hbpf & Hvec).
  exists x', effs. split; [exact Hrun|]. split; [exact Hbpf|]. split; [exact Hvec|].
  subst bpf xw. rewrite <- Hbpf, <- Hvec.
  apply (m5_writesf_open_armed pd worker x x' argv rest effs effs1 wa Hparse Hascii Hrun).
  - rewrite Hbpf. exact Hb.
  - rewrite Hvec. exact Hv.
  - rewrite Hbpf, Hvec. exact Hmax.
Qed.

Lemma m5_writesf_open_sixteenth_witness :
  let worker := fun y : t_writesf => set_x_requestcode REQUEST_NOTHING y in
  exists (x' : t_writesf) (effs : list t_effect),
    m5_writesf_open (pd_at 0) worker writesf_armed [A_SYMBOL "take.wav"] = Some (x', effs)
    /\ sf_bytesperframe (x_sf x') = 4 /\ x_vecsize x' = 128
    /\ x_sigperiod x' = Z.quot (x_fifosize x') (16 * 4 * 128)
    /\ x_sigcountdown x' = x_sigperiod x'
    /\ x_state x' = STATE_STARTUP /\ x_requestcode x' = REQUEST_OPEN.
Proof.
  intros worker.
  apply (m5_writesf_open_sixteenth (pd_at 0) worker writesf_armed
           [A_SYMBOL "take.wav"] [] []
           (mkWriteargs "take.wav" (Some "wave"%string) (-1) 2 0 SFMAXFRAMES 0 0 0)).
  - vm_compute. reflexivity.
  - reflexivity.
  - vm_compute. reflexivity.
  - right. exists 44100. vm_compute. reflexivity.
  - vm_compute. reflexivity.
  - vm_compute. discriminate.
  - vm_compute. reflexivity.
  - vm_compute. discriminate.
Defined.
